(** * Future Skills Lab: a model of [models.py]

    The program keeps a catalog of skills, careers and learning tracks,
    registers user profiles from the console and scores every career
    against a profile.  Python floats are binary64 numbers, modelled by the
    primitive [float] type (same format, same rounding); Python integers
    are [Z]; a [dict] is an association list in insertion order; console
    input and output are an explicit record threaded through the
    interactive methods.

    Four functions of the runtime are modelled on the part of their domain
    that the program is meant for, and the properties that depend on what
    they return are stated there:
    - [str.strip] and [int] on lines of ASCII characters, [int] on at most
      640 of them ([Py.linha_ascii], [Py.linha_simples]);
    - [int / int] on integers up to [2^53] in absolute value
      ([niveis_limitados]);
    - [list.sort] on keys none of which is [nan];
    - [sum] in its two versions, the running total of the interpreters up
      to CPython 3.11 and the compensated sum of CPython 3.12 and later
      ([Py.versao]). *)

From Stdlib Require Import Reals Lra Psatz.
From Stdlib Require Import ZArith List String Ascii Bool Lia.
From Stdlib Require Import Floats DecimalString Permutation Sorted.
From Stdlib Require Import DecimalN.
Import ListNotations.

Set Warnings "-inexact-float".

Local Open Scope string_scope.
Local Open Scope Z_scope.

(** ** The fragment of the Python runtime the program relies on *)

Module Py.

(** *** [dict]: insertion-ordered, one entry per key *)

Definition dict (V : Type) := list (string * V).

Fixpoint get {V : Type} (d : dict V) (k : string) : option V :=
  match d with
  | [] => None
  | (k', v) :: d' => if String.eqb k' k then Some v else get d' k
  end.

(** [d.get(k, dflt)] *)
Definition get_or {V : Type} (d : dict V) (k : string) (dflt : V) : V :=
  match get d k with
  | Some v => v
  | None => dflt
  end.

(** [d[k] = v]: an existing key keeps its position, a new key goes last. *)
Fixpoint set {V : Type} (d : dict V) (k : string) (v : V) : dict V :=
  match d with
  | [] => [(k, v)]
  | (k', v') :: d' =>
      if String.eqb k' k then (k', v) :: d' else (k', v') :: set d' k v
  end.

Definition keys {V : Type} (d : dict V) : list string := map fst d.
Definition values {V : Type} (d : dict V) : list V := map snd d.
Definition items {V : Type} (d : dict V) : list (string * V) := d.

(** A dict display [{k1: v1, k2: v2, ...}], entries taken left to right. *)
Definition literal {V : Type} (kvs : list (string * V)) : dict V :=
  fold_left (fun d kv => set d (fst kv) (snd kv)) kvs [].

(** The keys of a dict are pairwise distinct. *)
Definition wf {V : Type} (d : dict V) : Prop := NoDup (keys d).

(** *** Numbers *)

(** [float(n)] for an integer [n]: the nearest binary64 number, exact for
    [|n| <= 2^53]. *)
Definition float_of_int (n : Z) : float :=
  SF2Prim (binary_normalize prec emax n 0 false).

(** [a / b] on two integers (true division).  For operands up to [2^53]
    in absolute value CPython divides the two converted operands, which is
    what this definition does for every operand.  Beyond [2^53] CPython
    rounds the exact quotient once and raises [OverflowError] when it is
    too large for a float, so the definition stands for [a / b] on
    operands up to [2^53] only. *)
Definition truediv (a b : Z) : float :=
  (float_of_int a / float_of_int b)%float.

(** [sum(xs)] on floats as the interpreters up to CPython 3.11 compute
    it: starts from [0] and adds left to right. *)
Definition sum (xs : list float) : float :=
  fold_left PrimFloat.add xs 0%float.

(** One step of Neumaier's compensated summation, as in [sum] from
    CPython 3.12 on: [f] is the running total, [c] the compensation.
<<
      double t = f_result + x;
      if (fabs(f_result) >= fabs(x)) c += (f_result - t) + x;
      else                           c += (x - t) + f_result;
      f_result = t;
>> *)
Definition neumaier (st : float * float) (x : float) : float * float :=
  let (f, c) := st in
  let t := (f + x)%float in
  (t, if (abs x <=? abs f)%float then (c + ((f - t) + x))%float
      else (c + ((x - t) + f))%float).

(** [sum(xs)] on floats from CPython 3.12 on: the first item is added to
    the integer [0] the sum starts from, the others go through
    [neumaier], and the compensation joins the total in the end when it
    is finite and not zero. *)
Definition sum_compensada (xs : list float) : float :=
  match xs with
  | [] => 0%float
  | x :: xs' =>
      let (f, c) := fold_left neumaier xs' ((0 + x)%float, 0%float) in
      if negb (c =? 0)%float && (abs c <? infinity)%float
      then (f + c)%float else f
  end.

(** The interpreters the program runs on differ in [sum] only. *)
Inductive versao := ate_3_11 | desde_3_12.

Definition sum_v (v : versao) (xs : list float) : float :=
  match v with
  | ate_3_11 => sum xs
  | desde_3_12 => sum_compensada xs
  end.

(** *** Lists *)

(** [l[:n]]: a negative [n] counts from the end. *)
Definition slice_to {A : Type} (l : list A) (n : Z) : list A :=
  if 0 <=? n then firstn (Z.to_nat n) l
  else firstn (Z.to_nat (Z.of_nat (List.length l) + n)) l.

(** [l[i]]: a negative [i] counts from the end; [None] is [IndexError]. *)
Definition index {A : Type} (l : list A) (i : Z) : option A :=
  if 0 <=? i then nth_error l (Z.to_nat i)
  else if 0 <=? Z.of_nat (List.length l) + i
       then nth_error l (Z.to_nat (Z.of_nat (List.length l) + i))
       else None.

(** [l.sort(reverse=True, key=fst)] on pairs with a float key.  The sort
    is stable, so with [reverse=True] an entry moves in front of another
    one only when its key is strictly greater.  On keys without [nan]
    every stable sort returns this list; with a [nan] among the keys the
    comparisons are no order and [list.sort] may return another
    permutation, so the definition stands for [list.sort] on keys without
    [nan] only. *)
Fixpoint insert_desc {A : Type} (x : float * A) (l : list (float * A))
  : list (float * A) :=
  match l with
  | [] => [x]
  | y :: l' =>
      if (fst x <? fst y)%float then y :: insert_desc x l' else x :: y :: l'
  end.

Fixpoint sort_reverse {A : Type} (l : list (float * A)) : list (float * A) :=
  match l with
  | [] => []
  | x :: l' => insert_desc x (sort_reverse l')
  end.

(** *** Strings

    A [str] is the sequence of the bytes of its UTF-8 encoding.  White
    space and decimal digits are the ASCII ones: [strip] stands for
    [str.strip] on the strings of ASCII characters ([linha_ascii]), and
    [int] for the builtin on those of at most 640 characters
    ([linha_simples]).  Beyond ASCII, Python also strips the blanks of
    Unicode and reads its decimal digits; and CPython raises [ValueError]
    on too many digits, more than 4300 by default and never fewer than
    641, whatever the setting of the interpreter. *)

Fixpoint so_ascii (s : string) : bool :=
  match s with
  | EmptyString => true
  | String c s' => (Z.of_nat (nat_of_ascii c) <? 128) && so_ascii s'
  end.

(** Every character of the line is an ASCII character. *)
Definition linha_ascii (s : string) : Prop := so_ascii s = true.

(** An ASCII line of at most 640 characters. *)
Definition linha_simples (s : string) : Prop :=
  so_ascii s = true /\ Z.of_nat (String.length s) <= 640.

Definition is_space (c : ascii) : bool :=
  let n := Z.of_nat (nat_of_ascii c) in
  ((9 <=? n) && (n <=? 13)) || ((28 <=? n) && (n <=? 32)).

Fixpoint lstrip (s : string) : string :=
  match s with
  | EmptyString => EmptyString
  | String c s' => if is_space c then lstrip s' else s
  end.

Fixpoint rstrip (s : string) : string :=
  match s with
  | EmptyString => EmptyString
  | String c s' =>
      match rstrip s' with
      | EmptyString => if is_space c then EmptyString else String c EmptyString
      | r => String c r
      end
  end.

(** [s.strip()] on a [linha_ascii]. *)
Definition strip (s : string) : string := rstrip (lstrip s).

Definition digit_of (c : ascii) : option Z :=
  let n := Z.of_nat (nat_of_ascii c) in
  if (48 <=? n) && (n <=? 57) then Some (n - 48) else None.

(** Decimal digits, a single underscore allowed between two digits;
    [after_digit] tells whether the previous character was a digit. *)
Fixpoint parse_digits (s : string) (acc : Z) (after_digit : bool)
  : option Z :=
  match s with
  | EmptyString => if after_digit then Some acc else None
  | String c s' =>
      match digit_of c with
      | Some d => parse_digits s' (10 * acc + d) true
      | None =>
          if Ascii.eqb c "_" && after_digit then parse_digits s' acc false
          else None
      end
  end.

(** [int(s)] on a [linha_simples]; [None] is [ValueError]. *)
Definition int (s : string) : option Z :=
  match strip s with
  | String "-" r => option_map Z.opp (parse_digits r 0 false)
  | String "+" r => parse_digits r 0 false
  | r => parse_digits r 0 false
  end.

(** The integer nearest to [num / den] for [den > 0], ties to even. *)
Definition round_half_even (num den : Z) : Z :=
  let q := num / den in
  match 2 * (num mod den) ?= den with
  | Lt => q
  | Gt => q + 1
  | Eq => if Z.even q then q else q + 1
  end.

(** The integer nearest to [10 * m * 2^e], ties to even. *)
Definition tenths (m : positive) (e : Z) : Z :=
  if 0 <=? e then 10 * Zpos m * 2 ^ e
  else round_half_even (10 * Zpos m) (2 ^ (- e)).

Definition decimal (n : Z) : string :=
  NilZero.string_of_uint (N.to_uint (Z.to_N n)).

Definition sign_str (s : bool) : string := if s then "-" else "".

(** [str(n)] for an integer. *)
Definition str_int (n : Z) : string :=
  if n <? 0 then "-" ++ decimal (- n) else decimal n.

(** [enumerate(l, start)] *)
Fixpoint enumerate {A : Type} (start : Z) (l : list A) : list (Z * A) :=
  match l with
  | [] => []
  | x :: l' => (start, x) :: enumerate (start + 1) l'
  end.

(** [format(x, ".1f")]: the decimal expansion of [x] correctly rounded
    to one digit after the point. *)
Definition format_1f (x : float) : string :=
  match Prim2SF x with
  | S754_nan => "nan"
  | S754_infinity s => sign_str s ++ "inf"
  | S754_zero s => sign_str s ++ "0.0"
  | S754_finite s m e =>
      let n := tenths m e in
      sign_str s ++ decimal (n / 10) ++ "." ++ decimal (n mod 10)
  end.

End Py.

(** ** Data classes *)

Module Competencia.
Record t := make { nome : string; categoria : string; descricao : string }.
End Competencia.

Module Carreira.

Record t := make
  { nome : string;
    competencias_requeridas : Py.dict float;
    trilha : list string }.

(** One pass of the loop body of [calcular_pontuacao]. *)
Definition acumula (competencias_perfil : Py.dict Z)
           (total : float) (item : string * float) : float :=
  let (comp, peso) := item in
  let nivel := Py.get_or competencias_perfil comp 0 in
  (total + Py.truediv nivel 5 * peso)%float.

Definition calcular_pontuacao (self : t) (competencias_perfil : Py.dict Z)
  : float :=
  let soma_pesos := Py.sum (Py.values (competencias_requeridas self)) in
  if (soma_pesos =? 0)%float then 0%float
  else
    let total :=
      fold_left (acumula competencias_perfil)
                (Py.items (competencias_requeridas self)) 0%float in
    (total / soma_pesos * 100)%float.

(** [calcular_pontuacao] on the interpreter [v]: the same body, [sum]
    being the builtin of that interpreter.  [calcular_pontuacao] above is
    the case of the interpreters up to CPython 3.11. *)
Definition calcular_pontuacao_v (v : Py.versao) (self : t)
           (competencias_perfil : Py.dict Z) : float :=
  let soma_pesos := Py.sum_v v (Py.values (competencias_requeridas self)) in
  if (soma_pesos =? 0)%float then 0%float
  else
    let total :=
      fold_left (acumula competencias_perfil)
                (Py.items (competencias_requeridas self)) 0%float in
    (total / soma_pesos * 100)%float.

End Carreira.

Module Perfil.

Record t := make { nome : string; competencias : Py.dict Z }.

(** [Perfil(nome)]: no skill rated yet. *)
Definition novo (nome : string) : t := make nome [].

Definition adicionar_competencia (self : t) (competencia : string)
           (nivel : Z) : t :=
  make (nome self) (Py.set (competencias self) competencia nivel).

End Perfil.

(** ** Console

    [print] and [input] act on a console: the lines still to be read and
    what has been written so far, oldest first.  [input] on an exhausted
    console raises [EOFError], which no handler of the program catches. *)

Module IO.

Inductive event :=
| Printed (text : string)
| Prompted (prompt : string).

Record console := mk_console { stdin : list string; stdout : list event }.

Inductive result (A : Type) :=
| Ok (a : A) (c : console)
| EOFError (c : console).
Arguments Ok {A} a c.
Arguments EOFError {A} c.

Definition io (A : Type) := console -> result A.

Definition ret {A : Type} (a : A) : io A := fun c => Ok a c.

Definition bind {A B : Type} (m : io A) (k : A -> io B) : io B :=
  fun c =>
    match m c with
    | Ok a c' => k a c'
    | EOFError c' => EOFError c'
    end.

Definition emit (e : event) (c : console) : console :=
  mk_console (stdin c) (stdout c ++ [e]).

Definition print (text : string) : io unit :=
  fun c => Ok tt (emit (Printed text) c).

Definition input (prompt : string) : io string :=
  fun c =>
    match stdin c with
    | [] => EOFError (emit (Prompted prompt) c)
    | line :: rest => Ok line (mk_console rest (stdout c ++ [Prompted prompt]))
    end.

(** [for x in xs: body x] *)
Fixpoint for_each {A : Type} (xs : list A) (body : A -> io unit) : io unit :=
  match xs with
  | [] => ret tt
  | x :: xs' => bind (body x) (fun _ => for_each xs' body)
  end.

End IO.

Notation "x <- m ;; k" := (IO.bind m (fun x => k))
  (at level 61, m at next level, right associativity).
Notation "m ;;; k" := (IO.bind m (fun _ => k))
  (at level 61, right associativity).

Definition nl : string := String "010" EmptyString.

(** ** The advisory system *)

Module SistemaOrientacao.

Import IO.

Record t := make
  { competencias : Py.dict Competencia.t;
    carreiras : list Carreira.t;
    perfis : list Perfil.t;
    trilhas_competencias : Py.dict (list string) }.

Definition competencias_definidas : list Competencia.t :=
  [ Competencia.make "Lógica de Programação" "Técnica"
      "Capacidade de entender algoritmos e estruturas lógicas";
    Competencia.make "Criatividade" "Comportamental"
      "Habilidade de propor soluções inovadoras e originais";
    Competencia.make "Colaboração" "Comportamental"
      "Trabalhar bem em equipe e compartilhar conhecimento";
    Competencia.make "Adaptabilidade" "Comportamental"
      "Capacidade de se ajustar rapidamente a mudanças";
    Competencia.make "Pensamento Analítico" "Técnica"
      "Analisar dados e problemas de forma estruturada";
    Competencia.make "Inteligência Artificial" "Técnica"
      "Conhecimento em algoritmos e ferramentas de IA";
    Competencia.make "Comunicação" "Comportamental"
      "Expressar ideias de forma clara e objetiva";
    Competencia.make "Resolução de Problemas" "Comportamental"
      "Diagnosticar e resolver problemas de forma eficaz";
    Competencia.make "Curiosidade" "Comportamental"
      "Desejo contínuo de aprender coisas novas";
    Competencia.make "Liderança" "Comportamental"
      "Influenciar e motivar pessoas para atingir objetivos" ].

Definition trilhas_padrao : Py.dict (list string) :=
  Py.literal
    [ ("Lógica de Programação",
       [ "Curso introdutório de lógica no Codecademy";
         "Resolver desafios em plataformas como HackerRank ou LeetCode" ]);
      ("Criatividade",
       [ "Praticar brainstormings e design thinking";
         "Participar de workshops de inovação" ]);
      ("Colaboração",
       [ "Trabalhar em projetos em equipe";
         "Estudar metodologias ágeis" ]);
      ("Adaptabilidade",
       [ "Participar de cursos sobre gestão de mudanças";
         "Exercitar flexibilidade em projetos multidisciplinares" ]);
      ("Pensamento Analítico",
       [ "Aprender estatística básica e análise de dados";
         "Praticar interpretação de dashboards e gráficos" ]);
      ("Inteligência Artificial",
       [ "Fazer um curso de introdução ao Machine Learning";
         "Explorar bibliotecas de IA como TensorFlow ou PyTorch" ]);
      ("Comunicação",
       [ "Participar de debates e apresentações";
         "Estudar técnicas de storytelling" ]);
      ("Resolução de Problemas",
       [ "Praticar lógica e quebra-cabeças";
         "Aplicar metodologias como Design Thinking" ]);
      ("Curiosidade",
       [ "Ler artigos de diferentes áreas regularmente";
         "Explorar novos hobbies e ferramentas" ]);
      ("Liderança",
       [ "Participar de cursos de gestão de equipes";
         "Ler biografias de líderes inspiradores" ]) ].

Definition carreiras_padrao : list Carreira.t :=
  [ Carreira.make "Cientista de Dados"
      (Py.literal
         [ ("Lógica de Programação", 0.25%float);
           ("Pensamento Analítico", 0.30%float);
           ("Curiosidade", 0.10%float);
           ("Colaboração", 0.10%float);
           ("Resolução de Problemas", 0.25%float) ])
      [ "Curso de programação em Python";
        "Especialização em ciência de dados e estatística";
        "Projetos práticos de análise de dados" ];
    Carreira.make "Engenheiro de Software"
      (Py.literal
         [ ("Lógica de Programação", 0.30%float);
           ("Resolução de Problemas", 0.25%float);
           ("Colaboração", 0.15%float);
           ("Adaptabilidade", 0.15%float);
           ("Comunicação", 0.15%float) ])
      [ "Curso avançado de programação orientada a objetos";
        "Prática de versionamento com Git e GitHub";
        "Contribuição para projetos open source" ];
    Carreira.make "Designer de UX"
      (Py.literal
         [ ("Criatividade", 0.30%float);
           ("Comunicação", 0.20%float);
           ("Curiosidade", 0.10%float);
           ("Colaboração", 0.20%float);
           ("Adaptabilidade", 0.20%float) ])
      [ "Cursos de design de interface e experiência do usuário";
        "Estudos de usabilidade e comportamento do usuário";
        "Construção de portfólio com projetos de design" ];
    Carreira.make "Especialista em Cibersegurança"
      (Py.literal
         [ ("Lógica de Programação", 0.20%float);
           ("Pensamento Analítico", 0.30%float);
           ("Resolução de Problemas", 0.30%float);
           ("Adaptabilidade", 0.20%float) ])
      [ "Formação em segurança da informação";
        "Certificações como CEH ou CompTIA Security+";
        "Prática em ambientes de captura a bandeira (CTF)" ];
    Carreira.make "Engenheiro de Machine Learning"
      (Py.literal
         [ ("Lógica de Programação", 0.20%float);
           ("Inteligência Artificial", 0.40%float);
           ("Pensamento Analítico", 0.25%float);
           ("Curiosidade", 0.15%float) ])
      [ "Curso intensivo de Machine Learning";
        "Projetos de IA aplicados a problemas reais";
        "Estudo de algoritmos avançados de aprendizado" ];
    Carreira.make "Empreendedor Tecnológico"
      (Py.literal
         [ ("Criatividade", 0.30%float);
           ("Liderança", 0.30%float);
           ("Adaptabilidade", 0.20%float);
           ("Comunicação", 0.20%float) ])
      [ "Cursos de empreendedorismo e inovação";
        "Participação em hackathons e incubadoras";
        "Leitura sobre modelos de negócio e startups" ] ].

Definition _carregar_dados_padrao (self : t) : t :=
  make
    (fold_left (fun d comp => Py.set d (Competencia.nome comp) comp)
               competencias_definidas (competencias self))
    carreiras_padrao
    (perfis self)
    trilhas_padrao.

(** [SistemaOrientacao()] *)
Definition __init__ : t := _carregar_dados_padrao (make [] [] [] []).

Definition prompt_nivel (comp_nome : string) : string :=
  "Informe seu nível em '" ++ comp_nome ++ "' (1-5): ".

Definition entrada_invalida : string :=
  "Entrada inválida. Por favor, insira um número entre 1 e 5.".

(** The [while True] loop of [cadastrar_perfil] for one skill, by
    recursion on the lines still to be read: it ends at the first line
    that is an integer from 1 to 5, and with [EOFError] when the input
    runs out before. *)
Fixpoint ler_nivel (comp_nome : string) (perfil : Perfil.t)
         (entrada : list string) (saida : list event) : result Perfil.t :=
  let saida := (saida ++ [Prompted (prompt_nivel comp_nome)])%list in
  match entrada with
  | [] => EOFError (mk_console [] saida)
  | linha :: resto =>
      let valor_str := Py.strip linha in
      match Py.int valor_str with
      | Some valor =>
          if (1 <=? valor) && (valor <=? 5)
          then Ok (Perfil.adicionar_competencia perfil comp_nome valor)
                  (mk_console resto saida)
          else ler_nivel comp_nome perfil resto
                         (saida ++ [Printed entrada_invalida])%list
      | None =>
          ler_nivel comp_nome perfil resto
                    (saida ++ [Printed entrada_invalida])%list
      end
  end.

(** The [for comp_nome in self.competencias.keys()] loop. *)
Fixpoint ler_niveis (nomes : list string) (perfil : Perfil.t)
  : io Perfil.t :=
  match nomes with
  | [] => ret perfil
  | comp_nome :: nomes' =>
      perfil <- (fun c => ler_nivel comp_nome perfil (stdin c) (stdout c)) ;;
      ler_niveis nomes' perfil
  end.

Definition cadastrar_perfil (self : t) (nome : string)
  : io (t * Perfil.t) :=
  let perfil := Perfil.novo nome in
  print (nl ++ "Cadastro de competências para " ++ nome ++ ":") ;;;
  perfil <- ler_niveis (Py.keys (competencias self)) perfil ;;
  let self := make (competencias self) (carreiras self)
                   (perfis self ++ [perfil]) (trilhas_competencias self) in
  print (nl ++ "Perfil '" ++ nome ++ "' cadastrado com sucesso!" ++ nl) ;;;
  ret (self, perfil).

Definition listar_perfis (self : t) : io unit :=
  match perfis self with
  | [] => print ("Nenhum perfil cadastrado até o momento." ++ nl)
  | _ =>
      print (nl ++ "Perfis cadastrados:") ;;;
      for_each (Py.enumerate 1 (perfis self))
               (fun item =>
                  print (Py.str_int (fst item) ++ ". "
                         ++ Perfil.nome (snd item))) ;;;
      print ""
  end.

Definition mensagem (item : float * Carreira.t) : string :=
  Carreira.nome (snd item) ++ " - Compatibilidade: "
  ++ Py.format_1f (fst item) ++ "%".

(** [limite] is [None] when the caller leaves the default. *)
Definition recomendar_carreiras (self : t) (perfil : Perfil.t)
           (limite : option Z) : list string :=
  let limite := match limite with Some n => n | None => 3 end in
  let resultados :=
    map (fun carreira =>
           (Carreira.calcular_pontuacao carreira (Perfil.competencias perfil),
            carreira))
        (carreiras self) in
  let resultados := Py.sort_reverse resultados in
  map mensagem (Py.slice_to resultados limite).

Definition sugestao (comp_nome : string) (trilhas : list string) : string :=
  "Para melhorar em '" ++ comp_nome ++ "', considere: "
  ++ String.concat ", " trilhas.

Definition recomendar_trilhas_aprimoramento (self : t) (perfil : Perfil.t)
  : list string :=
  fold_left
    (fun recomendacoes (item : string * Z) =>
       let (comp_nome, nivel) := item in
       if nivel <? 3 then
         match Py.get_or (trilhas_competencias self) comp_nome [] with
         | [] => recomendacoes
         | trilhas => (recomendacoes ++ [sugestao comp_nome trilhas])%list
         end
       else recomendacoes)
    (Py.items (Perfil.competencias perfil)) [].

Definition menu : string :=
  nl ++ "========= Future Skills Lab =========" ++ nl
  ++ "1. Cadastrar novo perfil" ++ nl
  ++ "2. Listar perfis cadastrados" ++ nl
  ++ "3. Gerar recomendações de carreira" ++ nl
  ++ "4. Gerar trilhas de aprimoramento" ++ nl
  ++ "5. Sair" ++ nl.

(** One pass through the body of the [while True] loop of
    [menu_principal]; [None] is [break], [Some self] goes round again. *)
Definition menu_passo (self : t) : io (option t) :=
  print menu ;;;
  linha <- input "Escolha uma opção: " ;;
  let escolha := Py.strip linha in
  if (escolha =? "1")%string then
    linha <- input "Digite seu nome: " ;;
    let nome := Py.strip linha in
    if (nome =? "")%string then ret (Some self)
    else r <- cadastrar_perfil self nome ;; ret (Some (fst r))
  else if (escolha =? "2")%string then
    listar_perfis self ;;; ret (Some self)
  else if (escolha =? "3")%string then
    match perfis self with
    | [] =>
        print ("Cadastre um perfil antes de gerar recomendações." ++ nl) ;;;
        ret (Some self)
    | _ =>
        listar_perfis self ;;;
        linha <- input "Informe o número do perfil para ver as recomendações: " ;;
        match
          match Py.int (Py.strip linha) with
          | Some idx => Py.index (perfis self) (idx - 1)
          | None => None
          end
        with
        | None => print ("Perfil inválido." ++ nl) ;;; ret (Some self)
        | Some perfil =>
            let mensagens := recomendar_carreiras self perfil None in
            print (nl ++ "Recomendações de carreira para "
                   ++ Perfil.nome perfil ++ ":") ;;;
            for_each mensagens (fun msg => print ("- " ++ msg)) ;;;
            print "" ;;;
            ret (Some self)
        end
    end
  else if (escolha =? "4")%string then
    match perfis self with
    | [] =>
        print ("Cadastre um perfil antes de gerar trilhas de aprimoramento."
               ++ nl) ;;;
        ret (Some self)
    | _ =>
        listar_perfis self ;;;
        linha <- input "Informe o número do perfil para ver as trilhas de aprimoramento: " ;;
        match
          match Py.int (Py.strip linha) with
          | Some idx => Py.index (perfis self) (idx - 1)
          | None => None
          end
        with
        | None => print ("Perfil inválido." ++ nl) ;;; ret (Some self)
        | Some perfil =>
            let recomendacoes := recomendar_trilhas_aprimoramento self perfil in
            match recomendacoes with
            | [] =>
                print (Perfil.nome perfil
                       ++ " não possui competências com nota baixa. Parabéns!"
                       ++ nl) ;;;
                ret (Some self)
            | _ =>
                print (nl ++ "Trilhas de aprimoramento para "
                       ++ Perfil.nome perfil ++ ":") ;;;
                for_each recomendacoes (fun rec => print ("- " ++ rec)) ;;;
                print "" ;;;
                ret (Some self)
            end
        end
    end
  else if (escolha =? "5")%string then
    print "Saindo... obrigado por utilizar o Future Skills Lab!" ;;;
    ret None
  else
    print ("Opção inválida. Tente novamente." ++ nl) ;;;
    ret (Some self).

(** [menu_principal]: the loop, run for at most [fuel] passes.  The outer
    [None] means the passes ran out with the loop still going. *)
Fixpoint menu_principal (fuel : nat) (self : t) (c : console)
  : option (result t) :=
  match fuel with
  | O => None
  | S fuel' =>
      match menu_passo self c with
      | Ok (Some self') c' => menu_principal fuel' self' c'
      | Ok None c' => Some (Ok self c')
      | EOFError c' => Some (EOFError c')
      end
  end.

End SistemaOrientacao.

(** ** Binary64 facts

    The comparisons of the primitive floats as an order on keys, and two
    identities of the rounded operations: multiplying by one and dividing
    a number by itself. *)

Module F.

Definition nan_free (x : float) : Prop := Prim2SF x <> S754_nan.

(** A key whose lexicographic order is the order of the floats. *)
Definition key (x : spec_float) : Z * Z * Z :=
  match x with
  | S754_zero _ => (0, 0, 0)
  | S754_nan => (0, 0, 0)
  | S754_infinity false => (2, 0, 0)
  | S754_infinity true => (-2, 0, 0)
  | S754_finite false m e => (1, e, Zpos m)
  | S754_finite true m e => (-1, - e, Zneg m)
  end.

Definition lt3 (a b : Z * Z * Z) : Prop :=
  let '(a1, a2, a3) := a in
  let '(b1, b2, b3) := b in
  a1 < b1 \/ (a1 = b1 /\ (a2 < b2 \/ (a2 = b2 /\ a3 < b3))).

Definition cmp3 (a b : Z * Z * Z) : comparison :=
  let '(a1, a2, a3) := a in
  let '(b1, b2, b3) := b in
  match a1 ?= b1 with
  | Eq => match a2 ?= b2 with Eq => a3 ?= b3 | c => c end
  | c => c
  end.

Lemma cmp3_spec (a b : Z * Z * Z) :
  match cmp3 a b with
  | Lt => lt3 a b
  | Eq => a = b
  | Gt => lt3 b a
  end.
Proof.
  destruct a as [[a1 a2] a3], b as [[b1 b2] b3]. unfold cmp3, lt3.
  destruct (Z.compare_spec a1 b1); try lia.
  destruct (Z.compare_spec a2 b2); try lia.
  destruct (Z.compare_spec a3 b3); try lia.
  subst. reflexivity.
Qed.

Lemma SFcompare_key (x y : spec_float) :
  x <> S754_nan -> y <> S754_nan ->
  SFcompare x y = Some (cmp3 (key x) (key y)).
Proof.
  intros Hx Hy.
  destruct x as [sx|sx| |sx mx ex], y as [sy|sy| |sy my ey];
    try congruence;
    try (destruct sx); try (destruct sy); try reflexivity.
  simpl. rewrite Z.compare_opp.
  change (PosDef.Pos.compare_cont Eq mx my) with (mx ?= my)%positive.
  destruct (Z.compare_spec ey ex) as [He|He|He];
    destruct (Z.compare_spec ex ey) as [He'|He'|He']; try lia; reflexivity.
Qed.

Lemma SFcompare_nan_l (y : spec_float) : SFcompare S754_nan y = None.
Proof. destruct y; reflexivity. Qed.

Lemma SFcompare_nan_r (x : spec_float) : SFcompare x S754_nan = None.
Proof. destruct x; reflexivity. Qed.

Definition k (x : float) : Z * Z * Z := key (Prim2SF x).

Lemma ltb_true (x y : float) :
  (x <? y)%float = true <-> nan_free x /\ nan_free y /\ lt3 (k x) (k y).
Proof.
  rewrite ltb_spec. unfold SFltb, nan_free, k.
  destruct (Prim2SF x) eqn:Ex; try (rewrite SFcompare_nan_l; intuition congruence);
    (destruct (Prim2SF y) eqn:Ey; try (rewrite SFcompare_nan_r; intuition congruence));
    (rewrite SFcompare_key by congruence;
     match goal with |- context [cmp3 ?a ?b] =>
       generalize (cmp3_spec a b); destruct (cmp3 a b);
       destruct a as [[? ?] ?], b as [[? ?] ?]; unfold lt3;
       intros; split; intros; repeat split; try congruence; try lia end).
  all: try (match goal with H : (_, _, _) = (_, _, _) |- _ => inversion H; subst; lia end).
Qed.

Lemma leb_true (x y : float) :
  (x <=? y)%float = true <-> nan_free x /\ nan_free y /\ ~ lt3 (k y) (k x).
Proof.
  rewrite leb_spec. unfold SFleb, nan_free, k.
  destruct (Prim2SF x) eqn:Ex; try (rewrite SFcompare_nan_l; intuition congruence);
    (destruct (Prim2SF y) eqn:Ey; try (rewrite SFcompare_nan_r; intuition congruence));
    (rewrite SFcompare_key by congruence;
     match goal with |- context [cmp3 ?a ?b] =>
       generalize (cmp3_spec a b); destruct (cmp3 a b);
       destruct a as [[? ?] ?], b as [[? ?] ?]; unfold lt3;
       intros; split; intros; repeat split; try congruence; try lia end).
  all: try (match goal with H : (_, _, _) = (_, _, _) |- _ => inversion H; subst; lia end).
  all: try (exfalso; intuition lia).
Qed.

Lemma eqb_true (x y : float) :
  (x =? y)%float = true <-> nan_free x /\ nan_free y /\ k x = k y.
Proof.
  rewrite eqb_spec. unfold SFeqb, nan_free, k.
  destruct (Prim2SF x) eqn:Ex; try (rewrite SFcompare_nan_l; intuition congruence);
    (destruct (Prim2SF y) eqn:Ey; try (rewrite SFcompare_nan_r; intuition congruence));
    (rewrite SFcompare_key by congruence;
     match goal with |- context [cmp3 ?a ?b] =>
       generalize (cmp3_spec a b); destruct (cmp3 a b);
       destruct a as [[? ?] ?], b as [[? ?] ?]; unfold lt3;
       intros; split; intros; repeat split; try congruence; try lia end).
  all: try (match goal with H : _ /\ _ /\ (_, _, _) = (_, _, _) |- _ =>
              destruct H as [_ [_ H]]; inversion H; subst; lia end).
Qed.

Lemma is_nan_false (x : float) : is_nan x = false <-> nan_free x.
Proof.
  unfold is_nan. rewrite negb_false_iff, eqb_true. tauto.
Qed.

Ltac order_hyps :=
  repeat match goal with
         | H : (_ <? _)%float = true |- _ => apply ltb_true in H
         | H : (_ <=? _)%float = true |- _ => apply leb_true in H
         | H : (_ =? _)%float = true |- _ => apply eqb_true in H
         | H : (_ <? _)%float = false |- _ =>
             apply not_true_iff_false in H; rewrite ltb_true in H
         | H : (_ <=? _)%float = false |- _ =>
             apply not_true_iff_false in H; rewrite leb_true in H
         | H : (_ =? _)%float = false |- _ =>
             apply not_true_iff_false in H; rewrite eqb_true in H
         | H : is_nan _ = false |- _ => apply is_nan_false in H
         end.

Ltac order_goal :=
  match goal with
  | |- (_ <? _)%float = true => apply ltb_true
  | |- (_ <=? _)%float = true => apply leb_true
  | |- (_ =? _)%float = true => apply eqb_true
  | |- (_ <? _)%float = false =>
      apply not_true_iff_false; rewrite ltb_true; intro
  | |- (_ <=? _)%float = false =>
      apply not_true_iff_false; rewrite leb_true; intro
  | |- (_ =? _)%float = false =>
      apply not_true_iff_false; rewrite eqb_true; intro
  | _ => idtac
  end.

Ltac order :=
  order_hyps; order_goal; unfold lt3 in *;
  repeat match goal with
         | H : context [k ?x] |- _ => destruct (k x) as [[? ?] ?]
         | |- context [k ?x] => destruct (k x) as [[? ?] ?]
         end;
  intuition
    (repeat match goal with
            | H : (_, _, _) = (_, _, _) |- _ => inversion H; clear H; subst
            end;
     try congruence; try lia).

Lemma ltb_false_leb (x y : float) :
  nan_free x -> nan_free y -> (x <? y)%float = false -> (y <=? x)%float = true.
Proof. intros. order. Qed.

Lemma leb_trans (x y z : float) :
  (x <=? y)%float = true -> (y <=? z)%float = true -> (x <=? z)%float = true.
Proof. intros. order. Qed.

Lemma ltb_leb (x y : float) :
  (x <? y)%float = true -> (x <=? y)%float = true.
Proof. intros. order. Qed.

Lemma leb_refl (x : float) : nan_free x -> (x <=? x)%float = true.
Proof. intros. order. Qed.

Lemma eqb_ltb_neq (x y c : float) :
  (x =? c)%float = true -> (x <? y)%float = true -> (y =? c)%float = false.
Proof. intros. order. Qed.

Lemma leb_ltb_false (x y : float) :
  (x <=? y)%float = true -> (y <? x)%float = false.
Proof. intros. order. Qed.

Ltac zfold :=
  change IntDef.Z.add with Z.add in *;
  change IntDef.Z.sub with Z.sub in *;
  change IntDef.Z.mul with Z.mul in *;
  change IntDef.Z.opp with Z.opp in *;
  change IntDef.Z.max with Z.max in *;
  change IntDef.Z.min with Z.min in *;
  change IntDef.Z.leb with Z.leb in *;
  change IntDef.Z.eqb with Z.eqb in *;
  change IntDef.Z.compare with Z.compare in *;
  change IntDef.Z.even with Z.even in *;
  change IntDef.Z.shiftl with Z.shiftl in *;
  change IntDef.Z.div_eucl with Z.div_eucl in *;
  change PosDef.Pos.mul with Pos.mul in *.

Lemma valid_finite (s : bool) (m : positive) (e : Z) :
  valid_binary (S754_finite s m e) = true ->
  fexp prec emax (Zpos (digits2_pos m) + e) = e /\ e <= emax - prec.
Proof.
  unfold valid_binary, bounded, canonical_mantissa.
  rewrite andb_true_iff, Z.eqb_eq, Z.leb_le. tauto.
Qed.

Lemma shr_0 (mrs : shr_record) (e : Z) : shr mrs e 0 = (mrs, e).
Proof. reflexivity. Qed.

Lemma round_finite_exact (s : bool) (m : positive) (e : Z) :
  valid_binary (S754_finite s m e) = true ->
  binary_round_aux prec emax s (Zpos m) e loc_Exact = S754_finite s m e.
Proof.
  intros Hv. destruct (valid_finite s m e Hv) as [Hc He].
  unfold binary_round_aux, shr_fexp. zfold.
  cbn [Zdigits2 shr_record_of_loc].
  rewrite Hc, Z.sub_diag.
  cbn [shr shr_m round_nearest_even loc_of_shr_record shr_record_of_loc Zdigits2].
  rewrite Hc, Z.sub_diag.
  cbn [shr shr_m].
  apply Z.leb_le in He. rewrite He. reflexivity.
Qed.

(** [2^n * m], the way [Pos.mul] leaves it. *)
Fixpoint shift_pos (n : nat) (m : positive) : positive :=
  match n with
  | O => m
  | S n' => xO (shift_pos n' m)
  end.

Lemma digits2_shift_pos (n : nat) (m : positive) :
  Zpos (digits2_pos (shift_pos n m)) = Zpos (digits2_pos m) + Z.of_nat n.
Proof.
  induction n as [|n IH].
  - simpl. lia.
  - cbn [shift_pos digits2_pos]. rewrite Pos2Z.inj_succ, IH. lia.
Qed.

Lemma mul_1_l (w : float) : (1 * w)%float = w.
Proof.
  apply Prim2SF_inj. rewrite mul_spec.
  assert (Hv := Prim2SF_valid w).
  change (Prim2SF 1) with (S754_finite false 4503599627370496 (-52)).
  destruct (Prim2SF w) as [s|s| |s m e]; try reflexivity.
  destruct (valid_finite s m e Hv) as [Hc He].
  unfold SF64mul, SFmul. cbn [xorb].
  change (PosDef.Pos.mul 4503599627370496 m) with (shift_pos 52 m).
  unfold binary_round_aux, shr_fexp. zfold.
  cbn [Zdigits2 shr_record_of_loc].
  rewrite digits2_shift_pos.
  replace (Zpos (digits2_pos m) + Z.of_nat 52 + (-52 + e))
    with (Zpos (digits2_pos m) + e) by lia.
  rewrite Hc. replace (e - (-52 + e)) with 52 by lia.
  cbn [shift_pos shr iter_pos shr_1 orb].
  cbn [shr_m round_nearest_even loc_of_shr_record shr_record_of_loc Zdigits2].
  replace (-52 + e + 52) with e by lia.
  rewrite Hc, Z.sub_diag.
  cbn [shr shr_m].
  apply Z.leb_le in He. rewrite He. reflexivity.
Qed.

Lemma div_eucl_exact (a b : Z) : 0 < b -> Z.div_eucl (a * b) b = (a, 0).
Proof.
  intros Hb.
  generalize (Z.div_eucl_eq (a * b) b ltac:(lia)).
  generalize (Z.mod_pos_bound (a * b) b Hb).
  unfold Z.modulo. destruct (Z.div_eucl (a * b) b) as [q r].
  intros Hr Heq. assert (q = a) by nia. subst q.
  assert (r = 0) by lia. now subst r.
Qed.

Lemma finite_nonzero_inv (x : float) :
  is_finite x = true -> (x =? 0)%float = false ->
  exists s m e, Prim2SF x = S754_finite s m e.
Proof.
  unfold is_finite, is_nan, is_infinity.
  rewrite !eqb_spec, abs_spec.
  change (Prim2SF infinity) with (S754_infinity false).
  change (Prim2SF 0) with (S754_zero false).
  destruct (Prim2SF x) as [s|s| |s m e]; try (destruct s); cbn; try discriminate.
  all: intros _ _; eauto.
Qed.

Lemma div_same (x : float) :
  is_finite x = true -> (x =? 0)%float = false -> (x / x)%float = 1%float.
Proof.
  intros Hf Hz.
  apply Prim2SF_inj. rewrite div_spec.
  assert (Hv := Prim2SF_valid x).
  change (Prim2SF 1) with (S754_finite false 4503599627370496 (-52)).
  destruct (finite_nonzero_inv x Hf Hz) as [s [m [e Ex]]].
  rewrite Ex in *.
  unfold SF64div, SFdiv, SFdiv_core_binary. zfold.
  replace (Zdigits2 (Zpos m) + e - (Zdigits2 (Zpos m) + e)) with 0 by lia.
  rewrite Z.sub_diag.
  change (Z.min (fexp prec emax 0) 0) with (-53).
  change (0 - -53) with 53.
  cbv iota beta.
  rewrite Z.shiftl_mul_pow2 by lia.
  rewrite (Z.mul_comm (Zpos m)), div_eucl_exact by lia.
  replace (new_location (Zpos m) 0) with loc_Exact
    by (unfold new_location; destruct (Z.even (Zpos m)); reflexivity).
  rewrite xorb_nilpotent.
  reflexivity.
Qed.

Lemma positive_finite (x : float) :
  (0 <? x)%float = true -> (x <? infinity)%float = true ->
  is_finite x = true /\ (x =? 0)%float = false.
Proof.
  unfold is_finite, is_nan, is_infinity.
  rewrite !ltb_spec, !eqb_spec, abs_spec.
  change (Prim2SF infinity) with (S754_infinity false).
  change (Prim2SF 0) with (S754_zero false).
  destruct (Prim2SF x) as [s|s| |s m e]; try (destruct s); cbn;
    try discriminate; try (intros; split; reflexivity).
  all: unfold SFeqb, SFcompare; cbn.
  all: rewrite Z.compare_refl, Pos.compare_cont_refl; intros; split; reflexivity.
Qed.

End F.

Import SistemaOrientacao IO.

(** * Properties *)

(** The lines of a concrete input are ASCII lines of at most 640
    characters. *)
Ltac linhas_simples :=
  repeat (apply Forall_cons; [split; [reflexivity|vm_compute; discriminate]|]);
  apply Forall_nil.

(** ** Scoring: the formula of [calcular_pontuacao] *)

Section Formula.

Variable competencias_perfil : Py.dict Z.

(** The level the profile records for a skill, [0] when it records none. *)
Definition nivel_registrado (comp : string) : Z :=
  match Py.get competencias_perfil comp with
  | Some nivel => nivel
  | None => 0
  end.

(** The share of one required skill: [(level / 5) * weight]. *)
Definition parcela (item : string * float) : float :=
  (Py.truediv (nivel_registrado (fst item)) 5 * snd item)%float.

Lemma acumula_parcela (total : float) (item : string * float) :
  Carreira.acumula competencias_perfil total item
  = (total + parcela item)%float.
Proof. destruct item as [comp peso]. reflexivity. Qed.

Lemma fold_acumula (itens : list (string * float)) (total : float) :
  fold_left (Carreira.acumula competencias_perfil) itens total
  = fold_left PrimFloat.add (map parcela itens) total.
Proof.
  revert total.
  induction itens as [|item itens IH]; intros total; simpl.
  - reflexivity.
  - rewrite acumula_parcela. apply IH.
Qed.

End Formula.

(** Numbers accumulated one by one, from [0.0]. *)
Definition acumulado (xs : list float) : float :=
  fold_left PrimFloat.add xs 0%float.

(** The score as the specification words it, on the interpreter [v]:
    [0.0] when [sum] of the weights is zero, otherwise the weighted shares
    accumulated, divided by [sum] of the weights, times 100. *)
Definition pontuacao_especificada (v : Py.versao) (carreira : Carreira.t)
           (competencias_perfil : Py.dict Z) : float :=
  let itens := Py.items (Carreira.competencias_requeridas carreira) in
  let soma_pesos := Py.sum_v v (map snd itens) in
  if (soma_pesos =? 0)%float then 0%float
  else (acumulado (map (parcela competencias_perfil) itens)
        / soma_pesos * 100)%float.

Lemma calcular_pontuacao_v_parcelas (v : Py.versao) (carreira : Carreira.t)
      (competencias_perfil : Py.dict Z) :
  Carreira.calcular_pontuacao_v v carreira competencias_perfil
  = pontuacao_especificada v carreira competencias_perfil.
Proof.
  unfold Carreira.calcular_pontuacao_v, pontuacao_especificada, acumulado.
  unfold Py.values, Py.items.
  destruct (Py.sum_v v (map snd (Carreira.competencias_requeridas carreira))
            =? 0)%float.
  - reflexivity.
  - rewrite fold_acumula. reflexivity.
Qed.

(** Up to CPython 3.11 the two embeddings of [calcular_pontuacao] are the
    same function. *)
Lemma calcular_pontuacao_ate_3_11 (carreira : Carreira.t)
      (competencias_perfil : Py.dict Z) :
  Carreira.calcular_pontuacao carreira competencias_perfil
  = Carreira.calcular_pontuacao_v Py.ate_3_11 carreira competencias_perfil.
Proof. reflexivity. Qed.

(** So are they on every interpreter when [sum] returns the running total
    of the weights. *)
Lemma calcular_pontuacao_v_soma (v : Py.versao) (carreira : Carreira.t)
      (competencias_perfil : Py.dict Z) :
  Py.sum_v v (Py.values (Carreira.competencias_requeridas carreira))
  = Py.sum (Py.values (Carreira.competencias_requeridas carreira)) ->
  Carreira.calcular_pontuacao_v v carreira competencias_perfil
  = Carreira.calcular_pontuacao carreira competencias_perfil.
Proof.
  intros H. unfold Carreira.calcular_pontuacao_v, Carreira.calcular_pontuacao.
  now rewrite H.
Qed.

Lemma calcular_pontuacao_parcelas (carreira : Carreira.t)
      (competencias_perfil : Py.dict Z) :
  Carreira.calcular_pontuacao carreira competencias_perfil
  = pontuacao_especificada Py.ate_3_11 carreira competencias_perfil.
Proof.
  rewrite calcular_pontuacao_ate_3_11. apply calcular_pontuacao_v_parcelas.
Qed.

(** ** Scores depend on the profile only through the levels of the
    required skills *)

(** The score computed from the weights and, position by position, the
    levels looked up for them. *)
Definition pontuacao_niveis (pesos : list float) (niveis : list Z) : float :=
  let soma_pesos := Py.sum pesos in
  if (soma_pesos =? 0)%float then 0%float
  else
    (fold_left (fun total nw => total + Py.truediv (fst nw) 5 * snd nw)
               (combine niveis pesos) 0
     / soma_pesos * 100)%float.

Definition niveis_requeridos (carreira : Carreira.t)
           (competencias_perfil : Py.dict Z) : list Z :=
  map (nivel_registrado competencias_perfil)
      (Py.keys (Carreira.competencias_requeridas carreira)).

Lemma fold_parcelas_niveis (p : Py.dict Z) (itens : list (string * float))
      (total : float) :
  fold_left PrimFloat.add (map (parcela p) itens) total
  = fold_left (fun total nw => total + Py.truediv (fst nw) 5 * snd nw)%float
              (combine (map (nivel_registrado p) (map fst itens))
                       (map snd itens))
              total.
Proof.
  revert total.
  induction itens as [|[comp peso] itens IH]; intros total; simpl.
  - reflexivity.
  - rewrite IH. reflexivity.
Qed.

Lemma calcular_pontuacao_niveis (carreira : Carreira.t) (p : Py.dict Z) :
  Carreira.calcular_pontuacao carreira p
  = pontuacao_niveis (Py.values (Carreira.competencias_requeridas carreira))
                     (niveis_requeridos carreira p).
Proof.
  rewrite calcular_pontuacao_parcelas.
  unfold pontuacao_especificada, pontuacao_niveis, niveis_requeridos.
  unfold Py.values, Py.keys, Py.items, acumulado. cbn [Py.sum_v].
  destruct (Py.sum _ =? 0)%float; [reflexivity|].
  rewrite fold_parcelas_niveis. reflexivity.
Qed.

(** Every level a profile records is an integer from 1 to 5. *)
Definition niveis_validos (competencias_perfil : Py.dict Z) : Prop :=
  Forall (fun item => 1 <= snd item <= 5) competencias_perfil.

Lemma nivel_registrado_faixa (p : Py.dict Z) (comp : string) :
  niveis_validos p -> 0 <= nivel_registrado p comp <= 5.
Proof.
  unfold nivel_registrado.
  induction 1 as [|[k v] p Hv Hp IH]; simpl.
  - lia.
  - destruct (k =? comp)%string; simpl in *; lia.
Qed.

(** All the lists of [n] levels from 0 to 5. *)
Fixpoint vetores_niveis (n : nat) : list (list Z) :=
  match n with
  | O => [[]]
  | S n' =>
      flat_map (fun v => map (fun x => x :: v) [0; 1; 2; 3; 4; 5])
               (vetores_niveis n')
  end.

Lemma vetores_niveis_completo (niveis : list Z) :
  Forall (fun x => 0 <= x <= 5) niveis ->
  In niveis (vetores_niveis (List.length niveis)).
Proof.
  induction 1 as [|x niveis Hx Hn IH]; simpl.
  - now left.
  - apply in_flat_map. exists niveis. split; [exact IH|].
    assert (x = 0 \/ x = 1 \/ x = 2 \/ x = 3 \/ x = 4 \/ x = 5) as Hc by lia.
    simpl. intuition (subst; auto).
Qed.

Lemma niveis_requeridos_vetor (carreira : Carreira.t) (p : Py.dict Z) :
  niveis_validos p ->
  In (niveis_requeridos carreira p)
     (vetores_niveis
        (List.length (Py.values (Carreira.competencias_requeridas carreira)))).
Proof.
  intros Hp.
  replace (List.length (Py.values (Carreira.competencias_requeridas carreira)))
    with (List.length (niveis_requeridos carreira p)).
  - apply vetores_niveis_completo. unfold niveis_requeridos.
    apply Forall_forall. intros x Hx. apply in_map_iff in Hx.
    destruct Hx as [k [<- _]]. now apply nivel_registrado_faixa.
  - unfold niveis_requeridos, Py.values, Py.keys. now rewrite !length_map.
Qed.

(** A property of the scores of the built-in catalog that holds on every
    vector of levels from 0 to 5 holds for every valid profile. *)
Definition catalogo_satisfaz (ok : float -> bool) : bool :=
  forallb
    (fun carreira =>
       let pesos := Py.values (Carreira.competencias_requeridas carreira) in
       forallb (fun niveis => ok (pontuacao_niveis pesos niveis))
               (vetores_niveis (List.length pesos)))
    carreiras_padrao.

Lemma catalogo_satisfaz_correto (ok : float -> bool) :
  catalogo_satisfaz ok = true ->
  forall carreira p,
    In carreira carreiras_padrao -> niveis_validos p ->
    ok (Carreira.calcular_pontuacao carreira p) = true.
Proof.
  intros Hok carreira p Hc Hp.
  unfold catalogo_satisfaz in Hok.
  rewrite forallb_forall in Hok. specialize (Hok carreira Hc). simpl in Hok.
  rewrite forallb_forall in Hok.
  rewrite calcular_pontuacao_niveis. apply Hok.
  now apply niveis_requeridos_vetor.
Qed.

Definition em_0_100 (x : float) : bool := ((0 <=? x) && (x <=? 100))%float.

Lemma catalogo_em_0_100 : catalogo_satisfaz em_0_100 = true.
Proof. vm_compute. reflexivity. Qed.

(** C6. For every profile whose recorded levels are all integers from 1 to
    5 and every career of the built-in catalog, [calcular_pontuacao]
    returns a value in the interval [[0, 100]]. *)
Theorem pontuacao_catalogo_em_0_100 :
  forall (carreira : Carreira.t) (competencias_perfil : Py.dict Z),
    niveis_validos competencias_perfil ->
    In carreira carreiras_padrao ->
    (0 <=? Carreira.calcular_pontuacao carreira competencias_perfil)%float = true
    /\ (Carreira.calcular_pontuacao carreira competencias_perfil <=? 100)%float = true.
Proof.
  intros carreira p Hp Hc.
  apply andb_true_iff.
  exact (catalogo_satisfaz_correto em_0_100 catalogo_em_0_100 carreira p Hc Hp).
Qed.

Definition perfil_exemplo : Py.dict Z :=
  [("Curiosidade", 4); ("Lógica de Programação", 2); ("Liderança", 5)].

Lemma pontuacao_catalogo_em_0_100_witness :
  niveis_validos perfil_exemplo
  /\ Forall
       (fun carreira =>
          (0 <=? Carreira.calcular_pontuacao carreira perfil_exemplo)%float = true
          /\ (Carreira.calcular_pontuacao carreira perfil_exemplo <=? 100)%float = true)
       carreiras_padrao.
Proof.
  assert (Hv : niveis_validos perfil_exemplo)
    by (repeat constructor; simpl; lia).
  split; [exact Hv|].
  apply Forall_forall. intros carreira Hc.
  exact (pontuacao_catalogo_em_0_100 carreira perfil_exemplo Hv Hc).
Defined.

(** ** A profile at level 5 on every required skill *)

Definition soma_pesos (carreira : Carreira.t) : float :=
  Py.sum (Py.values (Carreira.competencias_requeridas carreira)).

(** The profile records level 5 for each required skill of the career. *)
Definition nivel_maximo (carreira : Carreira.t) (p : Py.dict Z) : Prop :=
  forall comp,
    In comp (Py.keys (Carreira.competencias_requeridas carreira)) ->
    Py.get p comp = Some 5.

Lemma parcelas_nivel_maximo (p : Py.dict Z) (itens : list (string * float)) :
  (forall comp, In comp (map fst itens) -> Py.get p comp = Some 5) ->
  map (parcela p) itens = map snd itens.
Proof.
  induction itens as [|[comp peso] itens IH]; intros H; simpl.
  - reflexivity.
  - rewrite IH by (intros c Hc; apply H; now right).
    unfold parcela at 1, nivel_registrado. simpl.
    rewrite (H comp) by now left.
    change (Py.truediv 5 5) with 1%float.
    now rewrite F.mul_1_l.
Qed.

(** The total weight as [sum] returns it on the interpreter [v]. *)
Definition soma_pesos_v (v : Py.versao) (carreira : Carreira.t) : float :=
  Py.sum_v v (Py.values (Carreira.competencias_requeridas carreira)).

(** C7 (amended). On every interpreter, for every career whose total
    required-skill weight, as [sum] returns it, is positive, finite and
    equal to the weights added one by one from left to right, every
    profile that records level 5 for each of the career's required skills
    receives exactly [100.0] from [calcular_pontuacao].  Up to CPython
    3.11 [sum] always returns that running total; from CPython 3.12 it
    may return another number, and does for the weights 0.1, 0.2, 0.3. *)
Theorem pontuacao_nivel_maximo :
  forall (v : Py.versao) (carreira : Carreira.t)
         (competencias_perfil : Py.dict Z),
    (0 <? soma_pesos_v v carreira)%float = true ->
    (soma_pesos_v v carreira <? infinity)%float = true ->
    soma_pesos_v v carreira = soma_pesos carreira ->
    nivel_maximo carreira competencias_perfil ->
    Carreira.calcular_pontuacao_v v carreira competencias_perfil = 100%float.
Proof.
  intros v carreira p Hpos Hfin Hsoma Hmax.
  destruct (F.positive_finite _ Hpos Hfin) as [Hf Hz].
  rewrite calcular_pontuacao_v_parcelas. unfold pontuacao_especificada.
  unfold Py.items. fold (Py.values (Carreira.competencias_requeridas carreira)).
  fold (soma_pesos_v v carreira). rewrite Hz.
  rewrite parcelas_nivel_maximo by exact Hmax.
  fold (Py.values (Carreira.competencias_requeridas carreira)).
  change (acumulado (Py.values (Carreira.competencias_requeridas carreira)))
    with (soma_pesos carreira).
  rewrite <- Hsoma.
  rewrite F.div_same by assumption.
  reflexivity.
Qed.

Definition carreira_exemplo : Carreira.t :=
  Carreira.make "Analista"
    (Py.literal [("Curiosidade", 0.5%float); ("Liderança", 0.25%float)]) [].

Lemma nivel_maximo_exemplo :
  nivel_maximo carreira_exemplo [("Liderança", 5); ("Curiosidade", 5)].
Proof.
  intros comp Hc. simpl in Hc.
  destruct Hc as [<-|[<-|[]]]; reflexivity.
Defined.

Lemma pontuacao_nivel_maximo_witness :
  (0 <? soma_pesos_v Py.desde_3_12 carreira_exemplo)%float = true
  /\ (soma_pesos_v Py.desde_3_12 carreira_exemplo <? infinity)%float = true
  /\ soma_pesos_v Py.desde_3_12 carreira_exemplo = soma_pesos carreira_exemplo
  /\ nivel_maximo carreira_exemplo [("Liderança", 5); ("Curiosidade", 5)]
  /\ Carreira.calcular_pontuacao_v Py.desde_3_12 carreira_exemplo
       [("Liderança", 5); ("Curiosidade", 5)] = 100%float.
Proof.
  split; [reflexivity|].
  split; [reflexivity|].
  split; [reflexivity|].
  split; [exact nivel_maximo_exemplo|].
  apply pontuacao_nivel_maximo;
    [reflexivity | reflexivity | reflexivity | exact nivel_maximo_exemplo].
Defined.

(** Three weights in the range the catalog uses whose compensated sum is
    not their running total: [0.6] against [0.6000000000000001]. *)
Definition carreira_compensada : Carreira.t :=
  Carreira.make "Compensada"
    (Py.literal [("Curiosidade", 0.1%float); ("Liderança", 0.2%float);
                 ("Colaboração", 0.3%float)]) [].

Definition perfil_nivel_5 : Py.dict Z :=
  [("Curiosidade", 5); ("Liderança", 5); ("Colaboração", 5)].

(** Two weights whose binary64 sum overflows. *)
Definition carreira_transbordo : Carreira.t :=
  Carreira.make "Transbordo"
    (Py.literal [("Curiosidade", 1e308%float); ("Liderança", 1e308%float)]) [].

(** C7 as stated fails.  From CPython 3.12 on, the total weight of
    [carreira_compensada] is positive and finite, the profile has level 5
    on its three skills, and the score is above [100.0], since the total
    accumulated by the loop is divided by the compensated [sum].  On every
    interpreter, the total weight of [carreira_transbordo] is positive
    ([+inf]), the profile has level 5 on both skills, and the score is
    [nan]. *)
Lemma pontuacao_nivel_maximo_counterexample :
  ((0 <? soma_pesos_v Py.desde_3_12 carreira_compensada)%float = true
   /\ (soma_pesos_v Py.desde_3_12 carreira_compensada <? infinity)%float = true
   /\ nivel_maximo carreira_compensada perfil_nivel_5
   /\ (100 <? Carreira.calcular_pontuacao_v Py.desde_3_12 carreira_compensada
                 perfil_nivel_5)%float = true
   /\ Carreira.calcular_pontuacao_v Py.desde_3_12 carreira_compensada
        perfil_nivel_5 <> 100%float)
  /\ ((0 <? soma_pesos_v Py.ate_3_11 carreira_transbordo)%float = true
      /\ (0 <? soma_pesos_v Py.desde_3_12 carreira_transbordo)%float = true
      /\ nivel_maximo carreira_transbordo [("Curiosidade", 5); ("Liderança", 5)]
      /\ is_nan (Carreira.calcular_pontuacao_v Py.ate_3_11 carreira_transbordo
                   [("Curiosidade", 5); ("Liderança", 5)]) = true
      /\ is_nan (Carreira.calcular_pontuacao_v Py.desde_3_12 carreira_transbordo
                   [("Curiosidade", 5); ("Liderança", 5)]) = true
      /\ Carreira.calcular_pontuacao_v Py.ate_3_11 carreira_transbordo
           [("Curiosidade", 5); ("Liderança", 5)] <> 100%float
      /\ Carreira.calcular_pontuacao_v Py.desde_3_12 carreira_transbordo
           [("Curiosidade", 5); ("Liderança", 5)] <> 100%float).
Proof.
  split.
  - split; [reflexivity|]. split; [reflexivity|]. split; [|split].
    + intros comp Hc. simpl in Hc.
      destruct Hc as [<-|[<-|[<-|[]]]]; reflexivity.
    + reflexivity.
    + intros H.
      assert (Hn : (100 <? Carreira.calcular_pontuacao_v Py.desde_3_12
                             carreira_compensada perfil_nivel_5)%float = true)
        by reflexivity.
      rewrite H in Hn. discriminate Hn.
  - split; [reflexivity|]. split; [reflexivity|]. split; [|split; [|split; [|split]]].
    + intros comp Hc. simpl in Hc.
      destruct Hc as [<-|[<-|[]]]; reflexivity.
    + reflexivity.
    + reflexivity.
    + intros H.
      assert (Hn : is_nan (Carreira.calcular_pontuacao_v Py.ate_3_11
                             carreira_transbordo
                             [("Curiosidade", 5); ("Liderança", 5)]) = true)
        by reflexivity.
      rewrite H in Hn. discriminate Hn.
    + intros H.
      assert (Hn : is_nan (Carreira.calcular_pontuacao_v Py.desde_3_12
                             carreira_transbordo
                             [("Curiosidade", 5); ("Liderança", 5)]) = true)
        by reflexivity.
      rewrite H in Hn. discriminate Hn.
Qed.

(** ** System states

    The methods only ever replace the profile store, so the states the
    program goes through are the freshly built system with some list of
    profiles. *)
Definition com_perfis (ps : list Perfil.t) : SistemaOrientacao.t :=
  SistemaOrientacao.make (competencias __init__) (carreiras __init__) ps
                         (trilhas_competencias __init__).

(** ** Learning-track suggestions *)

(** The skill has an entry in the learning-track index. *)
Definition tem_trilha (self : SistemaOrientacao.t) (comp_nome : string) : bool :=
  match Py.get (trilhas_competencias self) comp_nome with
  | Some _ => true
  | None => false
  end.

(** The skill is rated below 3 and the index has an entry for it. *)
Definition precisa_trilha (self : SistemaOrientacao.t) (item : string * Z) : bool :=
  (snd item <? 3) && tem_trilha self (fst item).

Definition sugestao_para (self : SistemaOrientacao.t) (item : string * Z) : string :=
  sugestao (fst item) (Py.get_or (trilhas_competencias self) (fst item) []).

(** No entry of the index is an empty list. *)
Definition trilhas_nao_vazias (self : SistemaOrientacao.t) : Prop :=
  Forall (fun entrada => snd entrada <> []) (trilhas_competencias self).

Lemma get_in {V : Type} (d : Py.dict V) (k : string) (v : V) :
  Py.get d k = Some v -> In (k, v) d.
Proof.
  induction d as [|[k' v'] d IH]; simpl; [discriminate|].
  destruct (String.eqb_spec k' k) as [->|Hne].
  - intros [= ->]. now left.
  - intros H. right. now apply IH.
Qed.

Lemma trilha_registrada (self : SistemaOrientacao.t) (comp_nome : string) :
  trilhas_nao_vazias self ->
  match Py.get_or (trilhas_competencias self) comp_nome [] with
  | [] => tem_trilha self comp_nome = false
  | _ => tem_trilha self comp_nome = true
  end.
Proof.
  intros Hne. unfold Py.get_or, tem_trilha.
  destruct (Py.get (trilhas_competencias self) comp_nome) as [trilhas|] eqn:Hg;
    [|reflexivity].
  destruct trilhas; [|reflexivity].
  apply get_in in Hg. unfold trilhas_nao_vazias in Hne.
  rewrite Forall_forall in Hne. now apply Hne in Hg.
Qed.

Lemma recomendar_trilhas_fold (self : SistemaOrientacao.t)
      (itens : list (string * Z)) (acc : list string) :
  trilhas_nao_vazias self ->
  fold_left
    (fun recomendacoes (item : string * Z) =>
       let (comp_nome, nivel) := item in
       if nivel <? 3 then
         match Py.get_or (trilhas_competencias self) comp_nome [] with
         | [] => recomendacoes
         | trilhas => (recomendacoes ++ [sugestao comp_nome trilhas])%list
         end
       else recomendacoes)
    itens acc
  = (acc ++ map (sugestao_para self) (filter (precisa_trilha self) itens))%list.
Proof.
  intros Hne. revert acc.
  induction itens as [|[comp nivel] itens IH]; intros acc.
  - simpl. now rewrite app_nil_r.
  - cbn [fold_left filter]. rewrite IH.
    unfold precisa_trilha at 2. cbn [fst snd].
    generalize (trilha_registrada self comp Hne).
    destruct (nivel <? 3); cbn [andb]; [|reflexivity].
    unfold sugestao_para at 2.
    destruct (Py.get_or (trilhas_competencias self) comp []) as [|t ts] eqn:Hg;
      intros ->; cbn [map fst].
    + reflexivity.
    + rewrite Hg, <- app_assoc. reflexivity.
Qed.

Lemma trilhas_padrao_nao_vazias (ps : list Perfil.t) :
  trilhas_nao_vazias (com_perfis ps).
Proof.
  unfold trilhas_nao_vazias. simpl.
  repeat constructor; discriminate.
Qed.

(** C3. For every profile, [recomendar_trilhas_aprimoramento] returns
    exactly one suggestion per skill whose recorded level is strictly
    below 3 and that has an entry in the learning-track index, in the
    insertion order of the profile's skill-level mapping.  Skills without
    an entry are skipped, and only the skills the profile records are
    looked at. *)
Theorem recomendar_trilhas_aprimoramento_spec :
  forall (ps : list Perfil.t) (perfil : Perfil.t),
    recomendar_trilhas_aprimoramento (com_perfis ps) perfil
    = map (sugestao_para (com_perfis ps))
          (filter (precisa_trilha (com_perfis ps))
                  (Py.items (Perfil.competencias perfil))).
Proof.
  intros ps perfil. unfold recomendar_trilhas_aprimoramento.
  now rewrite recomendar_trilhas_fold by apply trilhas_padrao_nao_vazias.
Qed.

(** ** The scenario of profile Ana *)

Lemma calcular_pontuacao_ext (carreira : Carreira.t) (p p' : Py.dict Z) :
  (forall comp,
      In comp (Py.keys (Carreira.competencias_requeridas carreira)) ->
      nivel_registrado p comp = nivel_registrado p' comp) ->
  Carreira.calcular_pontuacao carreira p = Carreira.calcular_pontuacao carreira p'.
Proof.
  intros H. rewrite !calcular_pontuacao_niveis. f_equal.
  unfold niveis_requeridos. now apply map_ext_in.
Qed.

(** Level 5 for the five skills of the scenario, level 1 for every other
    skill of the catalog. *)
Definition niveis_ana : Py.dict Z :=
  [ ("Lógica de Programação", 5); ("Criatividade", 1); ("Colaboração", 5);
    ("Adaptabilidade", 1); ("Pensamento Analítico", 5);
    ("Inteligência Artificial", 1); ("Comunicação", 1);
    ("Resolução de Problemas", 5); ("Curiosidade", 5); ("Liderança", 1) ].

(** The profile records the levels of [niveis_ana]. *)
Definition como_ana (competencias_perfil : Py.dict Z) : Prop :=
  forall item, In item niveis_ana ->
               Py.get competencias_perfil (fst item) = Some (snd item).

Lemma como_ana_nivel (p : Py.dict Z) (comp : string) :
  como_ana p -> In comp (Py.keys niveis_ana) ->
  nivel_registrado p comp = nivel_registrado niveis_ana comp.
Proof.
  intros H Hk. simpl in Hk.
  repeat match goal with
         | Hk : _ \/ _ |- _ => destruct Hk as [<-|Hk]
         | Hk : False |- _ => destruct Hk
         end.
  all: unfold nivel_registrado at 1;
    match goal with
    | |- match Py.get _ ?k with _ => _ end = ?rhs =>
        let v := eval vm_compute in rhs in
        let E := fresh in
        pose proof (H (k, v) ltac:(simpl; tauto)) as E; simpl in E; rewrite E
    end; reflexivity.
Qed.

Lemma carreiras_padrao_chaves :
  forall carreira comp,
    In carreira carreiras_padrao ->
    In comp (Py.keys (Carreira.competencias_requeridas carreira)) ->
    In comp (Py.keys niveis_ana).
Proof.
  intros carreira comp Hc Hk. simpl in Hc.
  repeat match goal with
         | Hc : _ \/ _ |- _ => destruct Hc as [<-|Hc]
         | Hc : False |- _ => destruct Hc
         end.
  all: simpl in Hk;
    repeat match goal with
           | Hk : _ \/ _ |- _ => destruct Hk as [<-|Hk]
           | Hk : False |- _ => destruct Hk
           end; simpl; tauto.
Qed.

Lemma recomendar_carreiras_ext (ps ps' : list Perfil.t) (perfil perfil' : Perfil.t)
      (limite : option Z) :
  (forall comp, In comp (Py.keys niveis_ana) ->
                nivel_registrado (Perfil.competencias perfil) comp
                = nivel_registrado (Perfil.competencias perfil') comp) ->
  recomendar_carreiras (com_perfis ps) perfil limite
  = recomendar_carreiras (com_perfis ps') perfil' limite.
Proof.
  intros H. unfold recomendar_carreiras. simpl carreiras.
  f_equal. f_equal. f_equal.
  apply map_ext_in. intros carreira Hc. f_equal.
  apply calcular_pontuacao_ext. intros comp Hk.
  apply H. now apply (carreiras_padrao_chaves carreira).
Qed.

(** C8. For a profile that records level 5 for Lógica de Programação,
    Pensamento Analítico, Curiosidade, Colaboração and Resolução de
    Problemas and level 1 for every other catalog skill, the first entry
    returned by [recomendar_carreiras] with the default limit is
    ["Cientista de Dados - Compatibilidade: 100.0%"]. *)
Theorem recomendar_carreiras_ana :
  forall (ps : list Perfil.t) (perfil : Perfil.t),
    como_ana (Perfil.competencias perfil) ->
    hd_error (recomendar_carreiras (com_perfis ps) perfil None)
    = Some "Cientista de Dados - Compatibilidade: 100.0%".
Proof.
  intros ps perfil H.
  rewrite (recomendar_carreiras_ext ps [] perfil (Perfil.make "Ana" niveis_ana)).
  - vm_compute. reflexivity.
  - intros comp Hk. now apply como_ana_nivel.
Qed.

Definition ana : Perfil.t := Perfil.make "Ana" niveis_ana.

Lemma como_ana_ana : como_ana (Perfil.competencias ana).
Proof.
  intros item Hi. simpl in Hi.
  repeat match goal with
         | Hi : _ \/ _ |- _ => destruct Hi as [<-|Hi]
         | Hi : False |- _ => destruct Hi
         end; reflexivity.
Defined.

Lemma recomendar_carreiras_ana_witness :
  como_ana (Perfil.competencias ana)
  /\ hd_error (recomendar_carreiras (com_perfis [ana]) ana None)
     = Some "Cientista de Dados - Compatibilidade: 100.0%".
Proof.
  split; [exact como_ana_ana|].
  exact (recomendar_carreiras_ana [ana] ana como_ana_ana).
Defined.

(** ** Choosing a profile in menu options 3 and 4 *)

(** What the [try] block of options 3 and 4 yields for the line typed:
    [None] when [int] raises [ValueError] or the indexing [IndexError]. *)
Definition selecionar (ps : list Perfil.t) (linha : string) : option Perfil.t :=
  match Py.int (Py.strip linha) with
  | Some idx => Py.index ps (idx - 1)
  | None => None
  end.

Lemma index_none {A : Type} (l : list A) (i : Z) :
  Py.index l i = None <-> i < - Z.of_nat (List.length l) \/ Z.of_nat (List.length l) <= i.
Proof.
  unfold Py.index.
  destruct (Z.leb_spec 0 i).
  - rewrite nth_error_None. lia.
  - destruct (Z.leb_spec 0 (Z.of_nat (List.length l) + i)).
    + rewrite nth_error_None. lia.
    + split; [lia|reflexivity].
Qed.

(** The selection fails exactly on a line that is not an integer, or an
    integer above the number of profiles, or one at or below its
    opposite: 0 and the negative numbers down to [1 - n] select a profile,
    counted from the end of the list. *)
Lemma selecionar_none (ps : list Perfil.t) (linha : string) :
  selecionar ps linha = None
  <-> match Py.int (Py.strip linha) with
      | None => True
      | Some idx =>
          idx <= - Z.of_nat (List.length ps) \/ Z.of_nat (List.length ps) < idx
      end.
Proof.
  unfold selecionar. destruct (Py.int (Py.strip linha)) as [idx|].
  - rewrite index_none. lia.
  - tauto.
Qed.

(** C4 fails on the code: with one profile registered, the line ["0"] is
    not in [[1, 1]], yet option 3 prints the career recommendations of the
    last profile and option 4 its learning tracks; neither prints
    ["Perfil inválido."]. *)
Theorem menu_perfil_zero :
  menu_passo (com_perfis [ana]) (mk_console ["3"; "0"] [])
  = Ok (Some (com_perfis [ana]))
       (mk_console []
          [ Printed menu;
            Prompted "Escolha uma opção: ";
            Printed (nl ++ "Perfis cadastrados:");
            Printed "1. Ana";
            Printed "";
            Prompted "Informe o número do perfil para ver as recomendações: ";
            Printed (nl ++ "Recomendações de carreira para Ana:");
            Printed "- Cientista de Dados - Compatibilidade: 100.0%";
            Printed "- Especialista em Cibersegurança - Compatibilidade: 84.0%";
            Printed "- Engenheiro de Software - Compatibilidade: 76.0%";
            Printed "" ])
  /\ menu_passo (com_perfis [ana]) (mk_console ["4"; "0"] [])
     = Ok (Some (com_perfis [ana]))
          (mk_console []
             ([ Printed menu;
                Prompted "Escolha uma opção: ";
                Printed (nl ++ "Perfis cadastrados:");
                Printed "1. Ana";
                Printed "";
                Prompted "Informe o número do perfil para ver as trilhas de aprimoramento: ";
                Printed (nl ++ "Trilhas de aprimoramento para Ana:") ]
              ++ map (fun rec => Printed ("- " ++ rec))
                     (recomendar_trilhas_aprimoramento (com_perfis [ana]) ana)
              ++ [ Printed "" ])).
Proof. split; vm_compute; reflexivity. Qed.

(** The scenario of the specification: index 99 with one profile. *)
Lemma menu_perfil_99 :
  menu_passo (com_perfis [ana]) (mk_console ["3"; "99"] [])
  = Ok (Some (com_perfis [ana]))
       (mk_console []
          [ Printed menu;
            Prompted "Escolha uma opção: ";
            Printed (nl ++ "Perfis cadastrados:");
            Printed "1. Ana";
            Printed "";
            Prompted "Informe o número do perfil para ver as recomendações: ";
            Printed ("Perfil inválido." ++ nl) ]).
Proof. vm_compute. reflexivity. Qed.

(** What [listar_perfis] writes. *)
Definition listagem (ps : list Perfil.t) : list event :=
  match ps with
  | [] => [Printed ("Nenhum perfil cadastrado até o momento." ++ nl)]
  | _ =>
      (Printed (nl ++ "Perfis cadastrados:")
       :: map (fun item => Printed (Py.str_int (fst item) ++ ". "
                                    ++ Perfil.nome (snd item)))
              (Py.enumerate 1 ps)
       ++ [Printed ""])%list
  end.

Lemma for_each_print {A : Type} (f : A -> string) (xs : list A) (c : console) :
  for_each xs (fun x => print (f x)) c
  = Ok tt (mk_console (stdin c) (stdout c ++ map (fun x => Printed (f x)) xs)).
Proof.
  revert c. induction xs as [|x xs IH]; intros c; simpl.
  - unfold ret. rewrite app_nil_r. now destruct c.
  - unfold bind, print. rewrite IH. unfold emit. simpl.
    now rewrite <- app_assoc.
Qed.

Lemma listar_perfis_spec (ps : list Perfil.t) (c : console) :
  listar_perfis (com_perfis ps) c
  = Ok tt (mk_console (stdin c) (stdout c ++ listagem ps)).
Proof.
  unfold listar_perfis, listagem, com_perfis. cbn [perfis].
  destruct ps as [|p ps]; [reflexivity|].
  unfold bind. unfold print at 1.
  rewrite (for_each_print
             (fun item : Z * Perfil.t =>
                Py.str_int (fst item) ++ ". " ++ Perfil.nome (snd item))).
  unfold print, emit. cbn [stdin stdout].
  now rewrite <- !app_assoc.
Qed.

(** On the code, options 3 and 4 answer ["Perfil inválido."] and go back
    to the menu exactly when the selection fails. *)
Lemma menu_perfil_invalido (ps : list Perfil.t) (linha : string)
      (resto : list string) (saida : list event) :
  ps <> [] -> selecionar ps linha = None ->
  menu_passo (com_perfis ps) (mk_console ("3" :: linha :: resto) saida)
  = Ok (Some (com_perfis ps))
       (mk_console resto
          (saida ++ [Printed menu; Prompted "Escolha uma opção: "]
           ++ listagem ps
           ++ [Prompted "Informe o número do perfil para ver as recomendações: ";
               Printed ("Perfil inválido." ++ nl)]))
  /\ menu_passo (com_perfis ps) (mk_console ("4" :: linha :: resto) saida)
     = Ok (Some (com_perfis ps))
          (mk_console resto
             (saida ++ [Printed menu; Prompted "Escolha uma opção: "]
              ++ listagem ps
              ++ [Prompted "Informe o número do perfil para ver as trilhas de aprimoramento: ";
                  Printed ("Perfil inválido." ++ nl)])).
Proof.
  intros Hps Hsel. unfold selecionar in Hsel.
  split.
  - unfold menu_passo. unfold bind at 1. unfold print at 1.
    unfold bind at 1. unfold input at 1. cbn [stdin emit stdout].
    change (Py.strip "3") with "3". cbn [String.eqb Ascii.eqb Bool.eqb].
    destruct ps as [|p ps]; [congruence|]. unfold com_perfis at 1. cbn [perfis]. fold (com_perfis (p :: ps)).
    unfold bind at 1. rewrite listar_perfis_spec. cbn [stdin stdout].
    unfold bind at 1. unfold input at 1. cbn [stdin stdout].
    change (perfis (com_perfis (p :: ps))) with (p :: ps).
    rewrite Hsel. unfold bind, print, ret, emit. cbn [stdin stdout].
    now rewrite <- !app_assoc.
  - unfold menu_passo. unfold bind at 1. unfold print at 1.
    unfold bind at 1. unfold input at 1. cbn [stdin emit stdout].
    change (Py.strip "4") with "4". cbn [String.eqb Ascii.eqb Bool.eqb].
    destruct ps as [|p ps]; [congruence|]. unfold com_perfis at 1. cbn [perfis]. fold (com_perfis (p :: ps)).
    unfold bind at 1. rewrite listar_perfis_spec. cbn [stdin stdout].
    unfold bind at 1. unfold input at 1. cbn [stdin stdout].
    change (perfis (com_perfis (p :: ps))) with (p :: ps).
    rewrite Hsel. unfold bind, print, ret, emit. cbn [stdin stdout].
    now rewrite <- !app_assoc.
Qed.

(** ** The text of a career recommendation *)

Definition is_digit (c : ascii) : bool :=
  match Py.digit_of c with
  | Some _ => true
  | None => false
  end.

Fixpoint all_digits (s : string) : bool :=
  match s with
  | EmptyString => true
  | String c s' => is_digit c && all_digits s'
  end.


Lemma string_of_uint_digits (u : Decimal.uint) :
  all_digits (NilEmpty.string_of_uint u) = true.
Proof. induction u; simpl; auto. Qed.

Lemma decimal_digits (n : Z) :
  all_digits (Py.decimal n) = true /\ (0 < String.length (Py.decimal n))%nat.
Proof.
  unfold Py.decimal, NilZero.string_of_uint.
  destruct (N.to_uint (Z.to_N n)) eqn:E;
    (split; [apply (string_of_uint_digits (_ u)) || reflexivity | simpl; lia]).
Qed.




Lemma in_firstn {A : Type} (n : nat) (l : list A) (x : A) :
  In x (firstn n l) -> In x l.
Proof.
  revert l. induction n as [|n IH]; intros [|y l]; simpl; try tauto.
  intros [->|H]; auto.
Qed.

Lemma in_slice_to {A : Type} (l : list A) (n : Z) (x : A) :
  In x (Py.slice_to l n) -> In x l.
Proof. unfold Py.slice_to. destruct (0 <=? n); apply in_firstn. Qed.

Lemma insert_desc_perm {A : Type} (x : float * A) (l : list (float * A)) :
  Permutation (Py.insert_desc x l) (x :: l).
Proof.
  induction l as [|y l IH]; simpl.
  - reflexivity.
  - destruct (fst x <? fst y)%float.
    + rewrite IH. apply perm_swap.
    + reflexivity.
Qed.

Lemma sort_reverse_perm {A : Type} (l : list (float * A)) :
  Permutation (Py.sort_reverse l) l.
Proof.
  induction l as [|x l IH]; simpl.
  - reflexivity.
  - now rewrite insert_desc_perm, IH.
Qed.

(** The (score, career) pairs [recomendar_carreiras] builds. *)
Definition pontuadas (self : SistemaOrientacao.t) (perfil : Perfil.t)
  : list (float * Carreira.t) :=
  map (fun carreira =>
         (Carreira.calcular_pontuacao carreira (Perfil.competencias perfil),
          carreira))
      (carreiras self).





(** ** Registration *)

(** The lines considered are the ones on which [Py.strip] and [Py.int]
    are [str.strip] and [int]: ASCII characters, at most 640 of them. *)

(** The line parses as an integer from 1 to 5, namely [valor]. *)
Definition aceita (linha : string) (valor : Z) : Prop :=
  Py.linha_simples linha
  /\ Py.int (Py.strip linha) = Some valor /\ 1 <= valor <= 5.

(** The line does not parse as an integer from 1 to 5. *)
Definition rejeitada (linha : string) : Prop :=
  Py.linha_simples linha
  /\ match Py.int (Py.strip linha) with
     | Some valor => valor < 1 \/ 5 < valor
     | None => True
     end.

(** What the user types for one skill: any number of rejected lines, then
    an accepted one. *)
Record tentativa := mk_tentativa
  { recusadas : list string; final : string; valor : Z }.

Definition tentativa_ok (t : tentativa) : Prop :=
  Forall rejeitada (recusadas t) /\ aceita (final t) (valor t).

Definition linhas (t : tentativa) : list string :=
  (recusadas t ++ [final t])%list.

(** What the console shows for one skill: the prompt and the error message
    for each rejected line, then the prompt once more. *)
Definition dialogo (comp_nome : string) (t : tentativa) : list event :=
  (flat_map (fun _ => [Prompted (prompt_nivel comp_nome);
                       Printed entrada_invalida])
            (recusadas t)
   ++ [Prompted (prompt_nivel comp_nome)])%list.

Fixpoint dialogos (nomes : list string) (ts : list tentativa) : list event :=
  match nomes, ts with
  | comp_nome :: nomes', t :: ts' =>
      (dialogo comp_nome t ++ dialogos nomes' ts')%list
  | _, _ => []
  end.

Lemma ler_nivel_spec (comp_nome : string) (perfil : Perfil.t) (t : tentativa)
      (resto : list string) (saida : list event) :
  tentativa_ok t ->
  ler_nivel comp_nome perfil (linhas t ++ resto) saida
  = Ok (Perfil.adicionar_competencia perfil comp_nome (valor t))
       (mk_console resto (saida ++ dialogo comp_nome t)).
Proof.
  destruct t as [rs f v]. unfold tentativa_ok, linhas, dialogo. simpl.
  intros [Hrs [_ [Hf Hv]]]. revert saida.
  induction Hrs as [|r rs Hr Hrs IH]; intros saida; simpl.
  - rewrite Hf.
    assert ((1 <=? v) && (v <=? 5) = true) as -> by (apply andb_true_iff; lia).
    reflexivity.
  - unfold rejeitada in Hr. destruct Hr as [_ Hr].
    destruct (Py.int (Py.strip r)) as [n|].
    + assert ((1 <=? n) && (n <=? 5) = false) as -> by (apply andb_false_iff; lia).
      rewrite IH. now rewrite <- !app_assoc.
    + rewrite IH. now rewrite <- !app_assoc.
Qed.

Lemma ler_niveis_spec (nomes : list string) (ts : list tentativa)
      (perfil : Perfil.t) (resto : list string) (saida : list event) :
  List.length ts = List.length nomes ->
  Forall tentativa_ok ts ->
  ler_niveis nomes perfil (mk_console (flat_map linhas ts ++ resto) saida)
  = Ok (fold_left (fun p nt => Perfil.adicionar_competencia p (fst nt) (valor (snd nt)))
                  (combine nomes ts) perfil)
       (mk_console resto (saida ++ dialogos nomes ts)).
Proof.
  revert ts perfil saida.
  induction nomes as [|nome nomes IH]; intros [|t ts] perfil saida Hlen Hok;
    try discriminate.
  - simpl. unfold ret. now rewrite app_nil_r.
  - inversion Hok as [|? ? Ht Hts]; subst.
    simpl. unfold bind. simpl. rewrite <- app_assoc.
    rewrite ler_nivel_spec by assumption.
    rewrite IH by (simpl in Hlen; auto with arith).
    now rewrite <- app_assoc.
Qed.

Lemma set_novo {V : Type} (d : Py.dict V) (k : string) (v : V) :
  ~ In k (Py.keys d) -> Py.set d k v = (d ++ [(k, v)])%list.
Proof.
  induction d as [|[k' v'] d IH]; simpl; intros Hn.
  - reflexivity.
  - destruct (String.eqb_spec k' k) as [->|Hne].
    + tauto.
    + rewrite IH by tauto. reflexivity.
Qed.

Lemma niveis_registrados (nome : string) (nomes : list string)
      (ts : list tentativa) (d : Py.dict Z) :
  List.length ts = List.length nomes ->
  NoDup (Py.keys d ++ nomes)%list ->
  fold_left (fun p nt => Perfil.adicionar_competencia p (fst nt) (valor (snd nt)))
            (combine nomes ts) (Perfil.make nome d)
  = Perfil.make nome (d ++ combine nomes (map valor ts))%list.
Proof.
  revert ts d.
  induction nomes as [|n nomes IH]; intros [|t ts] d Hlen Hnd; try discriminate.
  - simpl. now rewrite app_nil_r.
  - simpl. unfold Perfil.adicionar_competencia at 2. simpl.
    rewrite set_novo.
    + rewrite IH.
      * now rewrite <- app_assoc.
      * simpl in Hlen. auto with arith.
      * unfold Py.keys in *. rewrite map_app. simpl. now rewrite <- app_assoc.
    + apply NoDup_remove_2 in Hnd. intros Hin. apply Hnd.
      apply in_or_app. now left.
Qed.

(** C5. [cadastrar_perfil] asks for every skill of the catalog in catalog
    order; for each one it asks again, however many times, after every
    line that is not an integer from 1 to 5, with an error message, and
    goes on at the first line that is.  Lines such as ["abc"], ["0"],
    ["6"], ["-1"] are rejected and ["1"] to ["5"] accepted.  In the end
    the new profile, with the level typed for each catalog skill, is
    appended to the profile store and returned.  The lines typed are
    ASCII lines of at most 640 characters ([Py.linha_simples], part of
    [aceita] and [rejeitada]), the ones [Py.strip] and [Py.int] read as
    Python does. *)
Theorem cadastrar_perfil_spec :
  forall (self : SistemaOrientacao.t) (nome : string) (ts : list tentativa)
         (resto : list string) (saida : list event),
    Py.wf (competencias self) ->
    List.length ts = List.length (Py.keys (competencias self)) ->
    Forall tentativa_ok ts ->
    let perfil :=
      Perfil.make nome (combine (Py.keys (competencias self)) (map valor ts)) in
    cadastrar_perfil self nome (mk_console (flat_map linhas ts ++ resto) saida)
    = Ok (SistemaOrientacao.make (competencias self) (carreiras self)
            (perfis self ++ [perfil])%list (trilhas_competencias self),
          perfil)
         (mk_console resto
            (saida
             ++ [Printed (nl ++ "Cadastro de competências para " ++ nome ++ ":")]
             ++ dialogos (Py.keys (competencias self)) ts
             ++ [Printed (nl ++ "Perfil '" ++ nome ++ "' cadastrado com sucesso!"
                          ++ nl)])%list)
    /\ (rejeitada "abc" /\ rejeitada "0" /\ rejeitada "6" /\ rejeitada "-1")
    /\ (aceita "1" 1 /\ aceita "2" 2 /\ aceita "3" 3 /\ aceita "4" 4
        /\ aceita "5" 5).
Proof.
  intros self nome ts resto saida Hwf Hlen Hok perfil.
  split; [|split].
  - unfold cadastrar_perfil. unfold bind at 1. unfold print at 1.
    unfold emit. cbn [stdin stdout].
    unfold bind at 1. rewrite ler_niveis_spec by assumption.
    unfold Perfil.novo. rewrite niveis_registrados; [|assumption|exact Hwf].
    unfold bind, print, ret, emit. cbn [stdin stdout app].
    subst perfil. now rewrite <- !app_assoc.
  - unfold rejeitada, Py.linha_simples.
    repeat split; try reflexivity; vm_compute; auto; discriminate.
  - unfold aceita, Py.linha_simples.
    repeat split; try reflexivity; vm_compute; congruence.
Qed.

Definition tentativas_exemplo : list tentativa :=
  [ mk_tentativa ["abc"; "0"; "6"; "-1"] "1" 1;
    mk_tentativa [] "2" 2; mk_tentativa [" 7"] "3 " 3; mk_tentativa [] "4" 4;
    mk_tentativa [] "5" 5; mk_tentativa [] "5" 5; mk_tentativa [] "4" 4;
    mk_tentativa [""] "+3" 3; mk_tentativa [] "2" 2; mk_tentativa [] "1" 1 ].

Lemma competencias_padrao_wf : Py.wf (competencias __init__).
Proof.
  unfold Py.wf. simpl.
  repeat (constructor; [simpl; intuition discriminate|]). constructor.
Defined.

Lemma tentativas_exemplo_ok : Forall tentativa_ok tentativas_exemplo.
Proof.
  unfold tentativas_exemplo, tentativa_ok, aceita, rejeitada, Py.linha_simples.
  repeat (apply Forall_cons;
          [cbn [recusadas final valor]; split;
           [repeat (apply Forall_cons;
                    [split; [split; [reflexivity|vm_compute; discriminate]
                            |vm_compute; auto]|]);
            apply Forall_nil
           | split; [split; [reflexivity|vm_compute; discriminate]
                    |split; [reflexivity|lia]]]|]).
  apply Forall_nil.
Defined.

Lemma cadastrar_perfil_spec_witness :
  Py.wf (competencias __init__)
  /\ List.length tentativas_exemplo
     = List.length (Py.keys (competencias __init__))
  /\ Forall tentativa_ok tentativas_exemplo
  /\ (let perfil :=
        Perfil.make "Bia"
          (combine (Py.keys (competencias __init__))
                   (map valor tentativas_exemplo)) in
      cadastrar_perfil __init__ "Bia"
        (mk_console (flat_map linhas tentativas_exemplo ++ ["5"]) [])
      = Ok (SistemaOrientacao.make (competencias __init__) (carreiras __init__)
              (perfis __init__ ++ [perfil])%list
              (trilhas_competencias __init__),
            perfil)
           (mk_console ["5"]
              ([]
               ++ [Printed (nl ++ "Cadastro de competências para " ++ "Bia" ++ ":")]
               ++ dialogos (Py.keys (competencias __init__)) tentativas_exemplo
               ++ [Printed (nl ++ "Perfil '" ++ "Bia" ++ "' cadastrado com sucesso!"
                            ++ nl)])%list)
      /\ (rejeitada "abc" /\ rejeitada "0" /\ rejeitada "6" /\ rejeitada "-1")
      /\ (aceita "1" 1 /\ aceita "2" 2 /\ aceita "3" 3 /\ aceita "4" 4
          /\ aceita "5" 5)).
Proof.
  split; [exact competencias_padrao_wf|].
  split; [reflexivity|].
  split; [exact tentativas_exemplo_ok|].
  exact (cadastrar_perfil_spec __init__ "Bia" tentativas_exemplo ["5"] []
           competencias_padrao_wf eq_refl tentativas_exemplo_ok).
Defined.

(** ** Ranking the careers *)

Section Ordenacao.

Context {A : Type}.

(** [a] may stand before [b] in a descending ranking. *)
Definition nao_menor (a b : float * A) : Prop :=
  (fst b <=? fst a)%float = true.

Definition com_pontuacao (x : float) (item : float * A) : bool :=
  (fst item =? x)%float.

Definition sem_nan (l : list (float * A)) : Prop :=
  Forall (fun item => is_nan (fst item) = false) l.

Lemma insert_desc_sorted (x : float * A) (l : list (float * A)) :
  is_nan (fst x) = false -> sem_nan l ->
  StronglySorted nao_menor l ->
  StronglySorted nao_menor (Py.insert_desc x l).
Proof.
  intros Hx Hl Hs. apply F.is_nan_false in Hx.
  induction Hs as [|y l Hs IH Hy]; simpl.
  - repeat constructor.
  - inversion Hl as [|? ? Hny Hl']; subst. apply F.is_nan_false in Hny.
    destruct (fst x <? fst y)%float eqn:Hlt.
    + constructor; [now apply IH|].
      apply Forall_forall. intros z Hz.
      apply (Permutation_in _ (insert_desc_perm x l)) in Hz.
      destruct Hz as [<-|Hz].
      * now apply F.ltb_leb.
      * rewrite Forall_forall in Hy. now apply Hy.
    + assert (Hxy : nao_menor x y) by now apply F.ltb_false_leb.
      constructor; [now constructor|].
      constructor; [exact Hxy|].
      apply Forall_forall. intros z Hz.
      rewrite Forall_forall in Hy. specialize (Hy z Hz).
      unfold nao_menor in *. now apply (F.leb_trans _ (fst y)).
Qed.

Lemma sem_nan_perm (l l' : list (float * A)) :
  Permutation l l' -> sem_nan l -> sem_nan l'.
Proof. intros Hp. unfold sem_nan. now rewrite Hp. Qed.

Lemma sort_reverse_sorted (l : list (float * A)) :
  sem_nan l -> StronglySorted nao_menor (Py.sort_reverse l).
Proof.
  induction l as [|x l IH]; intros Hl; simpl.
  - constructor.
  - inversion Hl as [|? ? Hx Hl']; subst.
    apply insert_desc_sorted; auto.
    apply (sem_nan_perm l); [|assumption].
    symmetry. apply sort_reverse_perm.
Qed.

Lemma insert_desc_filter (c : float) (x : float * A) (l : list (float * A)) :
  filter (com_pontuacao c) (Py.insert_desc x l)
  = filter (com_pontuacao c) (x :: l).
Proof.
  induction l as [|y l IH]; simpl; [reflexivity|].
  destruct (fst x <? fst y)%float eqn:Hlt; [|reflexivity].
  simpl. rewrite IH. simpl.
  destruct (com_pontuacao c x) eqn:Hx; [|reflexivity].
  unfold com_pontuacao in *.
  now rewrite (F.eqb_ltb_neq (fst x) (fst y) c).
Qed.

Lemma sort_reverse_filter (c : float) (l : list (float * A)) :
  filter (com_pontuacao c) (Py.sort_reverse l) = filter (com_pontuacao c) l.
Proof.
  induction l as [|x l IH]; simpl; [reflexivity|].
  rewrite insert_desc_filter. simpl. now rewrite IH.
Qed.

End Ordenacao.

Lemma firstn_min {A : Type} (n : Z) (l : list A) :
  0 <= n ->
  firstn (Z.to_nat n) l = firstn (Z.to_nat (Z.min n (Z.of_nat (List.length l)))) l.
Proof.
  intros Hn. destruct (Z.le_gt_cases n (Z.of_nat (List.length l))).
  - now rewrite Z.min_l.
  - rewrite Z.min_r by lia. rewrite Nat2Z.id.
    rewrite firstn_all. apply firstn_all2. lia.
Qed.

(** The limit in force: 3 when the caller gives none. *)
Definition limite_efetivo (limite : option Z) : Z :=
  match limite with
  | Some n => n
  | None => 3
  end.

(** ** Rounding keeps the order

    The operations of [SpecFloat] round the exact result to the nearest
    binary64 number, ties to even.  This part relates them to the real
    numbers: [fl_signed r f] says that the float [f] is what the real [r]
    rounds to; [SFmul], [SFdiv], [SFadd] and the conversion of an integer
    return what their exact result rounds to; and two reals in order round
    to two floats in order.  Hence each operation keeps the order of its
    operands, the cases with an infinite operand being read off the
    definitions. *)

Module Rounding.

Local Open Scope R_scope.

(** *** Powers of two, binades, the nearest integer *)

(** [2^e] for an exponent of either sign. *)
Definition pow2 (e : Z) : R := powerRZ 2 e.

Lemma pow2_pos (e : Z) : 0 < pow2 e.
Proof. apply powerRZ_lt. lra. Qed.

Lemma pow2_add (a b : Z) : pow2 (a + b) = pow2 a * pow2 b.
Proof. apply powerRZ_add. lra. Qed.

Lemma pow2_IZR (n : Z) : (0 <= n)%Z -> pow2 n = IZR (2 ^ n).
Proof.
  intros Hn. unfold pow2.
  destruct n as [|p|p]; [reflexivity| |lia].
  rewrite <- Zpower_pos_powerRZ. reflexivity.
Qed.

Lemma pow2_ge_1 (n : Z) : (0 <= n)%Z -> 1 <= pow2 n.
Proof.
  intros Hn. rewrite pow2_IZR by assumption.
  apply IZR_le. assert (0 < 2 ^ n)%Z by (apply Z.pow_pos_nonneg; lia). lia.
Qed.

Lemma pow2_le (a b : Z) : (a <= b)%Z -> pow2 a <= pow2 b.
Proof.
  intros H. replace b with (a + (b - a))%Z by lia. rewrite pow2_add.
  assert (H1 := pow2_ge_1 (b - a) ltac:(lia)). assert (H2 := pow2_pos a).
  nra.
Qed.

Lemma pow2_succ (a : Z) : pow2 (a + 1) = 2 * pow2 a.
Proof. rewrite pow2_add. change (pow2 1) with (2 * 1). lra. Qed.

Lemma pow2_lt (a b : Z) : (a < b)%Z -> pow2 a < pow2 b.
Proof.
  intros H. assert (H1 := pow2_le (a + 1) b ltac:(lia)).
  rewrite pow2_succ in H1. assert (H2 := pow2_pos a). lra.
Qed.

Lemma pow2_lt_inv (a b : Z) : pow2 a < pow2 b -> (a < b)%Z.
Proof.
  intros H. destruct (Z_lt_le_dec a b) as [Hlt|Hle]; [assumption|].
  apply pow2_le in Hle. lra.
Qed.

(** [n] is the integer nearest to [x], the even one on a tie. *)
Definition is_rne (x : R) (n : Z) : Prop :=
  (- / 2 < x - IZR n < / 2)
  \/ ((x - IZR n = / 2 \/ x - IZR n = - / 2) /\ Z.even n = true).

Lemma is_rne_mono (x y : R) (n n' : Z) :
  x <= y -> is_rne x n -> is_rne y n' -> (n <= n')%Z.
Proof.
  intros Hxy Hx Hy.
  destruct (Z_le_gt_dec n n') as [Hle|Hgt]; [assumption|exfalso].
  assert (Hn : IZR n' <= IZR n - 1).
  { replace (IZR n - 1) with (IZR (n - 1)) by (rewrite minus_IZR; lra).
    apply IZR_le. lia. }
  assert (Heq : IZR n' = IZR n - 1).
  { destruct Hx as [Hx|[[Hx|Hx] _]], Hy as [Hy|[[Hy|Hy] _]]; lra. }
  assert (Hn' : (n' = n - 1)%Z).
  { apply eq_IZR. rewrite minus_IZR. lra. }
  destruct Hx as [Hx|[[Hx|Hx] Hex]], Hy as [Hy|[[Hy|Hy] Hey]]; try lra.
  rewrite Hn', Z.even_sub, Hex in Hey. discriminate Hey.
Qed.

Lemma is_rne_int (n : Z) : is_rne (IZR n) n.
Proof. left. lra. Qed.

(** [r] lies in the binade [[2^(k-1), 2^k)]. *)
Definition mag_is (r : R) (k : Z) : Prop := pow2 (k - 1) <= r < pow2 k.

Lemma mag_mono (r r' : R) (k k' : Z) :
  r <= r' -> mag_is r k -> mag_is r' k' -> (k <= k')%Z.
Proof.
  intros Hr [H1 _] [_ H2].
  assert (pow2 (k - 1) < pow2 k') by lra.
  apply pow2_lt_inv in H. lia.
Qed.

(** The exponent of the last place kept for a number of binade [k]. *)
Definition fexp64 (k : Z) : Z := SpecFloat.fexp prec emax k.

Lemma fexp64_eq (k : Z) : fexp64 k = Z.max (k - 53) (-1074).
Proof. reflexivity. Qed.

(** [v] is [r] rounded to nearest even in binary64, overflow left aside. *)
Definition rounds (r v : R) : Prop :=
  exists k n, mag_is r k /\ is_rne (r / pow2 (fexp64 k)) n
              /\ v = IZR n * pow2 (fexp64 k).

Lemma div_pow2 (r : R) (a b : Z) : r * pow2 a / pow2 b = r * pow2 (a - b).
Proof.
  replace a with ((a - b) + b)%Z at 1 by lia. rewrite pow2_add.
  assert (H := pow2_pos b). field. lra.
Qed.

(** Rounding to nearest even keeps the order of the positive reals. *)
Lemma rounds_mono (r r' v v' : R) :
  0 < r -> r <= r' -> rounds r v -> rounds r' v' -> v <= v'.
Proof.
  intros Hpos Hle (k & n & Hk & Hn & ->) (k' & n' & Hk' & Hn' & ->).
  assert (Hkk := mag_mono r r' k k' Hle Hk Hk').
  assert (Ek := fexp64_eq k). assert (Ek' := fexp64_eq k').
  assert (Hc : (fexp64 k <= fexp64 k')%Z) by lia.
  assert (Hp := pow2_pos (fexp64 k)). assert (Hp' := pow2_pos (fexp64 k')).
  destruct (Z.eq_dec (fexp64 k) (fexp64 k')) as [Heq|Hne].
  - rewrite <- Heq in *.
    assert (n <= n')%Z.
    { apply (is_rne_mono (r / pow2 (fexp64 k)) (r' / pow2 (fexp64 k))); auto.
      apply Rmult_le_compat_r; [|lra].
      apply Rlt_le, Rinv_0_lt_compat. lra. }
    apply Rmult_le_compat_r; [lra|]. now apply IZR_le.
  - assert (Hk'n : fexp64 k' = (k' - 53)%Z) by lia.
    assert (Hlt : (k < k')%Z) by lia.
    (* the new value is at least [2^(k'-1)] *)
    assert (Hv' : pow2 (k' - 1) <= IZR n' * pow2 (fexp64 k')).
    { assert (2 ^ 52 <= n')%Z.
      { apply (is_rne_mono (IZR (2 ^ 52)) (r' / pow2 (fexp64 k'))); auto.
        - rewrite <- pow2_IZR by lia.
          apply Rmult_le_reg_r with (pow2 (fexp64 k')); [lra|].
          rewrite <- pow2_add. unfold Rdiv. rewrite Rmult_assoc, Rinv_l by lra.
          rewrite Hk'n. replace (52 + (k' - 53))%Z with (k' - 1)%Z by lia.
          destruct Hk'. lra.
        - apply is_rne_int. }
      apply IZR_le in H. rewrite <- pow2_IZR in H by lia.
      replace (k' - 1)%Z with (52 + fexp64 k')%Z by lia. rewrite pow2_add. nra. }
    (* the old value is at most [2^k] *)
    assert (Hv : IZR n * pow2 (fexp64 k) <= pow2 k).
    { destruct (Z_le_gt_dec (fexp64 k) k) as [Hck|Hck].
      - assert (n <= 2 ^ (k - fexp64 k))%Z.
        { apply (is_rne_mono (r / pow2 (fexp64 k)) (IZR (2 ^ (k - fexp64 k)))); auto.
          - rewrite <- pow2_IZR by lia.
            apply Rmult_le_reg_r with (pow2 (fexp64 k)); [lra|].
            rewrite <- pow2_add. unfold Rdiv. rewrite Rmult_assoc, Rinv_l by lra.
            replace (k - fexp64 k + fexp64 k)%Z with k by lia.
            destruct Hk. lra.
          - apply is_rne_int. }
        apply IZR_le in H. rewrite <- pow2_IZR in H by lia.
        replace k with ((k - fexp64 k) + fexp64 k)%Z at 2 by lia.
        rewrite pow2_add. nra.
      - assert (n <= 0)%Z.
        { apply (is_rne_mono (r / pow2 (fexp64 k)) (/ 2)); auto.
          - apply Rmult_le_reg_r with (pow2 (fexp64 k)); [lra|].
            unfold Rdiv. rewrite Rmult_assoc, Rinv_l by lra.
            assert (pow2 k <= pow2 (fexp64 k - 1)) by (apply pow2_le; lia).
            replace (pow2 (fexp64 k)) with (2 * pow2 (fexp64 k - 1))
              by (rewrite <- pow2_succ; f_equal; lia).
            destruct Hk. lra.
          - right. split; [left; simpl; lra|reflexivity]. }
        apply IZR_le in H. assert (Hq := pow2_pos k). nra. }
    assert (pow2 k <= pow2 (k' - 1)) by (apply pow2_le; lia).
    lra.
Qed.

(** *** Locations: what a shift keeps of the bits it drops *)

(** [X] lies in [[m, m + 1)] at the place [l] tells. *)
Definition represents (m : Z) (l : location) (X : R) : Prop :=
  match l with
  | loc_Exact => X = IZR m
  | loc_Inexact Lt => IZR m < X < IZR m + / 2
  | loc_Inexact Eq => X = IZR m + / 2
  | loc_Inexact Gt => IZR m + / 2 < X < IZR m + 1
  end.

Lemma represents_bounds (m : Z) (l : location) (X : R) :
  represents m l X -> IZR m <= X < IZR m + 1.
Proof. destruct l as [|[| |]]; simpl; lra. Qed.

(** A mantissa and its location determine the nearest integer. *)
Lemma round_nearest_even_rne (m : Z) (l : location) (X : R) :
  represents m l X -> is_rne X (round_nearest_even m l).
Proof.
  destruct l as [|[| |]]; simpl; intros H.
  - subst. apply is_rne_int.
  - destruct (Z.even m) eqn:He.
    + right. split; [left; lra|assumption].
    + right. rewrite plus_IZR. split; [right; lra|].
      rewrite Z.even_add, He. reflexivity.
  - left. lra.
  - left. rewrite plus_IZR. lra.
Qed.

Lemma loc_of_record_of_loc (m : Z) (l : location) :
  loc_of_shr_record (shr_record_of_loc m l) = l
  /\ shr_m (shr_record_of_loc m l) = m.
Proof. destruct l as [|[| |]]; split; reflexivity. Qed.

Lemma IZR_xO (p : positive) : IZR (Zpos p~0) = 2 * IZR (Zpos p).
Proof. rewrite Pos2Z.inj_xO, mult_IZR. reflexivity. Qed.

Lemma IZR_xI (p : positive) : IZR (Zpos p~1) = 2 * IZR (Zpos p) + 1.
Proof. rewrite Pos2Z.inj_xI, plus_IZR, mult_IZR. reflexivity. Qed.

(** One shift to the right halves the number a record stands for. *)
Lemma shr_1_represents (mrs : shr_record) (X : R) :
  (0 <= shr_m mrs)%Z ->
  represents (shr_m mrs) (loc_of_shr_record mrs) X ->
  (0 <= shr_m (shr_1 mrs))%Z
  /\ represents (shr_m (shr_1 mrs)) (loc_of_shr_record (shr_1 mrs)) (X / 2).
Proof.
  destruct mrs as [m r s]. cbn [shr_m]. intros Hm.
  destruct m as [|[p|p|]|p]; try lia;
    destruct r, s;
    cbn [shr_1 shr_m loc_of_shr_record represents orb];
    try rewrite (IZR_xO p); try rewrite (IZR_xI p); intros H;
    (split; [lia|lra]).
Qed.

Section Iter.

Context {A : Type} (f : A -> A) (P : A -> R -> Prop).
Hypothesis step : forall a X, P a X -> P (f a) (X / 2).

Lemma pow2_xO (p : positive) : pow2 (Zpos p~0) = pow2 (Zpos p) * pow2 (Zpos p).
Proof. rewrite <- pow2_add. f_equal. lia. Qed.

Lemma pow2_xI (p : positive) :
  pow2 (Zpos p~1) = 2 * (pow2 (Zpos p) * pow2 (Zpos p)).
Proof.
  rewrite <- pow2_add.
  replace (Zpos p~1) with ((Zpos p + Zpos p) + 1)%Z by lia.
  apply pow2_succ.
Qed.

Lemma iter_pos_inv (p : positive) (a : A) (X : R) :
  P a X -> P (iter_pos f p a) (X / pow2 (Zpos p)).
Proof.
  revert a X. induction p as [p IH|p IH|]; intros a X H; cbn [iter_pos].
  - apply step, IH, IH in H.
    replace (X / pow2 (Zpos p~1)) with (X / 2 / pow2 (Zpos p) / pow2 (Zpos p));
      [exact H|].
    rewrite pow2_xI. assert (Hp := pow2_pos (Zpos p)). field. lra.
  - apply IH, IH in H.
    replace (X / pow2 (Zpos p~0)) with (X / pow2 (Zpos p) / pow2 (Zpos p));
      [exact H|].
    rewrite pow2_xO. assert (Hp := pow2_pos (Zpos p)). field. lra.
  - apply step in H. change (pow2 1) with (2 * 1). 
    replace (X / (2 * 1)) with (X / 2) by field. exact H.
Qed.

End Iter.

(** [shr] by [n] places divides by [2^n] and keeps the location right. *)
Lemma shr_represents (m : Z) (l : location) (X : R) (e n : Z) :
  (0 <= m)%Z -> represents m l X ->
  let '(mrs, e') := shr (shr_record_of_loc m l) e n in
  (0 <= shr_m mrs)%Z
  /\ represents (shr_m mrs) (loc_of_shr_record mrs) (X / pow2 (Z.max n 0))
  /\ e' = (e + Z.max n 0)%Z.
Proof.
  intros Hm HX. destruct (loc_of_record_of_loc m l) as [Hl Hmm].
  destruct n as [|p|p]; unfold shr; cbv iota beta.
  - rewrite Hl, Hmm. change (pow2 (Z.max 0 0)) with 1.
    replace (X / 1) with X by field. repeat split; auto. lia.
  - pose (P := fun (mrs : shr_record) (Y : R) =>
                 (0 <= shr_m mrs)%Z
                 /\ represents (shr_m mrs) (loc_of_shr_record mrs) Y).
    assert (H : P (iter_pos shr_1 p (shr_record_of_loc m l)) (X / pow2 (Zpos p))).
    { apply iter_pos_inv.
      - intros a Y [Ha Hy]. now apply shr_1_represents.
      - split; rewrite ?Hl, Hmm; assumption. }
    destruct H as [H1 H2]. repeat split; auto.
  - rewrite Hl, Hmm. change (pow2 (Z.max (Zneg p) 0)) with 1.
    replace (X / 1) with X by field. repeat split; auto. lia.
Qed.

(** The number of binary digits of a positive integer. *)
Lemma digits2_pos_bounds (p : positive) :
  (2 ^ (Zpos (digits2_pos p) - 1) <= Zpos p < 2 ^ Zpos (digits2_pos p))%Z.
Proof.
  induction p as [p IH|p IH|]; cbn [digits2_pos]; rewrite ?Pos2Z.inj_succ.
  - replace (Z.succ (Zpos (digits2_pos p)) - 1)%Z
      with (Z.succ (Zpos (digits2_pos p) - 1)) by lia.
    rewrite !Z.pow_succ_r by lia. lia.
  - replace (Z.succ (Zpos (digits2_pos p)) - 1)%Z
      with (Z.succ (Zpos (digits2_pos p) - 1)) by lia.
    rewrite !Z.pow_succ_r by lia. lia.
  - simpl. lia.
Qed.

Lemma Zdigits2_bounds (m : Z) :
  (0 < m)%Z -> (2 ^ (Zdigits2 m - 1) <= m < 2 ^ Zdigits2 m)%Z /\ (0 < Zdigits2 m)%Z.
Proof.
  destruct m as [|p|p]; try lia. intros _. simpl. split; [|lia].
  apply digits2_pos_bounds.
Qed.

Lemma Zdigits2_unique (m d : Z) :
  (2 ^ (d - 1) <= m < 2 ^ d)%Z -> (0 < d)%Z -> Zdigits2 m = d.
Proof.
  intros H Hd.
  assert (Hm : (0 < m)%Z).
  { assert (0 < 2 ^ (d - 1))%Z by (apply Z.pow_pos_nonneg; lia). lia. }
  destruct (Zdigits2_bounds m Hm) as [H' Hd'].
  destruct (Z.lt_trichotomy (Zdigits2 m) d) as [Hlt|[Heq|Hgt]]; [|assumption|].
  - assert (2 ^ Zdigits2 m <= 2 ^ (d - 1))%Z by (apply Z.pow_le_mono_r; lia). lia.
  - assert (2 ^ d <= 2 ^ (Zdigits2 m - 1))%Z by (apply Z.pow_le_mono_r; lia). lia.
Qed.

Lemma mag_unique (r : R) (k k' : Z) : mag_is r k -> mag_is r k' -> k = k'.
Proof.
  intros H H'.
  assert (k <= k')%Z by (apply (mag_mono r r); auto; lra).
  assert (k' <= k)%Z by (apply (mag_mono r r); auto; lra).
  lia.
Qed.

Lemma mag_IZR (m : Z) : (0 < m)%Z -> mag_is (IZR m) (Zdigits2 m).
Proof.
  intros Hm. destruct (Zdigits2_bounds m Hm) as [[H1 H2] Hd].
  unfold mag_is. rewrite !pow2_IZR by lia. split.
  - now apply IZR_le.
  - now apply IZR_lt.
Qed.

Lemma mag_scale (r : R) (k e : Z) : mag_is r k -> mag_is (r * pow2 e) (k + e).
Proof.
  intros [H1 H2]. unfold mag_is. assert (Hp := pow2_pos e).
  replace (k + e - 1)%Z with ((k - 1) + e)%Z by lia. rewrite !pow2_add.
  split; nra.
Qed.

Lemma mag_represents (m : Z) (l : location) (X : R) :
  (0 < m)%Z -> represents m l X -> mag_is X (Zdigits2 m).
Proof.
  intros Hm HX. apply represents_bounds in HX.
  destruct (Zdigits2_bounds m Hm) as [[H1 H2] Hd].
  unfold mag_is. rewrite !pow2_IZR by lia. split.
  - apply IZR_le in H1. lra.
  - assert (m + 1 <= 2 ^ Zdigits2 m)%Z by lia.
    apply IZR_le in H. rewrite plus_IZR in H. lra.
Qed.

(** *** [binary_round_aux] rounds to nearest even *)

(** [f] is the float of sign [s] that the magnitude [r] rounds to. *)
Definition fl_rounds (s : bool) (r : R) (f : spec_float) : Prop :=
  exists v,
    rounds r v
    /\ valid_binary f = true
    /\ match f with
       | S754_zero s' => s' = s /\ v = 0
       | S754_infinity s' => s' = s /\ pow2 emax <= v
       | S754_finite s' m e => s' = s /\ v = IZR (Zpos m) * pow2 e
       | S754_nan => False
       end.

Lemma valid_intro (s : bool) (p : positive) (e : Z) :
  SpecFloat.fexp prec emax (Zdigits2 (Zpos p) + e) = e ->
  (e <= emax - prec)%Z ->
  valid_binary (S754_finite s p e) = true.
Proof.
  intros Hc He. unfold valid_binary, bounded, canonical_mantissa. F.zfold.
  cbn [Zdigits2] in Hc. rewrite Hc, Z.eqb_refl. now apply Z.leb_le.
Qed.

Lemma represents_int (m : Z) (l : location) (K : Z) :
  represents m l (IZR K) -> m = K.
Proof.
  intros H. apply represents_bounds in H. destruct H as [H1 H2].
  apply le_IZR in H1. rewrite <- plus_IZR in H2. apply lt_IZR in H2. lia.
Qed.

(** The last steps of [binary_round_aux]: the rounded mantissa [m2] at
    exponent [e1] is brought back to the format and checked for overflow. *)
Definition finish (s : bool) (m2 e1 : Z) : spec_float :=
  let '(mrs'', e'') := shr_fexp prec emax m2 e1 loc_Exact in
  match shr_m mrs'' with
  | Z0 => S754_zero s
  | Zpos m => if (e'' <=? emax - prec)%Z then S754_finite s m e''
              else S754_infinity s
  | Zneg _ => S754_nan
  end.

Lemma finish_same (s : bool) (m2 e1 : Z) :
  SpecFloat.fexp prec emax (Zdigits2 m2 + e1) = e1 ->
  finish s m2 e1
  = match m2 with
    | Z0 => S754_zero s
    | Zpos m => if (e1 <=? emax - prec)%Z then S754_finite s m e1
                else S754_infinity s
    | Zneg _ => S754_nan
    end.
Proof.
  intros H. unfold finish, shr_fexp. F.zfold. rewrite H, Z.sub_diag. reflexivity.
Qed.

Lemma finish_rounds (s : bool) (m2 e1 kk : Z) (r : R) :
  0 < r -> mag_is r kk -> fexp64 kk = e1 ->
  is_rne (r / pow2 e1) m2 ->
  fl_rounds s r (finish s m2 e1).
Proof.
  intros Hr Hk He Hn.
  assert (Ek := fexp64_eq kk). assert (Ek1 := fexp64_eq (kk + 1)).
  exists (IZR m2 * pow2 e1). split.
  { exists kk, m2. rewrite He. repeat split; auto; apply Hk. }
  assert (Hp := pow2_pos e1).
  assert (HX1 : mag_is (r / pow2 e1) (kk - e1)).
  { replace (r / pow2 e1) with (r * pow2 (- e1)).
    - replace (kk - e1)%Z with (kk + - e1)%Z by lia. now apply mag_scale.
    - replace r with (r * pow2 0) at 2 by (change (pow2 0) with 1; lra).
      rewrite div_pow2. f_equal. }
  set (X1 := r / pow2 e1) in *. set (d := (kk - e1)%Z) in *.
  assert (Hd53 : (d <= 53)%Z) by lia.
  destruct (Z_le_gt_dec d 0) as [Hd|Hd].
  - (* below the smallest subnormal's binade *)
    assert (He1 : e1 = (-1074)%Z) by lia.
    assert (HX1lt : X1 < 1).
    { destruct HX1 as [_ H]. assert (pow2 d <= pow2 0) by (apply pow2_le; lia).
      change (pow2 0) with 1 in H0. lra. }
    assert (HX1pos : 0 < X1) by (apply Rdiv_lt_0_compat; assumption).
    assert (H0 : (0 <= m2)%Z).
    { apply (is_rne_mono 0 X1); auto; [lra|apply (is_rne_int 0)]. }
    assert (H1 : (m2 <= 1)%Z).
    { apply (is_rne_mono X1 1); auto; [lra|apply (is_rne_int 1)]. }
    assert (m2 = 0 \/ m2 = 1)%Z as [->| ->] by lia.
    + rewrite finish_same by (rewrite He1; reflexivity).
      split; [reflexivity|]. split; [reflexivity|lra].
    + rewrite finish_same by (rewrite He1; reflexivity). rewrite He1.
      split; [reflexivity|]. split; reflexivity.
  - (* a mantissa of [d] digits, or the next power of two *)
    assert (Hlo : (2 ^ (d - 1) <= m2)%Z).
    { apply (is_rne_mono (IZR (2 ^ (d - 1))) X1); auto.
      - rewrite <- pow2_IZR by lia. apply HX1.
      - apply is_rne_int. }
    assert (Hhi : (m2 <= 2 ^ d)%Z).
    { apply (is_rne_mono X1 (IZR (2 ^ d))); auto.
      - rewrite <- pow2_IZR by lia. destruct HX1. lra.
      - apply is_rne_int. }
    assert (Hpd : (0 < 2 ^ (d - 1))%Z) by (apply Z.pow_pos_nonneg; lia).
    assert (H2d : (2 ^ d = 2 * 2 ^ (d - 1))%Z).
    { replace d with (Z.succ (d - 1)) at 1 by lia. apply Z.pow_succ_r. lia. }
    destruct (Z_lt_le_dec m2 (2 ^ d)) as [Hlt|Hge].
    + assert (Hdig : Zdigits2 m2 = d) by (apply Zdigits2_unique; lia).
      rewrite finish_same
        by (rewrite Hdig; replace (d + e1)%Z with kk by lia; exact He).
      assert (Hcan : SpecFloat.fexp prec emax (Zdigits2 m2 + e1) = e1)
        by (rewrite Hdig; replace (d + e1)%Z with kk by lia; exact He).
      destruct m2 as [|p|p]; try lia.
      destruct (Z.leb_spec e1 (emax - prec)) as [Hle|Hgt].
      * split; [now apply valid_intro|]. split; reflexivity.
      * split; [reflexivity|]. split; [reflexivity|].
        unfold emax, prec in Hgt. simpl in Hgt.
        assert (d = 53)%Z by lia. subst d.
        assert (Hm : IZR (2 ^ 52) <= IZR (Zpos p)).
        { apply IZR_le. replace (kk - e1 - 1)%Z with 52%Z in Hlo by lia.
          exact Hlo. }
        rewrite <- pow2_IZR in Hm by lia.
        assert (pow2 emax <= pow2 52 * pow2 e1).
        { rewrite <- pow2_add. apply pow2_le. unfold emax. lia. }
        nra.
    + assert (Hm2 : m2 = (2 ^ d)%Z) by lia.
      assert (Hdig : Zdigits2 m2 = (d + 1)%Z).
      { apply Zdigits2_unique; [|lia].
        replace (d + 1 - 1)%Z with d by lia. rewrite Z.pow_add_r by lia. lia. }
      destruct (Z.eq_dec (fexp64 (kk + 1)) e1) as [Hsame|Hshift].
      * rewrite finish_same
          by (rewrite Hdig; replace (d + 1 + e1)%Z with (kk + 1)%Z by lia;
              exact Hsame).
        assert (Hcan : SpecFloat.fexp prec emax (Zdigits2 m2 + e1) = e1)
          by (rewrite Hdig; replace (d + 1 + e1)%Z with (kk + 1)%Z by lia;
              exact Hsame).
        destruct m2 as [|p|p]; try lia.
        assert (He1 : e1 = (-1074)%Z) by lia.
        assert (Hb : (e1 <=? emax - prec)%Z = true) by (rewrite He1; reflexivity).
        rewrite Hb. split; [apply valid_intro; [exact Hcan|now apply Z.leb_le]|].
        split; reflexivity.
      * assert (Hn2 : (fexp64 (kk + 1) - e1 = 1)%Z) by lia.
        assert (He1 : e1 = (kk - 53)%Z) by lia.
        unfold finish, shr_fexp. F.zfold. rewrite Hdig.
        replace (d + 1 + e1)%Z with (kk + 1)%Z by lia.
        change (SpecFloat.fexp prec emax (kk + 1)) with (fexp64 (kk + 1)).
        rewrite Hn2.
        assert (Hs := shr_represents m2 loc_Exact (IZR m2) e1 1
                        ltac:(lia) eq_refl).
        destruct (shr (shr_record_of_loc m2 loc_Exact) e1 1) as [mrs e2].
        destruct Hs as (Hm3 & Hrep & ->).
        change (pow2 (Z.max 1 0)) with (2 * 1) in Hrep.
        assert (Hhalf : IZR m2 / (2 * 1) = IZR (2 ^ (d - 1))).
        { rewrite Hm2, H2d, mult_IZR. field. }
        rewrite Hhalf in Hrep. apply represents_int in Hrep.
        rewrite Hrep.
        destruct (2 ^ (d - 1))%Z as [|p|p] eqn:Ep; try lia.
        change (Z.max 1 0) with 1%Z.
        assert (Hval : IZR m2 * pow2 e1 = IZR (Zpos p) * pow2 (e1 + 1)).
        { rewrite pow2_succ, Hm2, H2d, mult_IZR. lra. }
        destruct (Z.leb_spec (e1 + 1) (emax - prec)) as [Hle|Hgt].
        -- split; [|split; [reflexivity|exact Hval]].
           apply valid_intro; [|exact Hle].
           rewrite <- Ep, (Zdigits2_unique (2 ^ (d - 1)) d) by lia.
           replace (d + (e1 + 1))%Z with (kk + 1)%Z by lia.
           change (fexp64 (kk + 1) = (e1 + 1)%Z). lia.
        -- split; [reflexivity|]. split; [reflexivity|].
           unfold emax, prec in Hgt. simpl in Hgt.
           assert (d = 53)%Z by lia.
           rewrite Hval. subst d. rewrite <- Ep.
           replace (kk - e1 - 1)%Z with 52%Z by lia.
           rewrite <- pow2_IZR, <- pow2_add by lia.
           apply pow2_le. unfold emax. lia.
Qed.

(** [binary_round_aux] on a mantissa [mx] with location [lx] standing for
    [X] returns what [X * 2^ex] rounds to, if [ex] is not above the
    exponent of the last place kept. *)
Lemma binary_round_aux_rounds (s : bool) (mx ex : Z) (lx : location)
      (X : R) (kk : Z) :
  (0 <= mx)%Z -> represents mx lx X -> 0 < X ->
  mag_is (X * pow2 ex) kk ->
  fexp64 (Zdigits2 mx + ex) = fexp64 kk ->
  (ex <= fexp64 kk)%Z ->
  fl_rounds s (X * pow2 ex) (binary_round_aux prec emax s mx ex lx).
Proof.
  intros Hm HX Hpos Hk Hd Hn.
  unfold binary_round_aux.
  change (let '(mrs', e') := shr_fexp prec emax mx ex lx in
          finish s (round_nearest_even (shr_m mrs') (loc_of_shr_record mrs')) e')
    with (binary_round_aux prec emax s mx ex lx).
  change (fl_rounds s (X * pow2 ex)
            (let '(mrs', e') := shr_fexp prec emax mx ex lx in
             finish s (round_nearest_even (shr_m mrs') (loc_of_shr_record mrs'))
                    e')).
  unfold shr_fexp. F.zfold.
  change (SpecFloat.fexp prec emax (Zdigits2 mx + ex)) with (fexp64 (Zdigits2 mx + ex)).
  rewrite Hd.
  assert (Hs := shr_represents mx lx X ex (fexp64 kk - ex) Hm HX).
  destruct (shr (shr_record_of_loc mx lx) ex (fexp64 kk - ex)) as [mrs e'].
  destruct Hs as (Hm1 & Hrep & ->).
  rewrite Z.max_l in * by lia.
  replace (ex + (fexp64 kk - ex))%Z with (fexp64 kk) by lia.
  apply (finish_rounds s _ _ kk); auto.
  - assert (Hp := pow2_pos ex). nra.
  - rewrite div_pow2. apply round_nearest_even_rne.
    replace (X * pow2 (ex - fexp64 kk)) with (X / pow2 (fexp64 kk - ex)); [exact Hrep|].
    replace X with (X * pow2 0) at 1 by (change (pow2 0) with 1; lra).
    rewrite div_pow2. f_equal. f_equal. lia.
Qed.

(** *** The finite floats and their order *)

(** The real number a float stands for; [0] for what is not finite. *)
Definition B2R (f : spec_float) : R :=
  match f with
  | S754_finite s m e => (if s then -1 else 1) * (IZR (Zpos m) * pow2 e)
  | _ => 0
  end.

(** What [valid_binary] says of a finite float. *)
Lemma valid_inv (s : bool) (m : positive) (e : Z) :
  valid_binary (S754_finite s m e) = true ->
  fexp64 (Zdigits2 (Zpos m) + e) = e
  /\ (e <= 971)%Z /\ (-1074 <= e)%Z
  /\ (1 <= Zdigits2 (Zpos m) <= 53)%Z
  /\ (e = -1074 \/ Zdigits2 (Zpos m) = 53)%Z.
Proof.
  intros Hv. apply F.valid_finite in Hv. destruct Hv as [Hc He].
  change (fexp64 (Zdigits2 (Zpos m) + e) = e) in Hc.
  assert (Ek := fexp64_eq (Zdigits2 (Zpos m) + e)).
  assert (Hd := Zdigits2_bounds (Zpos m) ltac:(lia)).
  unfold emax, prec in He. simpl in He.
  repeat split; try lia.
Qed.

Lemma finite_pos (m : positive) (e : Z) : 0 < IZR (Zpos m) * pow2 e.
Proof.
  assert (Hp := pow2_pos e). assert (0 < IZR (Zpos m)) by (apply IZR_lt; lia).
  nra.
Qed.

Lemma finite_lt_pow2 (s : bool) (m : positive) (e : Z) :
  valid_binary (S754_finite s m e) = true ->
  IZR (Zpos m) * pow2 e < pow2 (53 + e).
Proof.
  intros Hv. destruct (valid_inv s m e Hv) as (_ & _ & _ & Hd & _).
  destruct (Zdigits2_bounds (Zpos m) ltac:(lia)) as [[_ Hm] _].
  assert (2 ^ Zdigits2 (Zpos m) <= 2 ^ 53)%Z by (apply Z.pow_le_mono_r; lia).
  assert (Hlt : IZR (Zpos m) < IZR (2 ^ 53)) by (apply IZR_lt; lia).
  rewrite <- pow2_IZR in Hlt by lia. rewrite pow2_add.
  assert (Hp := pow2_pos e). nra.
Qed.

Lemma canonical_le (s s' : bool) (m m' : positive) (e e' : Z) :
  valid_binary (S754_finite s m e) = true ->
  valid_binary (S754_finite s' m' e') = true ->
  IZR (Zpos m) * pow2 e <= IZR (Zpos m') * pow2 e' ->
  (e < e')%Z \/ (e = e' /\ (Zpos m <= Zpos m')%Z).
Proof.
  intros Hv Hv' Hle.
  destruct (Z.lt_trichotomy e e') as [Hlt|[Heq|Hgt]]; [now left| |exfalso].
  - right. split; [assumption|]. subst e'. assert (Hp := pow2_pos e).
    apply le_IZR. nra.
  - destruct (valid_inv s m e Hv) as (_ & _ & _ & Hd & Hn).
    destruct (valid_inv s' m' e' Hv') as (_ & _ & He' & _ & _).
    assert (Hd53 : Zdigits2 (Zpos m) = 53%Z) by lia.
    destruct (Zdigits2_bounds (Zpos m) ltac:(lia)) as [[Hm _] _].
    rewrite Hd53 in Hm. apply IZR_le in Hm. rewrite <- pow2_IZR in Hm by lia.
    assert (H' := finite_lt_pow2 s' m' e' Hv').
    assert (pow2 (53 + e') <= pow2 (52 + e)) by (apply pow2_le; lia).
    rewrite (pow2_add 52 e) in H. change (53 - 1)%Z with 52%Z in Hm.
    assert (Hp := pow2_pos e). nra.
Qed.

Lemma SFleb_finite_pos (m m' : positive) (e e' : Z) :
  (e < e')%Z \/ (e = e' /\ (Zpos m <= Zpos m')%Z) ->
  SFleb (S754_finite false m e) (S754_finite false m' e') = true
  /\ SFleb (S754_finite true m' e') (S754_finite true m e) = true.
Proof.
  intros H. unfold SFleb, SFcompare.
  change (PosDef.Pos.compare_cont Eq m m') with (m ?= m')%positive.
  change (PosDef.Pos.compare_cont Eq m' m) with (m' ?= m)%positive.
  F.zfold.
  destruct (Z.compare_spec e e') as [He|He|He];
    destruct (Z.compare_spec e' e) as [He'|He'|He']; try lia;
    try (split; reflexivity).
  rewrite (Pos.compare_antisym m m').
  destruct (Pos.compare_spec m m') as [Hm|Hm|Hm]; try (split; reflexivity).
  lia.
Qed.

Lemma rounds_nonneg (r v : R) : 0 < r -> rounds r v -> 0 <= v.
Proof.
  intros Hr (k & n & Hk & Hn & ->).
  assert (Hp := pow2_pos (fexp64 k)).
  assert (0 <= n)%Z.
  { apply (is_rne_mono 0 (r / pow2 (fexp64 k))); auto.
    - apply Rlt_le, Rdiv_lt_0_compat; assumption.
    - apply (is_rne_int 0). }
  apply IZR_le in H. nra.
Qed.

(** Rounding keeps the order of the magnitudes. *)
Lemma fl_rounds_le (s : bool) (r r' : R) (f f' : spec_float) :
  0 < r -> r <= r' -> fl_rounds s r f -> fl_rounds s r' f' ->
  if s then SFleb f' f = true else SFleb f f' = true.
Proof.
  intros Hr Hle (v & Hv & Hval & Hf) (v' & Hv' & Hval' & Hf').
  assert (Hvv := rounds_mono r r' v v' Hr Hle Hv Hv').
  assert (H0 := rounds_nonneg r v Hr Hv).
  destruct f as [sf|sf| |sf m e], f' as [sf'|sf'| |sf' m' e'];
    try contradiction;
    destruct Hf as [-> Hf], Hf' as [-> Hf']; subst.
  - destruct s; reflexivity.
  - destruct s; reflexivity.
  - destruct s; reflexivity.
  - assert (Hp := pow2_pos emax). lra.
  - destruct s; reflexivity.
  - assert (H' := finite_lt_pow2 s m' e' Hval').
    destruct (valid_inv s m' e' Hval') as (_ & He' & _).
    assert (pow2 (53 + e') <= pow2 emax) by (apply pow2_le; unfold emax; lia).
    lra.
  - assert (Hp := finite_pos m e). lra.
  - destruct s; reflexivity.
  - destruct (SFleb_finite_pos m m' e e'
                (canonical_le s s m m' e e' Hval Hval' Hvv)) as [H1 H2].
    destruct s; assumption.
Qed.

(** *** Rounding a real of either sign *)

(** [f] is what the real number [r] rounds to. *)
Definition fl_signed (r : R) (f : spec_float) : Prop :=
  (r = 0 /\ exists s, f = S754_zero s)
  \/ (0 < r /\ fl_rounds false r f)
  \/ (r < 0 /\ fl_rounds true (- r) f).

(** Floats at most zero, and floats at least zero. *)
Definition nonpos (f : spec_float) : Prop :=
  match f with
  | S754_zero _ | S754_infinity true | S754_finite true _ _ => True
  | _ => False
  end.

Definition nonneg (f : spec_float) : Prop :=
  match f with
  | S754_zero _ | S754_infinity false | S754_finite false _ _ => True
  | _ => False
  end.

Lemma nonpos_le_nonneg (f f' : spec_float) :
  nonpos f -> nonneg f' -> SFleb f f' = true.
Proof.
  destruct f as [s|[|]| |[|] m e], f' as [s'|[|]| |[|] m' e'];
    simpl; tauto || reflexivity.
Qed.

Lemma fl_rounds_sign (s : bool) (r : R) (f : spec_float) :
  fl_rounds s r f -> if s then nonpos f else nonneg f.
Proof.
  intros (v & _ & _ & Hf).
  destruct f as [sf|sf| |sf m e]; try contradiction;
    destruct Hf as [-> _]; destruct s; exact Logic.I.
Qed.

(** Two reals in order round to two floats in order. *)
Lemma fl_signed_le (r r' : R) (f f' : spec_float) :
  r <= r' -> fl_signed r f -> fl_signed r' f' -> SFleb f f' = true.
Proof.
  intros Hle [[Hr [s ->]]|[[Hr Hf]|[Hr Hf]]] [[Hr' [s' ->]]|[[Hr' Hf']|[Hr' Hf']]];
    try lra.
  - destruct s, s'; reflexivity.
  - apply nonpos_le_nonneg; [exact Logic.I|]. apply (fl_rounds_sign false r' f' Hf').
  - apply (fl_rounds_le false r r' f f'); auto.
  - apply nonpos_le_nonneg; [|exact Logic.I]. apply (fl_rounds_sign true (- r) f Hf).
  - apply nonpos_le_nonneg.
    + apply (fl_rounds_sign true (- r) f Hf).
    + apply (fl_rounds_sign false r' f' Hf').
  - apply (fl_rounds_le true (- r') (- r) f' f); auto; lra.
Qed.

Lemma fl_signed_valid (r : R) (f : spec_float) :
  fl_signed r f -> valid_binary f = true /\ f <> S754_nan.
Proof.
  intros [[_ [s ->]]|[[_ (v & _ & Hv & Hf)]|[_ (v & _ & Hv & Hf)]]].
  - split; [reflexivity|discriminate].
  - split; [assumption|]. destruct f; try contradiction; discriminate.
  - split; [assumption|]. destruct f; try contradiction; discriminate.
Qed.

(** A float rounds to itself. *)
Lemma valid_rounds (s : bool) (m : positive) (e : Z) :
  valid_binary (S754_finite s m e) = true ->
  fl_rounds s (IZR (Zpos m) * pow2 e) (S754_finite s m e).
Proof.
  intros Hv. destruct (valid_inv s m e Hv) as (Hc & _).
  exists (IZR (Zpos m) * pow2 e). split; [|split; [assumption|split; reflexivity]].
  exists (Zdigits2 (Zpos m) + e)%Z, (Zpos m). rewrite Hc. split; [|split].
  - apply mag_scale, mag_IZR. lia.
  - unfold Rdiv. rewrite Rmult_assoc, Rinv_r.
    + rewrite Rmult_1_r. apply is_rne_int.
    + assert (Hp := pow2_pos e). lra.
  - reflexivity.
Qed.

Definition finite_or_zero (f : spec_float) : Prop :=
  match f with
  | S754_zero _ | S754_finite _ _ _ => True
  | _ => False
  end.

Lemma B2R_signed (f : spec_float) :
  valid_binary f = true -> finite_or_zero f -> fl_signed (B2R f) f.
Proof.
  destruct f as [s|s| |s m e]; simpl; try tauto; intros Hv _.
  - left. split; [reflexivity|now exists s].
  - assert (Hp := finite_pos m e). destruct s.
    + right. right. split; [lra|].
      replace (- (-1 * (IZR (Zpos m) * pow2 e))) with (IZR (Zpos m) * pow2 e) by lra.
      now apply valid_rounds.
    + right. left. split; [lra|].
      replace (1 * (IZR (Zpos m) * pow2 e)) with (IZR (Zpos m) * pow2 e) by lra.
      now apply valid_rounds.
Qed.

(** The order of the finite floats is the order of their values. *)
Lemma SFleb_B2R (f f' : spec_float) :
  valid_binary f = true -> valid_binary f' = true ->
  finite_or_zero f -> finite_or_zero f' ->
  SFleb f f' = true -> B2R f <= B2R f'.
Proof.
  intros Hv Hv' Hf Hf' Hle.
  destruct (Rle_or_lt (B2R f) (B2R f')) as [H|H]; [assumption|exfalso].
  assert (Hrev := fl_signed_le (B2R f') (B2R f) f' f (Rlt_le _ _ H)
                    (B2R_signed f' Hv' Hf') (B2R_signed f Hv Hf)).
  (* both orders hold, so the keys agree, so do the values *)
  destruct f as [s|s| |s m e], f' as [s'|s'| |s' m' e']; simpl in Hf, Hf';
    try contradiction; simpl in H; try lra.
  - assert (Hp := finite_pos m' e'). destruct s'; [discriminate Hle|lra].
  - assert (Hp := finite_pos m e). destruct s; [lra|discriminate Hle].
  - assert (Hp := finite_pos m e). assert (Hp' := finite_pos m' e').
    destruct s, s'; try lra; try discriminate Hle; try discriminate Hrev.
    + unfold SFleb, SFcompare in Hle, Hrev. F.zfold.
      change (PosDef.Pos.compare_cont Eq m m') with (m ?= m')%positive in *.
      change (PosDef.Pos.compare_cont Eq m' m) with (m' ?= m)%positive in *.
      rewrite (Pos.compare_antisym m m') in Hrev.
      rewrite (Z.compare_antisym e e') in Hrev.
      destruct (Z.compare_spec e e') as [He|He|He]; simpl in *; try discriminate.
      destruct (Pos.compare_spec m m') as [Hm|Hm|Hm]; simpl in *; try discriminate.
      subst. lra.
    + unfold SFleb, SFcompare in Hle, Hrev. F.zfold.
      change (PosDef.Pos.compare_cont Eq m m') with (m ?= m')%positive in *.
      change (PosDef.Pos.compare_cont Eq m' m) with (m' ?= m)%positive in *.
      rewrite (Pos.compare_antisym m m') in Hrev.
      rewrite (Z.compare_antisym e e') in Hrev.
      destruct (Z.compare_spec e e') as [He|He|He]; simpl in *; try discriminate.
      destruct (Pos.compare_spec m m') as [Hm|Hm|Hm]; simpl in *; try discriminate.
      subst. lra.
Qed.

(** *** The operations round their exact result *)

Lemma Zdigits2_mul (a b : positive) :
  (Zdigits2 (Zpos a) + Zdigits2 (Zpos b) - 1 <= Zdigits2 (Zpos (a * b)))%Z.
Proof.
  destruct (Zdigits2_bounds (Zpos a) ltac:(lia)) as [[Ha _] Hda].
  destruct (Zdigits2_bounds (Zpos b) ltac:(lia)) as [[Hb _] Hdb].
  destruct (Zdigits2_bounds (Zpos (a * b)) ltac:(lia)) as [[_ Hab] Hdab].
  set (da := Zdigits2 (Zpos a)) in *. set (db := Zdigits2 (Zpos b)) in *.
  set (dab := Zdigits2 (Zpos (a * b))) in *.
  assert (H : (2 ^ (da - 1 + (db - 1)) <= Zpos a * Zpos b)%Z).
  { rewrite Z.pow_add_r by lia.
    assert (0 < 2 ^ (da - 1))%Z by (apply Z.pow_pos_nonneg; lia).
    assert (0 < 2 ^ (db - 1))%Z by (apply Z.pow_pos_nonneg; lia).
    nia. }
  rewrite <- Pos2Z.inj_mul in H.
  assert (Hlt : (2 ^ (da - 1 + (db - 1)) < 2 ^ dab)%Z) by lia.
  apply Z.pow_lt_mono_r_iff in Hlt; lia.
Qed.

Lemma sign_split (s : bool) (r : R) (f : spec_float) :
  0 < r -> fl_rounds s r f -> fl_signed ((if s then -1 else 1) * r) f.
Proof.
  intros Hr Hf. destruct s.
  - right. right. split; [lra|]. now replace (- (-1 * r)) with r by lra.
  - right. left. split; [lra|]. now replace (1 * r) with r by lra.
Qed.

(** [SFmul] returns what the exact product rounds to. *)
Lemma SFmul_signed (x w : spec_float) :
  valid_binary x = true -> valid_binary w = true ->
  finite_or_zero x -> finite_or_zero w ->
  fl_signed (B2R x * B2R w) (SFmul prec emax x w).
Proof.
  intros Hx Hw Fx Fw.
  destruct x as [sx|sx| |sx mx ex], w as [sw|sw| |sw mw ew];
    simpl in Fx, Fw; try contradiction.
  - left. simpl. split; [lra|eauto].
  - left. simpl. split; [lra|eauto].
  - left. simpl. split; [lra|eauto].
  - unfold SFmul.
    destruct (valid_inv sx mx ex Hx) as (Hcx & _ & Hex & Hdx & Hnx).
    destruct (valid_inv sw mw ew Hw) as (Hcw & _ & Hew & Hdw & Hnw).
    assert (Hd := Zdigits2_mul mx mw).
    assert (Hr : fl_rounds (xorb sx sw)
                   (IZR (Zpos (mx * mw)) * pow2 (ex + ew))
                   (binary_round_aux prec emax (xorb sx sw)
                      (Zpos (mx * mw)) (ex + ew) loc_Exact)).
    { apply (binary_round_aux_rounds _ _ _ _ _
               (Zdigits2 (Zpos (mx * mw)) + (ex + ew))).
      - lia.
      - reflexivity.
      - apply IZR_lt. lia.
      - apply mag_scale, mag_IZR. lia.
      - reflexivity.
      - assert (Ek := fexp64_eq (Zdigits2 (Zpos (mx * mw)) + (ex + ew))).
        lia. }
    apply sign_split in Hr.
    + replace (B2R (S754_finite sx mx ex) * B2R (S754_finite sw mw ew))
        with ((if xorb sx sw then -1 else 1)
              * (IZR (Zpos (mx * mw)) * pow2 (ex + ew))); [exact Hr|].
      simpl. rewrite Pos2Z.inj_mul, mult_IZR, pow2_add.
      destruct sx, sw; simpl; ring.
    + apply finite_pos.
Qed.

Lemma pow2_exp (k : Z) : pow2 k = exp (IZR k * ln 2).
Proof.
  unfold pow2. rewrite powerRZ_Rpower by lra. reflexivity.
Qed.

(** Every positive real lies in one binade. *)
Lemma mag_exists (r : R) : 0 < r -> exists k, mag_is r k.
Proof.
  intros Hr.
  assert (Hln2 : 0 < ln 2) by (rewrite <- ln_1; apply ln_increasing; lra).
  destruct (archimed (ln r / ln 2)) as [H1 H2].
  set (k := up (ln r / ln 2)) in *.
  exists k. unfold mag_is. rewrite !pow2_exp, minus_IZR.
  assert (Hq : ln r = ln r / ln 2 * ln 2) by (field; lra).
  assert (Hlo : (IZR k - 1) * ln 2 <= ln r).
  { rewrite Hq. apply Rmult_le_compat_r; lra. }
  assert (Hhi : ln r < IZR k * ln 2).
  { rewrite Hq. apply Rmult_lt_compat_r; lra. }
  split.
  - rewrite <- (exp_ln r Hr). destruct Hlo as [Hlt|Heq].
    + left. now apply exp_increasing.
    + right. now f_equal.
  - rewrite <- (exp_ln r Hr). now apply exp_increasing.
Qed.

(** The location [SFdiv] computes from the remainder is that of the
    exact quotient. *)
Lemma new_location_represents (q d r : Z) :
  (0 < d)%Z -> (0 <= r < d)%Z ->
  represents q (new_location d r) (IZR q + IZR r / IZR d).
Proof.
  intros Hd Hr.
  assert (HdR : 0 < IZR d) by (apply IZR_lt; lia).
  assert (Hfrac : forall a b : Z,
             (a < b)%Z -> IZR a / IZR d < IZR b / IZR d).
  { intros a b Hab. apply Rmult_lt_compat_r; [now apply Rinv_0_lt_compat|].
    now apply IZR_lt. }
  assert (Hhalf : IZR d / IZR d = 1) by (field; lra).
  assert (H2r : IZR (2 * r) / IZR d = 2 * (IZR r / IZR d))
    by (rewrite mult_IZR; field; lra).
  assert (H1 := Hfrac r d ltac:(lia)). rewrite Hhalf in H1.
  unfold new_location.
  destruct (Z.even d) eqn:Hev;
    [unfold new_location_even|unfold new_location_odd];
    (destruct (Z.eqb_spec r 0) as [->|Hr0];
     [simpl; unfold Rdiv; rewrite Rmult_0_l; lra|]);
    assert (H0 := Hfrac 0%Z r ltac:(lia)); unfold Rdiv at 1 in H0;
    rewrite Rmult_0_l in H0.
  - destruct (Z.compare_spec (2 * r) d) as [He|Hl|Hg]; simpl.
    + assert (Hdr : IZR d = 2 * IZR r) by (rewrite <- He, mult_IZR; reflexivity).
      assert (0 < IZR r) by (apply IZR_lt; lia).
      rewrite Hdr. field. lra.
    + assert (H := Hfrac _ _ Hl). rewrite H2r, Hhalf in H. lra.
    + assert (H := Hfrac _ _ Hg). rewrite H2r, Hhalf in H. lra.
  - assert (Hne : (2 * r <> d)%Z).
    { intros E. rewrite <- E, Z.even_mul in Hev. discriminate Hev. }
    destruct (Z.compare_spec (2 * r + 1) d) as [He|Hl|Hg]; simpl.
    + assert (H := Hfrac (2 * r)%Z d ltac:(lia)). rewrite H2r, Hhalf in H. lra.
    + assert (H := Hfrac (2 * r)%Z d ltac:(lia)). rewrite H2r, Hhalf in H. lra.
    + assert (H := Hfrac d (2 * r)%Z ltac:(lia)). rewrite H2r, Hhalf in H. lra.
Qed.

Lemma div_eucl_spec (a b : Z) :
  (0 <= a)%Z -> (0 < b)%Z ->
  let '(q, r) := Z.div_eucl a b in
  (a = b * q + r /\ 0 <= r < b /\ 0 <= q)%Z.
Proof.
  intros Ha Hb.
  generalize (Z.div_eucl_eq a b ltac:(lia)) (Z.mod_pos_bound a b Hb)
             (Z.div_pos a b Ha Hb).
  unfold Z.modulo, Z.div. destruct (Z.div_eucl a b) as [q r]. tauto.
Qed.

(** [SFdiv] on two finite floats returns what the exact quotient of the
    magnitudes rounds to. *)
Lemma SFdiv_finite (sx ss : bool) (mx ms : positive) (ex es : Z) :
  valid_binary (S754_finite sx mx ex) = true ->
  valid_binary (S754_finite ss ms es) = true ->
  fl_rounds (xorb sx ss)
    (IZR (Zpos mx) * pow2 ex / (IZR (Zpos ms) * pow2 es))
    (SFdiv prec emax (S754_finite sx mx ex) (S754_finite ss ms es)).
Proof.
  intros Hx Hs.
  destruct (valid_inv sx mx ex Hx) as (_ & _ & _ & Hdx & _).
  destruct (valid_inv ss ms es Hs) as (_ & _ & _ & Hds & _).
  destruct (Zdigits2_bounds (Zpos mx) ltac:(lia)) as [[Hmx1 Hmx2] _].
  destruct (Zdigits2_bounds (Zpos ms) ltac:(lia)) as [[Hms1 Hms2] _].
  unfold SFdiv, SFdiv_core_binary. F.zfold.
  change (SpecFloat.fexp prec emax) with fexp64.
  set (d1 := Zdigits2 (Zpos mx)) in *. set (d2 := Zdigits2 (Zpos ms)) in *.
  set (e' := Z.min (fexp64 (d1 + ex - (d2 + es))) (ex - es)).
  assert (Ek := fexp64_eq (d1 + ex - (d2 + es))).
  set (sh := (ex - es - e')%Z).
  assert (Hsh : (0 <= sh)%Z) by (unfold sh, e'; lia).
  set (m' := match sh with
             | Z0 => Zpos mx
             | Zpos _ => Z.shiftl (Zpos mx) sh
             | Zneg _ => 0%Z
             end).
  assert (Hm' : m' = (Zpos mx * 2 ^ sh)%Z).
  { unfold m'. destruct sh as [|p|p] eqn:E; try lia.
    apply Z.shiftl_mul_pow2. lia. }
  assert (Hpsh : (0 < 2 ^ sh)%Z) by (apply Z.pow_pos_nonneg; lia).
  assert (Hm'pos : (0 < m')%Z) by (rewrite Hm'; lia).
  assert (Hdiv := div_eucl_spec m' (Zpos ms) ltac:(lia) ltac:(lia)).
  destruct (Z.div_eucl m' (Zpos ms)) as [q r].
  destruct Hdiv as (Heq & Hr & Hq).
  set (X := IZR q + IZR r / IZR (Zpos ms)).
  assert (HmsR : 0 < IZR (Zpos ms)) by (apply IZR_lt; lia).
  assert (HX : X = IZR m' / IZR (Zpos ms)).
  { unfold X. rewrite Heq, plus_IZR, mult_IZR. field. lra. }
  assert (Hrep : represents q (new_location (Zpos ms) r) X)
    by (apply new_location_represents; lia).
  assert (HXpos : 0 < X).
  { rewrite HX. apply Rdiv_lt_0_compat; [apply IZR_lt|]; assumption. }
  assert (Hval : X * pow2 e'
                 = IZR (Zpos mx) * pow2 ex / (IZR (Zpos ms) * pow2 es)).
  { rewrite HX, Hm', mult_IZR, <- pow2_IZR by lia.
    assert (Hex : pow2 ex = pow2 sh * pow2 e' * pow2 es).
    { rewrite <- !pow2_add. f_equal. unfold sh. lia. }
    rewrite Hex. assert (Hp := pow2_pos es). field. lra. }
  rewrite <- Hval.
  destruct (mag_exists (X * pow2 e')) as [kk Hkk].
  { assert (Hp := pow2_pos e'). nra. }
  (* a quotient above the subnormal range has at least 53 digits *)
  assert (Hbig : (-1074 < e')%Z -> (2 ^ 52 <= q)%Z).
  { intros He'.
    assert (Hshd : (d2 - d1 + 53 <= sh)%Z) by (unfold sh, e' in *; lia).
    assert (H1 : (2 ^ (d2 + 52) <= m')%Z).
    { rewrite Hm'.
      assert (2 ^ (d1 - 1) * 2 ^ (d2 - d1 + 53) <= Zpos mx * 2 ^ sh)%Z.
      { assert (A : (2 ^ (d2 - d1 + 53) <= 2 ^ sh)%Z)
          by (apply Z.pow_le_mono_r; lia).
        assert (B : (0 < 2 ^ (d1 - 1))%Z) by (apply Z.pow_pos_nonneg; lia).
        assert (C : (0 < 2 ^ (d2 - d1 + 53))%Z)
          by (apply Z.pow_pos_nonneg; lia).
        nia. }
      rewrite <- Z.pow_add_r in H by lia.
      replace (d1 - 1 + (d2 - d1 + 53))%Z with (d2 + 52)%Z in H by lia.
      exact H. }
    rewrite Z.pow_add_r in H1 by lia.
    assert (0 < 2 ^ 52)%Z by lia.
    nia. }
  apply (binary_round_aux_rounds _ _ _ _ _ kk); auto.
  - destruct (Z_le_gt_dec q 0) as [Hq0|Hq0].
    + assert (q = 0)%Z by lia. subst q.
      assert (He' : (e' <= -1074)%Z).
      { destruct (Z_le_gt_dec e' (-1074)); [assumption|].
        assert (2 ^ 52 <= 0)%Z by (apply Hbig; lia). lia. }
      assert (Hk : (kk <= e')%Z).
      { apply represents_bounds in Hrep. destruct Hkk as [Hk1 _].
        assert (Hp := pow2_pos e').
        assert (pow2 (kk - 1) < pow2 e') by (simpl in Hrep; nra).
        apply pow2_lt_inv in H. lia. }
      simpl. rewrite !fexp64_eq. lia.
    + f_equal. apply (mag_unique (X * pow2 e')); [|assumption].
      apply mag_scale. apply (mag_represents q _ X ltac:(lia) Hrep).
  - destruct (Z_le_gt_dec e' (-1074)) as [He'|He'].
    + rewrite fexp64_eq. lia.
    + assert (Hq52 := Hbig ltac:(lia)).
      assert (Hmag : mag_is (X * pow2 e') (Zdigits2 q + e')).
      { apply mag_scale. apply (mag_represents q _ X ltac:(lia) Hrep). }
      assert (kk = Zdigits2 q + e')%Z by (apply (mag_unique (X * pow2 e')); auto).
      destruct (Zdigits2_bounds q ltac:(lia)) as [[_ Hq2] Hdq].
      assert (Hlt : (2 ^ 52 < 2 ^ Zdigits2 q)%Z) by lia.
      apply Z.pow_lt_mono_r_iff in Hlt; [|lia|lia].
      rewrite fexp64_eq. lia.
Qed.

Lemma iter_xO (m d : positive) :
  Zpos (Pos.iter xO m d) = (Zpos m * 2 ^ Zpos d)%Z.
Proof.
  induction d as [|d IH] using Pos.peano_ind.
  - cbn [Pos.iter]. lia.
  - rewrite Pos.iter_succ, Pos2Z.inj_xO, IH, Pos2Z.inj_succ, Z.pow_succ_r by lia.
    lia.
Qed.

(** [shl_align] lowers the exponent to [ex'] when that is below [ex] and
    keeps the value. *)
Lemma shl_align_spec (mx : positive) (ex ex' : Z) :
  snd (shl_align mx ex ex') = Z.min ex ex'
  /\ Zpos (fst (shl_align mx ex ex')) = (Zpos mx * 2 ^ (ex - Z.min ex ex'))%Z.
Proof.
  unfold shl_align. F.zfold.
  change (PosDef.Pos.iter xO mx) with (Pos.iter xO mx).
  destruct (ex' - ex)%Z as [|d|d] eqn:E; cbn [fst snd].
  - replace (Z.min ex ex') with ex by lia. rewrite Z.sub_diag. lia.
  - replace (Z.min ex ex') with ex by lia. rewrite Z.sub_diag. lia.
  - replace (Z.min ex ex') with ex' by lia. split; [reflexivity|].
    rewrite iter_xO. f_equal. f_equal. lia.
Qed.

Lemma shl_align_value (mx : positive) (ex ex' : Z) :
  IZR (Zpos (fst (shl_align mx ex ex'))) * pow2 (snd (shl_align mx ex ex'))
  = IZR (Zpos mx) * pow2 ex.
Proof.
  destruct (shl_align_spec mx ex ex') as [-> ->].
  rewrite mult_IZR, <- pow2_IZR by lia.
  rewrite Rmult_assoc, <- pow2_add. do 2 f_equal. lia.
Qed.

Lemma binary_round_rounds (s : bool) (m : positive) (e : Z) :
  fl_rounds s (IZR (Zpos m) * pow2 e) (binary_round prec emax s m e).
Proof.
  unfold binary_round. F.zfold.
  change (Zpos (digits2_pos m)) with (Zdigits2 (Zpos m)).
  change (SpecFloat.fexp prec emax) with fexp64.
  set (ex' := fexp64 (Zdigits2 (Zpos m) + e)).
  assert (Hv := shl_align_value m e ex').
  destruct (shl_align_spec m e ex') as [Hs _].
  destruct (shl_align m e ex') as [mz ez]. cbn [fst snd] in *.
  rewrite <- Hv.
  assert (Hk : (Zdigits2 (Zpos mz) + ez = Zdigits2 (Zpos m) + e)%Z).
  { apply (mag_unique (IZR (Zpos mz) * pow2 ez)).
    - apply mag_scale, mag_IZR. lia.
    - rewrite Hv. apply mag_scale, mag_IZR. lia. }
  apply (binary_round_aux_rounds _ _ _ _ _ (Zdigits2 (Zpos mz) + ez)).
  - lia.
  - reflexivity.
  - apply IZR_lt. lia.
  - apply mag_scale, mag_IZR. lia.
  - reflexivity.
  - rewrite Hk. fold ex'. lia.
Qed.

(** [binary_normalize] returns what [m * 2^e] rounds to. *)
Lemma binary_normalize_signed (m e : Z) (sz : bool) :
  fl_signed (IZR m * pow2 e) (binary_normalize prec emax m e sz).
Proof.
  destruct m as [|p|p]; cbn [binary_normalize].
  - left. split; [lra|eauto].
  - assert (H := binary_round_rounds false p e).
    apply sign_split in H; [|apply finite_pos].
    now rewrite Rmult_1_l in H.
  - assert (H := binary_round_rounds true p e).
    apply sign_split in H; [|apply finite_pos].
    replace (IZR (Zneg p) * pow2 e) with (-1 * (IZR (Zpos p) * pow2 e)); [exact H|].
    change (Zneg p) with (- Zpos p)%Z. rewrite opp_IZR. ring.
Qed.

(** [SFadd] returns what the exact sum rounds to. *)
Lemma SFadd_signed (x y : spec_float) :
  valid_binary x = true -> valid_binary y = true ->
  finite_or_zero x -> finite_or_zero y ->
  fl_signed (B2R x + B2R y) (SFadd prec emax x y).
Proof.
  intros Hx Hy Fx Fy.
  destruct x as [sx|sx| |sx mx ex], y as [sy|sy| |sy my ey];
    simpl in Fx, Fy; try contradiction.
  - left. split; [simpl; lra|]. destruct sx, sy; simpl; eauto.
  - replace (B2R (S754_zero sx) + B2R (S754_finite sy my ey))
      with (B2R (S754_finite sy my ey)) by (simpl; lra).
    now apply (B2R_signed (S754_finite sy my ey)).
  - replace (B2R (S754_finite sx mx ex) + B2R (S754_zero sy))
      with (B2R (S754_finite sx mx ex)) by (simpl; lra).
    now apply (B2R_signed (S754_finite sx mx ex)).
  - unfold SFadd. set (ez := Z.min ex ey).
    assert (Vx := shl_align_value mx ex ez).
    assert (Vy := shl_align_value my ey ez).
    destruct (shl_align_spec mx ex ez) as [Sx _].
    destruct (shl_align_spec my ey ez) as [Sy _].
    rewrite Sx in Vx. rewrite Sy in Vy.
    replace (Z.min ex ez) with ez in Vx by (unfold ez; lia).
    replace (Z.min ey ez) with ez in Vy by (unfold ez; lia).
    F.zfold.
    match goal with
    | |- fl_signed _ (binary_normalize _ _ ?m _ _) =>
        replace (B2R (S754_finite sx mx ex) + B2R (S754_finite sy my ey))
          with (IZR m * pow2 ez); [apply binary_normalize_signed|]
    end.
    rewrite plus_IZR. simpl B2R. rewrite <- Vx, <- Vy.
    destruct sx, sy; cbn [cond_Zopp]; rewrite ?opp_IZR; ring.
Qed.

(** [SFdiv] by a finite number other than zero returns what the exact
    quotient rounds to. *)
Lemma SFdiv_signed (x y : spec_float) (sy : bool) (my : positive) (ey : Z) :
  y = S754_finite sy my ey ->
  valid_binary x = true -> valid_binary y = true ->
  finite_or_zero x ->
  fl_signed (B2R x / B2R y) (SFdiv prec emax x y).
Proof.
  intros -> Hx Hy Fx.
  assert (Hpy := finite_pos my ey).
  destruct x as [sx|sx| |sx mx ex]; simpl in Fx; try contradiction.
  - left. split; [|simpl; eauto]. simpl. unfold Rdiv. ring.
  - assert (H := SFdiv_finite sx sy mx my ex ey Hx Hy).
    apply sign_split in H.
    + replace (B2R (S754_finite sx mx ex) / B2R (S754_finite sy my ey))
        with ((if xorb sx sy then -1 else 1)
              * (IZR (Zpos mx) * pow2 ex / (IZR (Zpos my) * pow2 ey)));
        [exact H|].
      simpl B2R. set (a := IZR (Zpos mx) * pow2 ex).
      set (b := IZR (Zpos my) * pow2 ey) in *.
      destruct sx, sy; cbn [xorb]; field; lra.
    + apply Rdiv_lt_0_compat; [apply finite_pos|assumption].
Qed.

(** *** The operations keep the order *)

(** [x <= y], or one of them is not a number. *)
Definition sle (x y : spec_float) : Prop :=
  x = S754_nan \/ y = S754_nan \/ SFleb x y = true.

(** Floats above zero, [+infinity] among them. *)
Definition positive_float (f : spec_float) : Prop :=
  match f with
  | S754_infinity false | S754_finite false _ _ => True
  | _ => False
  end.

Ltac sle_done :=
  solve [ left; reflexivity | right; left; reflexivity
        | right; right; reflexivity | discriminate | contradiction ].

Lemma sle_bottom (y : spec_float) : sle (S754_infinity true) y.
Proof. destruct y as [s|[|]| |s m e]; sle_done. Qed.

Lemma sle_top (x : spec_float) : sle x (S754_infinity false).
Proof. destruct x as [s|[|]| |[|] m e]; sle_done. Qed.

Lemma classify (x : spec_float) :
  x = S754_nan \/ x = S754_infinity true \/ x = S754_infinity false
  \/ finite_or_zero x.
Proof. destruct x as [s|[|]| |s m e]; simpl; auto. Qed.

(** Two floats in order: the lower one is [-infinity], the upper one is
    [+infinity], or neither is infinite. *)
Lemma SFleb_classify (x x' : spec_float) :
  SFleb x x' = true ->
  x = S754_infinity true \/ x' = S754_infinity false
  \/ (finite_or_zero x /\ finite_or_zero x').
Proof.
  destruct x as [s|[|]| |s m e], x' as [s'|[|]| |s' m' e']; simpl; auto;
    try discriminate; destruct s; discriminate.
Qed.

(** *** Multiplication by a nonnegative number *)

Lemma SFmul_mono_finite (x x' w : spec_float) :
  valid_binary x = true -> valid_binary x' = true -> valid_binary w = true ->
  finite_or_zero x -> finite_or_zero x' -> finite_or_zero w -> nonneg w ->
  SFleb x x' = true ->
  SFleb (SFmul prec emax x w) (SFmul prec emax x' w) = true.
Proof.
  intros Hx Hx' Hw Fx Fx' Fw Nw Hle.
  apply (fl_signed_le (B2R x * B2R w) (B2R x' * B2R w)).
  - apply SFleb_B2R in Hle; auto.
    assert (0 <= B2R w).
    { destruct w as [s|s| |[|] m e]; simpl in *; try contradiction; try lra.
      assert (Hp := finite_pos m e). lra. }
    nra.
  - now apply SFmul_signed.
  - now apply SFmul_signed.
Qed.

Lemma SFmul_mono (x x' w : spec_float) :
  valid_binary x = true -> valid_binary x' = true -> valid_binary w = true ->
  nonneg w -> sle x x' -> sle (SFmul prec emax x w) (SFmul prec emax x' w).
Proof.
  intros Hx Hx' Hw Nw [->|[->|Hle]].
  - left. reflexivity.
  - right. left. destruct x as [s|s| |s m e]; reflexivity.
  - destruct w as [sw|[|]| |[|] mw ew]; simpl in Nw; try contradiction.
    + destruct x as [s|[|]| |s m e], x' as [s'|[|]| |s' m' e'];
        cbn [SFmul]; sle_done.
    + destruct x as [s|[|]| |[|] m e], x' as [s'|[|]| |[|] m' e'];
        cbn [SFmul xorb]; try sle_done; simpl in Hle; discriminate.
    + destruct (SFleb_classify x x' Hle) as [->|[->|[Fx Fx']]].
      * cbn [SFmul xorb]. apply sle_bottom.
      * cbn [SFmul xorb]. apply sle_top.
      * right. right. apply SFmul_mono_finite; simpl; auto.
Qed.

(** *** Division by a positive number *)

Lemma SFdiv_mono_finite (x x' : spec_float) (m : positive) (e : Z) :
  valid_binary x = true -> valid_binary x' = true ->
  valid_binary (S754_finite false m e) = true ->
  finite_or_zero x -> finite_or_zero x' ->
  SFleb x x' = true ->
  SFleb (SFdiv prec emax x (S754_finite false m e))
        (SFdiv prec emax x' (S754_finite false m e)) = true.
Proof.
  intros Hx Hx' Hw Fx Fx' Hle.
  apply (fl_signed_le (B2R x / B2R (S754_finite false m e))
                      (B2R x' / B2R (S754_finite false m e))).
  - apply SFleb_B2R in Hle; auto.
    assert (Hp := finite_pos m e). simpl B2R.
    set (b := IZR (Zpos m) * pow2 e) in *.
    unfold Rdiv. apply Rmult_le_compat_r; [|assumption].
    apply Rlt_le, Rinv_0_lt_compat. lra.
  - now apply (SFdiv_signed x _ false m e).
  - now apply (SFdiv_signed x' _ false m e).
Qed.

Lemma SFdiv_mono (x x' w : spec_float) :
  valid_binary x = true -> valid_binary x' = true -> valid_binary w = true ->
  positive_float w -> sle x x' ->
  sle (SFdiv prec emax x w) (SFdiv prec emax x' w).
Proof.
  intros Hx Hx' Hw Nw [->|[->|Hle]].
  - left. reflexivity.
  - right. left. destruct x as [s|s| |s m e]; reflexivity.
  - destruct w as [sw|[|]| |[|] mw ew]; simpl in Nw; try contradiction.
    + destruct x as [s|[|]| |s m e], x' as [s'|[|]| |s' m' e'];
        cbn [SFdiv]; sle_done.
    + destruct (SFleb_classify x x' Hle) as [->|[->|[Fx Fx']]].
      * cbn [SFdiv xorb]. apply sle_bottom.
      * cbn [SFdiv xorb]. apply sle_top.
      * right. right. apply SFdiv_mono_finite; auto.
Qed.

(** *** Addition *)

Lemma SFadd_mono_finite (a a' b b' : spec_float) :
  valid_binary a = true -> valid_binary a' = true ->
  valid_binary b = true -> valid_binary b' = true ->
  finite_or_zero a -> finite_or_zero a' ->
  finite_or_zero b -> finite_or_zero b' ->
  SFleb a a' = true -> SFleb b b' = true ->
  SFleb (SFadd prec emax a b) (SFadd prec emax a' b') = true.
Proof.
  intros Ha Ha' Hb Hb' Fa Fa' Fb Fb' Hle Hle'.
  apply (fl_signed_le (B2R a + B2R b) (B2R a' + B2R b')).
  - apply SFleb_B2R in Hle; auto. apply SFleb_B2R in Hle'; auto. lra.
  - now apply SFadd_signed.
  - now apply SFadd_signed.
Qed.

Lemma SFadd_inf_l (s : bool) (b : spec_float) :
  SFadd prec emax (S754_infinity s) b = S754_infinity s
  \/ SFadd prec emax (S754_infinity s) b = S754_nan.
Proof. destruct s, b as [sb|[|]| |sb m e]; cbn [SFadd]; auto. Qed.

Lemma SFadd_inf_r (s : bool) (a : spec_float) :
  SFadd prec emax a (S754_infinity s) = S754_infinity s
  \/ SFadd prec emax a (S754_infinity s) = S754_nan.
Proof. destruct s, a as [sa|[|]| |sa m e]; cbn [SFadd]; auto. Qed.

Lemma SFadd_mono (a a' b b' : spec_float) :
  valid_binary a = true -> valid_binary a' = true ->
  valid_binary b = true -> valid_binary b' = true ->
  sle a a' -> sle b b' ->
  sle (SFadd prec emax a b) (SFadd prec emax a' b').
Proof.
  intros Ha Ha' Hb Hb' [->|[->|Hle]].
  { left. reflexivity. }
  { intros _. right. left. reflexivity. }
  intros [->|[->|Hle']].
  { left. destruct a as [s|s| |s m e]; reflexivity. }
  { right. left. destruct a' as [s|s| |s m e]; reflexivity. }
  destruct (SFleb_classify a a' Hle) as [->|[->|[Fa Fa']]].
  - destruct (SFadd_inf_l true b) as [->| ->];
      [apply sle_bottom|left; reflexivity].
  - destruct (SFadd_inf_l false b') as [->| ->];
      [apply sle_top|right; left; reflexivity].
  - destruct (SFleb_classify b b' Hle') as [->|[->|[Fb Fb']]].
    + destruct (SFadd_inf_r true a) as [->| ->];
        [apply sle_bottom|left; reflexivity].
    + destruct (SFadd_inf_r false a') as [->| ->];
        [apply sle_top|right; left; reflexivity].
    + right. right. now apply SFadd_mono_finite.
Qed.

(** *** Conversion of integers *)

Lemma normalize_int_mono (n n' : Z) :
  (n <= n')%Z ->
  SFleb (binary_normalize prec emax n 0 false)
        (binary_normalize prec emax n' 0 false) = true.
Proof.
  intros H.
  apply (fl_signed_le (IZR n * pow2 0) (IZR n' * pow2 0)).
  - apply IZR_le in H. change (pow2 0) with 1. lra.
  - apply binary_normalize_signed.
  - apply binary_normalize_signed.
Qed.

Lemma normalize_int_valid (n : Z) :
  valid_binary (binary_normalize prec emax n 0 false) = true.
Proof. apply (fl_signed_valid _ _ (binary_normalize_signed n 0 false)). Qed.

End Rounding.

Import Rounding.

(** ** The score never decreases when a level goes up *)

(** [x <= y] on binary64 numbers, or one of them is not a number. *)
Definition ple (x y : float) : Prop := sle (Prim2SF x) (Prim2SF y).

Lemma ple_ltb (x y : float) : ple x y -> (y <? x)%float = false.
Proof.
  intros [H|[H|H]].
  - rewrite ltb_spec. unfold SFltb. rewrite H.
    now rewrite F.SFcompare_nan_r.
  - rewrite ltb_spec. unfold SFltb. rewrite H.
    now rewrite F.SFcompare_nan_l.
  - apply F.leb_ltb_false. now rewrite leb_spec.
Qed.

Lemma ple_leb (x y : float) :
  F.nan_free x -> F.nan_free y -> ple x y -> (x <=? y)%float = true.
Proof.
  intros Hx Hy [H|[H|H]]; try contradiction. now rewrite leb_spec.
Qed.

Lemma float_of_int_spec (n : Z) :
  Prim2SF (Py.float_of_int n) = binary_normalize prec emax n 0 false.
Proof. apply Prim2SF_SF2Prim, normalize_int_valid. Qed.

Lemma truediv_mono (n n' : Z) :
  n <= n' -> ple (Py.truediv n 5) (Py.truediv n' 5).
Proof.
  intros H. unfold ple, Py.truediv.
  rewrite !div_spec, !float_of_int_spec.
  apply SFdiv_mono; try apply normalize_int_valid.
  - exact Logic.I.
  - right. right. now apply normalize_int_mono.
Qed.

Lemma leb_0_nonneg (w : float) :
  (0 <=? w)%float = true -> nonneg (Prim2SF w).
Proof.
  rewrite leb_spec. change (Prim2SF 0) with (S754_zero false).
  destruct (Prim2SF w) as [s|[|]| |[|] m e]; simpl; auto; discriminate.
Qed.

Lemma mul_mono (x x' w : float) :
  (0 <=? w)%float = true -> ple x x' -> ple (x * w) (x' * w).
Proof.
  intros Hw H. unfold ple. rewrite !mul_spec.
  apply SFmul_mono; auto using Prim2SF_valid, leb_0_nonneg.
Qed.

Lemma add_mono (a a' b b' : float) :
  ple a a' -> ple b b' -> ple (a + b) (a' + b').
Proof.
  intros Ha Hb. unfold ple. rewrite !add_spec.
  apply SFadd_mono; auto using Prim2SF_valid.
Qed.

Lemma div_mono (x x' w : float) :
  positive_float (Prim2SF w) -> ple x x' -> ple (x / w) (x' / w).
Proof.
  intros Hw H. unfold ple. rewrite !div_spec.
  apply SFdiv_mono; auto using Prim2SF_valid.
Qed.

(** *** Sums of nonnegative weights *)

Lemma SFadd_nonneg (a b : spec_float) :
  valid_binary a = true -> valid_binary b = true ->
  nonneg a -> nonneg b -> nonneg (SFadd prec emax a b).
Proof.
  intros Va Vb Na Nb.
  assert (H0 : forall f, nonneg f -> SFleb (S754_zero false) f = true).
  { intros [s|[|]| |[|] m e]; simpl; tauto || reflexivity. }
  assert (H1 : forall f, SFleb (S754_zero false) f = true -> nonneg f).
  { intros [s|[|]| |[|] m e]; simpl; auto; discriminate. }
  destruct (classify a) as [->|[->|[->|Fa]]]; try contradiction.
  { destruct b as [s|[|]| |[|] m e]; simpl in Nb; try contradiction; exact Logic.I. }
  destruct (classify b) as [->|[->|[->|Fb]]]; try contradiction.
  { destruct a as [s|[|]| |[|] m e]; simpl in Na; try contradiction; exact Logic.I. }
  apply H1.
  change (S754_zero false)
    with (SFadd prec emax (S754_zero false) (S754_zero false)).
  apply SFadd_mono_finite; auto; exact Logic.I.
Qed.

Lemma add_nonneg (a b : float) :
  (0 <=? a)%float = true -> (0 <=? b)%float = true ->
  (0 <=? a + b)%float = true.
Proof.
  intros Ha Hb. apply leb_0_nonneg in Ha, Hb.
  assert (H := SFadd_nonneg _ _ (Prim2SF_valid a) (Prim2SF_valid b) Ha Hb).
  rewrite leb_spec, add_spec. change (Prim2SF 0) with (S754_zero false).
  unfold SF64add.
  destruct (SFadd prec emax (Prim2SF a) (Prim2SF b)) as [s|[|]| |[|] m e];
    simpl in H; try contradiction; reflexivity.
Qed.

Definition nao_negativo (w : float) : Prop := (0 <=? w)%float = true.

Lemma sum_nonneg (ws : list float) (acc : float) :
  nao_negativo acc -> Forall nao_negativo ws ->
  nao_negativo (fold_left PrimFloat.add ws acc).
Proof.
  revert acc. induction ws as [|w ws IH]; intros acc Ha Hws; simpl.
  - exact Ha.
  - inversion Hws as [|? ? Hw Hws']; subst.
    apply IH; [|assumption]. now apply add_nonneg.
Qed.

Lemma nonzero_positive (x : float) :
  nao_negativo x -> (x =? 0)%float = false -> positive_float (Prim2SF x).
Proof.
  intros Hx Hz. apply leb_0_nonneg in Hx. rewrite eqb_spec in Hz.
  change (Prim2SF 0) with (S754_zero false) in Hz.
  destruct (Prim2SF x) as [s|[|]| |[|] m e]; simpl in *;
    try contradiction; try discriminate; exact Logic.I.
Qed.

(** *** The score *)

(** Every weight of the career is at least zero. *)
Definition pesos_nao_negativos (carreira : Carreira.t) : Prop :=
  Forall nao_negativo (Py.values (Carreira.competencias_requeridas carreira)).

(** No skill is rated lower by [p'] than by [p]; a skill without a rating
    counts as level 0, as in [calcular_pontuacao]. *)
Definition niveis_nao_menores (p p' : Py.dict Z) : Prop :=
  forall comp, Py.get_or p comp 0 <= Py.get_or p' comp 0.

Lemma fold_acumula_mono (p p' : Py.dict Z) (itens : list (string * float))
      (total total' : float) :
  niveis_nao_menores p p' ->
  Forall nao_negativo (map snd itens) ->
  ple total total' ->
  ple (fold_left (Carreira.acumula p) itens total)
      (fold_left (Carreira.acumula p') itens total').
Proof.
  intros Hp. revert total total'.
  induction itens as [|[comp peso] itens IH]; intros total total' Hw Ht.
  - exact Ht.
  - inversion Hw as [|? ? Hpeso Hw']; subst. cbn [fold_left].
    apply IH; [assumption|]. unfold Carreira.acumula.
    apply add_mono; [assumption|].
    apply mul_mono; [assumption|]. apply truediv_mono, Hp.
Qed.

Lemma calcular_pontuacao_mono (carreira : Carreira.t) (p p' : Py.dict Z) :
  pesos_nao_negativos carreira -> niveis_nao_menores p p' ->
  ple (Carreira.calcular_pontuacao carreira p)
      (Carreira.calcular_pontuacao carreira p').
Proof.
  intros Hw Hp. unfold Carreira.calcular_pontuacao.
  set (soma := Py.sum _).
  assert (Hs : nao_negativo soma).
  { apply sum_nonneg; [reflexivity|exact Hw]. }
  destruct (soma =? 0)%float eqn:Hz.
  - right. right. reflexivity.
  - apply mul_mono; [reflexivity|].
    apply div_mono; [now apply nonzero_positive|].
    apply fold_acumula_mono; [assumption|exact Hw|].
    right. right. reflexivity.
Qed.

Lemma get_or_set (p : Py.dict Z) (comp comp' : string) (nivel : Z) :
  Py.get_or (Py.set p comp nivel) comp' 0
  = if String.eqb comp comp' then nivel else Py.get_or p comp' 0.
Proof.
  unfold Py.get_or.
  induction p as [|[k v] p IH]; simpl.
  - destruct (String.eqb comp comp'); reflexivity.
  - destruct (String.eqb_spec k comp) as [->|Hk]; simpl.
    + destruct (String.eqb comp comp'); reflexivity.
    + destruct (String.eqb_spec k comp') as [->|Hk'].
      * destruct (String.eqb_spec comp comp') as [->|_]; [congruence|reflexivity].
      * exact IH.
Qed.

(** *** Scores that are numbers *)

Definition finito (w : float) : Prop := (w <? infinity)%float = true.

Lemma SFadd_finite_inv (a b : spec_float) :
  nonneg a -> nonneg b ->
  SFltb (SFadd prec emax a b) (S754_infinity false) = true ->
  SFltb a (S754_infinity false) = true /\ SFltb b (S754_infinity false) = true.
Proof.
  destruct a as [s|[|]| |[|] m e], b as [s'|[|]| |[|] m' e'];
    simpl nonneg; try contradiction; intros _ _ H;
    try (split; reflexivity); cbn [SFadd] in H; discriminate H.
Qed.

Lemma add_finite_inv (a b : float) :
  nao_negativo a -> nao_negativo b -> finito (a + b) -> finito a /\ finito b.
Proof.
  unfold finito. intros Ha Hb. apply leb_0_nonneg in Ha, Hb.
  rewrite !ltb_spec, add_spec.
  change (Prim2SF infinity) with (S754_infinity false).
  now apply SFadd_finite_inv.
Qed.

(** A finite sum of nonnegative numbers has finite terms. *)
Lemma sum_finite_inv (ws : list float) (acc : float) :
  nao_negativo acc -> Forall nao_negativo ws ->
  finito (fold_left PrimFloat.add ws acc) ->
  finito acc /\ Forall finito ws.
Proof.
  revert acc. induction ws as [|w ws IH]; intros acc Ha Hws Hf; simpl in Hf.
  - split; [assumption|constructor].
  - inversion Hws as [|? ? Hw Hws']; subst.
    destruct (IH _ (add_nonneg _ _ Ha Hw) Hws' Hf) as [Hs Hfs].
    destruct (add_finite_inv _ _ Ha Hw Hs) as [Hfa Hfw].
    split; [assumption|now constructor].
Qed.

Lemma truediv_faixa (n : Z) :
  0 <= n <= 5 ->
  nao_negativo (Py.truediv n 5) /\ finito (Py.truediv n 5).
Proof.
  intros H.
  assert (Hn : n = 0 \/ n = 1 \/ n = 2 \/ n = 3 \/ n = 4 \/ n = 5) by lia.
  destruct Hn as [->|[->|[->|[->|[->| ->]]]]]; split; vm_compute; reflexivity.
Qed.

Lemma SFmul_nonneg (x w : spec_float) :
  valid_binary x = true -> valid_binary w = true ->
  nonneg x -> nonneg w ->
  SFltb x (S754_infinity false) = true ->
  SFltb w (S754_infinity false) = true ->
  nonneg (SFmul prec emax x w).
Proof.
  intros Vx Vw Nx Nw Fx Fw.
  destruct w as [sw|[|]| |[|] mw ew]; simpl in Nw; try contradiction;
    try discriminate Fw.
  - destruct x as [s|[|]| |[|] m e]; simpl in Nx; try contradiction;
      try discriminate Fx; exact Logic.I.
  - destruct x as [s|[|]| |[|] m e]; simpl in Nx; try contradiction;
      try discriminate Fx; try exact Logic.I.
    assert (H : SFleb (SFmul prec emax (S754_zero false) (S754_finite false mw ew))
                      (SFmul prec emax (S754_finite false m e)
                             (S754_finite false mw ew)) = true)
      by (apply SFmul_mono_finite; auto; exact Logic.I).
    change (SFmul prec emax (S754_zero false) (S754_finite false mw ew))
      with (S754_zero false) in H.
    destruct (SFmul prec emax (S754_finite false m e) (S754_finite false mw ew))
      as [s'|[|]| |[|] m' e']; try discriminate H; exact Logic.I.
Qed.

Lemma nonneg_leb_0 (x : float) : nonneg (Prim2SF x) -> nao_negativo x.
Proof.
  unfold nao_negativo. rewrite leb_spec.
  change (Prim2SF 0) with (S754_zero false).
  destruct (Prim2SF x) as [s|[|]| |[|] m e]; simpl; tauto || reflexivity.
Qed.

Lemma mul_nonneg (x w : float) :
  nao_negativo x -> nao_negativo w -> finito x -> finito w ->
  nao_negativo (x * w).
Proof.
  unfold finito. rewrite !ltb_spec.
  change (Prim2SF infinity) with (S754_infinity false).
  intros Nx Nw Fx Fw. apply leb_0_nonneg in Nx, Nw.
  apply nonneg_leb_0. rewrite mul_spec.
  apply SFmul_nonneg; auto using Prim2SF_valid.
Qed.

(** Levels from 0 to 5, level 0 standing for a skill without a rating. *)
Definition niveis_0_a_5 (p : Py.dict Z) : Prop :=
  forall comp, 0 <= Py.get_or p comp 0 <= 5.

Lemma fold_acumula_nonneg (p : Py.dict Z) (itens : list (string * float))
      (total : float) :
  niveis_0_a_5 p ->
  Forall nao_negativo (map snd itens) -> Forall finito (map snd itens) ->
  nao_negativo total ->
  nao_negativo (fold_left (Carreira.acumula p) itens total).
Proof.
  intros Hp. revert total.
  induction itens as [|[comp peso] itens IH]; intros total Hw Hf Ht.
  - exact Ht.
  - inversion Hw as [|? ? Hpeso Hw']; inversion Hf as [|? ? Hfin Hf']; subst.
    cbn [fold_left]. apply IH; try assumption. unfold Carreira.acumula.
    destruct (truediv_faixa _ (Hp comp)) as [Hn Hfn].
    apply add_nonneg; [assumption|]. now apply mul_nonneg.
Qed.

Lemma SFdiv_nan_free (x : spec_float) (m : positive) (e : Z) :
  valid_binary x = true -> valid_binary (S754_finite false m e) = true ->
  x <> S754_nan -> SFdiv prec emax x (S754_finite false m e) <> S754_nan.
Proof.
  intros Vx Vw Hx.
  destruct x as [s|s| |s mx ex]; try congruence; try discriminate.
  apply (fl_signed_valid _ _
           (SFdiv_signed (S754_finite s mx ex) _ false m e eq_refl Vx Vw Logic.I)).
Qed.

Lemma SFmul_nan_free (x : spec_float) (m : positive) (e : Z) :
  valid_binary x = true -> valid_binary (S754_finite false m e) = true ->
  x <> S754_nan -> SFmul prec emax x (S754_finite false m e) <> S754_nan.
Proof.
  intros Vx Vw Hx.
  destruct x as [s|s| |s mx ex]; try congruence; try discriminate.
  apply (fl_signed_valid _ _
           (SFmul_signed (S754_finite s mx ex) _ Vx Vw Logic.I Logic.I)).
Qed.

(** With a finite total weight and levels from 0 to 5 the score is a
    number. *)
Lemma calcular_pontuacao_numero (carreira : Carreira.t) (p : Py.dict Z) :
  pesos_nao_negativos carreira -> finito (soma_pesos carreira) ->
  niveis_0_a_5 p ->
  F.nan_free (Carreira.calcular_pontuacao carreira p).
Proof.
  intros Hw Hfin Hp. unfold Carreira.calcular_pontuacao.
  fold (soma_pesos carreira).
  assert (Hs : nao_negativo (soma_pesos carreira)).
  { apply sum_nonneg; [reflexivity|exact Hw]. }
  destruct (sum_finite_inv _ _ (eq_refl : nao_negativo 0) Hw Hfin) as [_ Hfs].
  destruct (soma_pesos carreira =? 0)%float eqn:Hz.
  - discriminate.
  - assert (Ht := fold_acumula_nonneg p
                    (Py.items (Carreira.competencias_requeridas carreira))
                    0%float Hp Hw Hfs eq_refl).
    set (total := fold_left _ _ _) in *.
    assert (Hpos := nonzero_positive _ Hs Hz).
    unfold finito in Hfin. rewrite ltb_spec in Hfin.
    change (Prim2SF infinity) with (S754_infinity false) in Hfin.
    apply leb_0_nonneg in Ht.
    unfold F.nan_free. rewrite mul_spec, div_spec.
    assert (Vs := Prim2SF_valid (soma_pesos carreira)).
    assert (Vt := Prim2SF_valid total).
    destruct (Prim2SF (soma_pesos carreira)) as [s|[|]| |[|] m e];
      simpl in Hpos; try contradiction; try discriminate Hfin.
    assert (Hq : SFdiv prec emax (Prim2SF total) (S754_finite false m e)
                 <> S754_nan).
    { apply SFdiv_nan_free; auto.
      destruct (Prim2SF total); simpl in Ht; try contradiction; discriminate. }
    assert (Vq : valid_binary
                   (SFdiv prec emax (Prim2SF total) (S754_finite false m e))
                 = true).
    { change (SFdiv prec emax) with SF64div.
      replace (S754_finite false m e) with (Prim2SF (SF2Prim (S754_finite false m e)))
        by (now apply Prim2SF_SF2Prim).
      rewrite <- div_spec. apply Prim2SF_valid. }
    change (Prim2SF 100) with (S754_finite false 7036874417766400 (-46)).
    apply SFmul_nan_free; auto.
Qed.

(** For levels from 0 to 5 and a finite total weight, the score after a
    level went up is at least the score before. *)
Theorem pontuacao_monotona_numeros (carreira : Carreira.t)
        (perfil : Perfil.t) (comp : string) (nivel : Z) :
  pesos_nao_negativos carreira -> finito (soma_pesos carreira) ->
  niveis_0_a_5 (Perfil.competencias perfil) ->
  Py.get_or (Perfil.competencias perfil) comp 0 <= nivel <= 5 ->
  (Carreira.calcular_pontuacao carreira (Perfil.competencias perfil)
   <=? Carreira.calcular_pontuacao carreira
         (Perfil.competencias (Perfil.adicionar_competencia perfil comp nivel)))%float
  = true.
Proof.
  intros Hw Hfin Hp Hn.
  assert (Hp' : niveis_0_a_5
                  (Perfil.competencias
                     (Perfil.adicionar_competencia perfil comp nivel))).
  { intros comp'. cbn [Perfil.adicionar_competencia Perfil.competencias].
    rewrite get_or_set. destruct (String.eqb comp comp'); [|apply Hp].
    specialize (Hp comp). lia. }
  assert (Hle : niveis_nao_menores
                  (Perfil.competencias perfil)
                  (Perfil.competencias
                     (Perfil.adicionar_competencia perfil comp nivel))).
  { intros comp'. cbn [Perfil.adicionar_competencia Perfil.competencias].
    rewrite get_or_set.
    destruct (String.eqb_spec comp comp') as [<-|_]; lia. }
  assert (N := calcular_pontuacao_numero carreira _ Hw Hfin Hp).
  assert (N' := calcular_pontuacao_numero carreira _ Hw Hfin Hp').
  destruct (calcular_pontuacao_mono carreira _ _ Hw Hle) as [H|[H|H]].
  - contradiction.
  - contradiction.
  - now rewrite leb_spec.
Qed.

(** C10. For every career whose required-skill weights are all at least
    zero, every profile, every skill and every level not below the level
    the profile records for that skill (level 0 when the skill has no
    rating yet), the score of the career after
    [adicionar_competencia perfil comp nivel] is not less than its score
    before.  This covers raising the recorded level of one skill and
    rating, with a level from 1 to 5, a required skill that had no rating.
    The comparison [after < before] is false; when both scores are
    numbers this is [before <= after], as it is for levels from 0 to 5 and
    a finite total weight ([pontuacao_monotona_numeros]). *)
Theorem calcular_pontuacao_monotona (carreira : Carreira.t) (perfil : Perfil.t)
        (comp : string) (nivel : Z) :
  pesos_nao_negativos carreira ->
  Py.get_or (Perfil.competencias perfil) comp 0 <= nivel ->
  (Carreira.calcular_pontuacao carreira
     (Perfil.competencias (Perfil.adicionar_competencia perfil comp nivel))
   <? Carreira.calcular_pontuacao carreira (Perfil.competencias perfil))%float
  = false.
Proof.
  intros Hw Hn. apply ple_ltb, calcular_pontuacao_mono; [assumption|].
  intros comp'. cbn [Perfil.adicionar_competencia Perfil.competencias].
  rewrite get_or_set.
  destruct (String.eqb_spec comp comp') as [<-|_]; [assumption|lia].
Qed.

Definition bia : Perfil.t :=
  Perfil.make "Bia" [("Curiosidade", 2); ("Colaboração", 3)].

Definition cientista_de_dados : Carreira.t :=
  nth 0 carreiras_padrao carreira_exemplo.

Lemma calcular_pontuacao_monotona_witness :
  pesos_nao_negativos cientista_de_dados
  /\ Py.get_or (Perfil.competencias bia) "Curiosidade" 0 <= 4
  /\ (Carreira.calcular_pontuacao cientista_de_dados
        (Perfil.competencias (Perfil.adicionar_competencia bia "Curiosidade" 4))
      <? Carreira.calcular_pontuacao cientista_de_dados
           (Perfil.competencias bia))%float
     = false.
Proof.
  assert (Hw : pesos_nao_negativos cientista_de_dados)
    by (repeat constructor).
  assert (Hn : Py.get_or (Perfil.competencias bia) "Curiosidade" 0 <= 4)
    by (vm_compute; discriminate).
  split; [exact Hw|]. split; [exact Hn|].
  exact (calcular_pontuacao_monotona cientista_de_dados bia "Curiosidade" 4
           Hw Hn).
Defined.

(** ** The formula on every interpreter

    The formula of [calcular_pontuacao] holds on the interpreters of
    both kinds, with [sum] read as each computes it.  On levels within
    [2^53], where [float(n)] is [n] itself, the two roundings of
    [Py.truediv] are one: the quotient it returns is the exact quotient
    of the two integers rounded once, which is [int / int]. *)

(** *** Levels within [2^53] *)

(** Every level the profile records is at most [2^53] in absolute value:
    the integers on which [Py.truediv] is [int / int]. *)
Definition niveis_limitados (p : Py.dict Z) : Prop :=
  Forall (fun item => Z.abs (snd item) <= 2 ^ 53) p.

Lemma get_or_limitado (p : Py.dict Z) (comp : string) :
  niveis_limitados p -> - 2 ^ 53 <= Py.get_or p comp 0 <= 2 ^ 53.
Proof.
  unfold Py.get_or.
  induction 1 as [|[k n] p Hn Hp IH]; simpl.
  - lia.
  - destruct (k =? comp)%string; simpl in *; lia.
Qed.


(** *** Integers within [2^53] are binary64 numbers *)

Lemma is_rne_IZR (z m : Z) : is_rne (IZR z) m -> m = z.
Proof.
  intros H.
  assert (Hd : (IZR z - IZR m = IZR (z - m))%R) by (rewrite minus_IZR; lra).
  destruct (Z.lt_trichotomy m z) as [Hlt|[Heq|Hgt]]; [exfalso|exact Heq|exfalso].
  - assert (H1 : (1 <= IZR (z - m))%R) by (apply IZR_le; lia).
    destruct H as [H|[[H|H] _]]; lra.
  - assert (H1 : (IZR (z - m) <= -1)%R) by (apply IZR_le; lia).
    destruct H as [H|[[H|H] _]]; lra.
Qed.

Lemma pow2_opp (e : Z) : (pow2 e * pow2 (- e) = 1)%R.
Proof. rewrite <- pow2_add. replace (e + - e) with 0 by lia. reflexivity. Qed.

Lemma rounds_int (n : Z) (v : R) :
  0 < n <= 2 ^ 53 -> rounds (IZR n) v -> v = IZR n.
Proof.
  intros Hn (k & m & [Hk1 Hk2] & Hr & ->).
  assert (H1 : (1 <= IZR n)%R) by (apply IZR_le; lia).
  assert (H53 : (IZR n <= pow2 53)%R)
    by (rewrite pow2_IZR by lia; apply IZR_le; lia).
  assert (Hk : 1 <= k <= 54).
  { split.
    - assert (H : (pow2 0 < pow2 k)%R) by (change (pow2 0) with 1%R; lra).
      apply pow2_lt_inv in H. lia.
    - assert (H : (pow2 (k - 1) < pow2 54)%R).
      { assert (H := pow2_lt 53 54 ltac:(lia)). lra. }
      apply pow2_lt_inv in H. lia. }
  rewrite fexp64_eq in *.
  replace (Z.max (k - 53) (-1074)) with (k - 53) in * by lia.
  assert (Hp := pow2_pos (k - 53)).
  destruct (Z_le_gt_dec k 53) as [Hle|Hgt].
  - assert (E : (IZR n / pow2 (k - 53) = IZR (n * 2 ^ (53 - k)))%R).
    { rewrite mult_IZR, <- pow2_IZR by lia.
      assert (H := pow2_opp (k - 53)).
      replace (- (k - 53)) with (53 - k) in H by lia.
      set (a := pow2 (k - 53)) in *. set (b := pow2 (53 - k)) in *.
      apply (Rmult_eq_reg_r a); [|lra].
      replace (IZR n / a * a)%R with (IZR n) by (field; lra).
      rewrite Rmult_assoc, (Rmult_comm b a), H. lra. }
    rewrite E in Hr. apply is_rne_IZR in Hr. subst m.
    rewrite <- E. field. lra.
  - assert (k = 54) by lia. subst k.
    assert (En : n = 2 ^ 53).
    { apply Z.le_antisymm; [lia|]. apply le_IZR.
      rewrite <- pow2_IZR by lia. exact Hk1. }
    subst n. change (54 - 53) with 1 in *.
    assert (E : (IZR (2 ^ 53) / pow2 1 = IZR (2 ^ 52))%R).
    { change (2 ^ 53) with (2 ^ 52 * 2). rewrite mult_IZR.
      change (pow2 1) with (2 * 1)%R. field. }
    rewrite E in Hr. apply is_rne_IZR in Hr. subst m.
    change (2 ^ 53) with (2 ^ 52 * 2). rewrite mult_IZR.
    change (pow2 1) with (2 * 1)%R. lra.
Qed.

(** [float(n)] is [n] itself for an integer [n] up to [2^53] in absolute
    value. *)
Lemma normalize_int_exact (n : Z) :
  Z.abs n <= 2 ^ 53 ->
  finite_or_zero (binary_normalize prec emax n 0 false)
  /\ B2R (binary_normalize prec emax n 0 false) = IZR n.
Proof.
  intros Hn.
  assert (H := binary_normalize_signed n 0 false).
  change (pow2 0) with 1%R in H. rewrite Rmult_1_r in H.
  assert (Hmax : (pow2 53 < pow2 emax)%R) by (apply pow2_lt; reflexivity).
  assert (H53 : pow2 53 = IZR (2 ^ 53)) by (apply pow2_IZR; lia).
  destruct H as [[H0 [s ->]]|[[Hpos (v & Hv & _ & Hf)]|[Hneg (v & Hv & _ & Hf)]]].
  - split; [exact Logic.I|]. simpl. lra.
  - assert (Hn' : 0 < n) by (apply lt_IZR; exact Hpos).
    apply rounds_int in Hv; [|lia]. subst v.
    assert (Hle : (IZR n <= IZR (2 ^ 53))%R) by (apply IZR_le; lia).
    destruct (binary_normalize prec emax n 0 false) as [s|s| |s m e];
      try contradiction.
    + destruct Hf as [_ Hf]. lra.
    + destruct Hf as [_ Hf]. lra.
    + destruct Hf as [-> Hf]. split; [exact Logic.I|]. simpl. lra.
  - assert (Hn' : n < 0) by (apply lt_IZR; exact Hneg).
    rewrite <- opp_IZR in Hv.
    apply rounds_int in Hv; [|lia]. subst v.
    assert (Hle : (IZR (- n) <= IZR (2 ^ 53))%R) by (apply IZR_le; lia).
    assert (Ho := opp_IZR n).
    destruct (binary_normalize prec emax n 0 false) as [s|s| |s m e];
      try contradiction.
    + destruct Hf as [_ Hf]. lra.
    + destruct Hf as [_ Hf]. lra.
    + destruct Hf as [-> Hf]. split; [exact Logic.I|]. simpl. lra.
Qed.

(** [q] is the quotient of the integers [a] and [b] rounded once to
    binary64, to nearest with ties to even: what [a / b] returns in
    Python when the result is not too large for a float. *)
Definition quociente (a b : Z) (q : float) : Prop :=
  fl_signed (IZR a / IZR b) (Prim2SF q).

Lemma B2R_5 : B2R (S754_finite false 5629499534213120 (-50)) = 5%R.
Proof.
  unfold B2R. change 5629499534213120%positive with (5 * 2 ^ 50)%positive.
  change (IZR (Z.pos (5 * 2 ^ 50))) with (IZR (5 * 2 ^ 50)).
  rewrite mult_IZR. rewrite <- (pow2_IZR 50) by lia.
  assert (H := pow2_opp 50). change (- (50)) with (-50) in H.
  rewrite Rmult_1_l, Rmult_assoc, H. lra.
Qed.

(** On levels up to [2^53], [Py.truediv] by 5 is the division of the two
    integers. *)
Lemma truediv_quociente (n : Z) :
  Z.abs n <= 2 ^ 53 -> quociente n 5 (Py.truediv n 5).
Proof.
  intros Hn. destruct (normalize_int_exact n Hn) as [Hf Hb].
  unfold quociente, Py.truediv. rewrite div_spec, float_of_int_spec.
  change (Prim2SF (Py.float_of_int 5))
    with (S754_finite false 5629499534213120 (-50)).
  rewrite <- Hb, <- B2R_5.
  apply (SFdiv_signed _ _ false 5629499534213120 (-50) eq_refl).
  - apply normalize_int_valid.
  - reflexivity.
  - exact Hf.
Qed.

(** C1. On every interpreter, for every career and every profile whose
    levels are at most [2^53] in absolute value, [calcular_pontuacao]
    returns [0.0] when [sum] of the required-skill weights is 0, and
    otherwise the shares [(level / 5) * weight] of the career's
    (skill, weight) pairs, accumulated in order, divided by [sum] of the
    weights, times 100; the level is the one the profile records for the
    skill, or 0 when it records none, and [level / 5] is the quotient of
    the two integers rounded once to binary64, as [int / int] returns
    it. *)
Theorem calcular_pontuacao_formula :
  forall (v : Py.versao) (carreira : Carreira.t)
         (competencias_perfil : Py.dict Z),
    niveis_limitados competencias_perfil ->
    Carreira.calcular_pontuacao_v v carreira competencias_perfil
    = pontuacao_especificada v carreira competencias_perfil
    /\ (forall comp : string,
           quociente (nivel_registrado competencias_perfil comp) 5
                     (Py.truediv (nivel_registrado competencias_perfil comp) 5)).
Proof.
  intros v carreira p Hp. split.
  - apply calcular_pontuacao_v_parcelas.
  - intros comp. apply truediv_quociente.
    assert (H := get_or_limitado p comp Hp).
    unfold Py.get_or in H. fold (nivel_registrado p comp) in H. lia.
Qed.

Lemma calcular_pontuacao_formula_witness :
  niveis_limitados perfil_exemplo
  /\ Carreira.calcular_pontuacao_v Py.desde_3_12 carreira_compensada perfil_exemplo
     = pontuacao_especificada Py.desde_3_12 carreira_compensada perfil_exemplo
  /\ (forall comp : string,
         quociente (nivel_registrado perfil_exemplo comp) 5
                   (Py.truediv (nivel_registrado perfil_exemplo comp) 5)).
Proof.
  assert (Hp : niveis_limitados perfil_exemplo)
    by (repeat constructor; simpl; lia).
  split; [exact Hp|].
  exact (calcular_pontuacao_formula Py.desde_3_12 carreira_compensada
           perfil_exemplo Hp).
Defined.

(** ** Ranking the careers of the built-in catalog

    The careers ranked are those of the built-in catalog, on which [sum]
    returns the same total weight on every interpreter.  A profile with
    levels within [2^53] gets a number as its score for each of them, not
    [nan]: every running total of the loop lies between the running
    totals of the two extreme profiles, which are computed.  On such
    scores [Py.sort_reverse] is [list.sort]. *)

(** A number that is neither [nan] nor infinite. *)
Definition numero (x : float) : bool :=
  ((neg_infinity <? x) && (x <? infinity))%float.

Lemma numero_finite (x : float) :
  numero x = true -> finite_or_zero (Prim2SF x).
Proof.
  unfold numero. rewrite andb_true_iff, !ltb_spec.
  change (Prim2SF neg_infinity) with (S754_infinity true).
  change (Prim2SF infinity) with (S754_infinity false).
  destruct (Prim2SF x) as [s|[|]| |s m e]; simpl; intros [H1 H2];
    try discriminate; exact Logic.I.
Qed.

Lemma finite_nan_free (x : float) :
  finite_or_zero (Prim2SF x) -> F.nan_free x.
Proof.
  unfold F.nan_free. destruct (Prim2SF x); simpl; try tauto; discriminate.
Qed.

Lemma entre_finitos (lo x hi : float) :
  (lo <=? x)%float = true -> (x <=? hi)%float = true ->
  finite_or_zero (Prim2SF lo) -> finite_or_zero (Prim2SF hi) ->
  finite_or_zero (Prim2SF x).
Proof.
  rewrite !leb_spec.
  destruct (Prim2SF lo) as [sl|sl| |sl ml el]; simpl finite_or_zero;
    try tauto;
    destruct (Prim2SF hi) as [sh|sh| |sh mh eh]; simpl finite_or_zero;
    try tauto;
    destruct (Prim2SF x) as [s|[|]| |s m e]; simpl finite_or_zero;
    intros H1 H2 _ _; try exact Logic.I;
    try discriminate H1; try discriminate H2;
    try (destruct sl; discriminate H1); try (destruct sh; discriminate H2).
Qed.

Lemma leb_ple (x y : float) : (x <=? y)%float = true -> ple x y.
Proof. intros H. right. right. now rewrite <- leb_spec. Qed.

Lemma float_of_int_nan_free (n : Z) : F.nan_free (Py.float_of_int n).
Proof.
  unfold F.nan_free. rewrite float_of_int_spec.
  exact (proj2 (fl_signed_valid _ _ (binary_normalize_signed n 0 false))).
Qed.

Lemma truediv_nan_free (n : Z) : F.nan_free (Py.truediv n 5).
Proof.
  unfold F.nan_free, Py.truediv. rewrite div_spec.
  change (Prim2SF (Py.float_of_int 5))
    with (S754_finite false 5629499534213120 (-50)).
  apply SFdiv_nan_free.
  - apply Prim2SF_valid.
  - reflexivity.
  - apply float_of_int_nan_free.
Qed.

(** A weight above zero and finite. *)
Definition peso_positivo (w : float) : bool :=
  ((0 <? w) && (w <? infinity))%float.

Lemma peso_positivo_inv (w : float) :
  peso_positivo w = true -> exists m e, Prim2SF w = S754_finite false m e.
Proof.
  unfold peso_positivo. rewrite andb_true_iff, !ltb_spec.
  change (Prim2SF 0) with (S754_zero false).
  change (Prim2SF infinity) with (S754_infinity false).
  destruct (Prim2SF w) as [s|[|]| |[|] m e]; simpl; intros [H1 H2];
    try discriminate; eauto.
Qed.

Lemma peso_positivo_nao_negativo (w : float) :
  peso_positivo w = true -> nao_negativo w.
Proof.
  intros H. destruct (peso_positivo_inv w H) as (m & e & E).
  apply nonneg_leb_0. rewrite E. exact Logic.I.
Qed.

Lemma mul_nan_free (x w : float) :
  F.nan_free x -> peso_positivo w = true -> F.nan_free (x * w).
Proof.
  intros Hx Hw. destruct (peso_positivo_inv w Hw) as (m & e & E).
  unfold F.nan_free. rewrite mul_spec.
  assert (Vw := Prim2SF_valid w). rewrite E in *.
  apply SFmul_nan_free; auto using Prim2SF_valid.
Qed.

Lemma div_nan_free (x w : float) :
  F.nan_free x -> peso_positivo w = true -> F.nan_free (x / w).
Proof.
  intros Hx Hw. destruct (peso_positivo_inv w Hw) as (m & e & E).
  unfold F.nan_free. rewrite div_spec.
  assert (Vw := Prim2SF_valid w). rewrite E in *.
  apply SFdiv_nan_free; auto using Prim2SF_valid.
Qed.

Lemma add_nan_free (a b : float) :
  finite_or_zero (Prim2SF a) -> finite_or_zero (Prim2SF b) ->
  F.nan_free (a + b).
Proof.
  intros Ha Hb. unfold F.nan_free. rewrite add_spec.
  exact (proj2 (fl_signed_valid _ _
                  (SFadd_signed _ _ (Prim2SF_valid a) (Prim2SF_valid b) Ha Hb))).
Qed.

(** The share of a level within [2^53] lies between the shares of the
    two extreme levels. *)
Definition parcela_min (w : float) : float := (Py.truediv (- 2 ^ 53) 5 * w)%float.
Definition parcela_max (w : float) : float := (Py.truediv (2 ^ 53) 5 * w)%float.

Lemma parcela_entre (n : Z) (w : float) :
  - 2 ^ 53 <= n <= 2 ^ 53 -> peso_positivo w = true ->
  (parcela_min w <=? Py.truediv n 5 * w)%float = true
  /\ (Py.truediv n 5 * w <=? parcela_max w)%float = true.
Proof.
  intros Hn Hw. assert (Hw' := peso_positivo_nao_negativo w Hw).
  assert (N : forall k, F.nan_free (Py.truediv k 5 * w))
    by (intros k; apply mul_nan_free; [apply truediv_nan_free|exact Hw]).
  split; (apply ple_leb; [apply N|apply N|]);
    apply mul_mono; try exact Hw'; apply truediv_mono; lia.
Qed.

(** The running totals of the two extreme profiles are numbers. *)
Fixpoint parciais_finitas (pesos : list float) (lo hi : float) : bool :=
  numero lo && numero hi
  && match pesos with
     | [] => true
     | w :: pesos' =>
         peso_positivo w && numero (parcela_min w) && numero (parcela_max w)
         && parciais_finitas pesos' (lo + parcela_min w) (hi + parcela_max w)
     end.

Lemma parciais_finitas_inv (pesos : list float) (lo hi : float) :
  parciais_finitas pesos lo hi = true -> numero lo = true /\ numero hi = true.
Proof.
  destruct pesos; simpl; rewrite !andb_true_iff; tauto.
Qed.

Lemma fold_acumula_finito (p : Py.dict Z) (itens : list (string * float))
      (lo hi total : float) :
  niveis_limitados p ->
  parciais_finitas (map snd itens) lo hi = true ->
  (lo <=? total)%float = true -> (total <=? hi)%float = true ->
  finite_or_zero (Prim2SF (fold_left (Carreira.acumula p) itens total)).
Proof.
  intros Hp. revert lo hi total.
  induction itens as [|[comp w] itens IH]; intros lo hi total Hc Hlo Hhi.
  - destruct (parciais_finitas_inv _ _ _ Hc) as [Nlo Nhi].
    apply (entre_finitos lo _ hi); auto using numero_finite.
  - destruct (parciais_finitas_inv _ _ _ Hc) as [Nlo Nhi].
    cbn [map snd parciais_finitas] in Hc. rewrite !andb_true_iff in Hc.
    destruct Hc as [_ [[[Hw Nmin] Nmax] Hc]].
    destruct (parciais_finitas_inv _ _ _ Hc) as [Nlo' Nhi'].
    cbn [fold_left]. unfold Carreira.acumula at 2.
    destruct (parcela_entre (Py.get_or p comp 0) w
                (get_or_limitado p comp Hp) Hw) as [Hmin Hmax].
    set (t := (Py.truediv (Py.get_or p comp 0%Z) 5 * w)%float) in *.
    assert (Ft : finite_or_zero (Prim2SF t))
      by (apply (entre_finitos (parcela_min w) _ (parcela_max w));
          auto using numero_finite).
    assert (Ftot : finite_or_zero (Prim2SF total))
      by (apply (entre_finitos lo _ hi); auto using numero_finite).
    assert (Ns : F.nan_free (total + t)) by now apply add_nan_free.
    apply (IH (lo + parcela_min w)%float (hi + parcela_max w)%float);
      [exact Hc| |].
    + apply ple_leb; [now apply finite_nan_free, numero_finite|exact Ns|].
      apply add_mono; now apply leb_ple.
    + apply ple_leb; [exact Ns|now apply finite_nan_free, numero_finite|].
      apply add_mono; now apply leb_ple.
Qed.

(** The check of a career: weights above zero whose sum is above zero and
    finite, and extreme running totals that are numbers. *)
Definition carreira_limitada (carreira : Carreira.t) : bool :=
  let pesos := Py.values (Carreira.competencias_requeridas carreira) in
  peso_positivo (Py.sum pesos) && parciais_finitas pesos 0 0.

Lemma calcular_pontuacao_limitada (carreira : Carreira.t) (p : Py.dict Z) :
  carreira_limitada carreira = true -> niveis_limitados p ->
  F.nan_free (Carreira.calcular_pontuacao carreira p).
Proof.
  unfold carreira_limitada. rewrite andb_true_iff. intros [Hs Hc] Hp.
  unfold Carreira.calcular_pontuacao.
  destruct (Py.sum _ =? 0)%float; [discriminate|].
  apply mul_nan_free; [|reflexivity].
  apply div_nan_free; [|exact Hs].
  apply finite_nan_free.
  apply (fold_acumula_finito p _ 0%float 0%float); auto.
Qed.

Lemma catalogo_limitado : forallb carreira_limitada carreiras_padrao = true.
Proof. vm_compute. reflexivity. Qed.


(** On the built-in catalog [sum] returns the same total weight on every
    interpreter, and so the score is the same. *)
Lemma catalogo_soma :
  Forall (fun carreira =>
            Py.sum_compensada (Py.values (Carreira.competencias_requeridas carreira))
            = Py.sum (Py.values (Carreira.competencias_requeridas carreira)))
         carreiras_padrao.
Proof.
  repeat (apply Forall_cons; [vm_compute; reflexivity|]). apply Forall_nil.
Qed.

Lemma calcular_pontuacao_v_catalogo (v : Py.versao) (carreira : Carreira.t)
      (p : Py.dict Z) :
  In carreira carreiras_padrao ->
  Carreira.calcular_pontuacao_v v carreira p
  = Carreira.calcular_pontuacao carreira p.
Proof.
  intros Hc. apply calcular_pontuacao_v_soma.
  destruct v; [reflexivity|].
  assert (H := catalogo_soma). rewrite Forall_forall in H. exact (H _ Hc).
Qed.

(** On the built-in catalog the scores of a profile with levels within
    [2^53] are numbers. *)
Lemma pontuadas_sem_nan (ps : list Perfil.t) (perfil : Perfil.t) :
  niveis_limitados (Perfil.competencias perfil) ->
  sem_nan (pontuadas (com_perfis ps) perfil).
Proof.
  intros Hp. unfold sem_nan, pontuadas.
  apply Forall_forall. intros item Hi. apply in_map_iff in Hi.
  destruct Hi as [carreira [<- Hc]]. cbn [fst].
  apply F.is_nan_false. apply calcular_pontuacao_limitada; [|exact Hp].
  assert (H := catalogo_limitado). rewrite forallb_forall in H.
  exact (H _ Hc).
Qed.

(** C2. For every profile (its levels at most [2^53] in absolute value)
    and every limit (a number of careers, so not negative),
    [recomendar_carreiras] scores every career of the catalog, the score
    being the one of [calcular_pontuacao] on every interpreter and never
    [nan]; it ranks the careers by descending score, careers of equal
    score staying in catalog order (the ranking is a permutation of the
    scored careers, sorted, and the entries of any given score are in the
    order they had); and it returns the messages of the first
    [min(limit, number of careers)] entries of the ranking.  The limit
    defaults to 3. *)
Theorem recomendar_carreiras_ordem :
  forall (ps : list Perfil.t) (perfil : Perfil.t) (limite : option Z),
    niveis_limitados (Perfil.competencias perfil) ->
    0 <= limite_efetivo limite ->
    let self := com_perfis ps in
    let classificadas := Py.sort_reverse (pontuadas self perfil) in
    let n := Z.of_nat (List.length (carreiras self)) in
    (forall v : Py.versao,
        pontuadas self perfil
        = map (fun carreira =>
                 (Carreira.calcular_pontuacao_v v carreira
                    (Perfil.competencias perfil), carreira))
              (carreiras self))
    /\ sem_nan (pontuadas self perfil)
    /\ Permutation classificadas (pontuadas self perfil)
    /\ StronglySorted nao_menor classificadas
    /\ (forall x : float,
           filter (com_pontuacao x) classificadas
           = filter (com_pontuacao x) (pontuadas self perfil))
    /\ recomendar_carreiras self perfil limite
       = map mensagem
             (firstn (Z.to_nat (Z.min (limite_efetivo limite) n)) classificadas)
    /\ limite_efetivo None = 3.
Proof.
  intros ps perfil limite Hp Hpos self classificadas n.
  assert (Hnan := pontuadas_sem_nan ps perfil Hp). fold self in Hnan.
  assert (Hlen : Z.of_nat (List.length classificadas) = n).
  { subst classificadas n.
    rewrite (Permutation_length (sort_reverse_perm _)).
    unfold pontuadas. now rewrite length_map. }
  split.
  { intros v. unfold pontuadas. apply map_ext_in. intros carreira Hc.
    now rewrite calcular_pontuacao_v_catalogo. }
  split; [exact Hnan|].
  split; [apply sort_reverse_perm|].
  split; [now apply sort_reverse_sorted|].
  split; [intros x; apply sort_reverse_filter|].
  split; [|reflexivity].
  unfold recomendar_carreiras.
  fold (limite_efetivo limite). fold (pontuadas self perfil).
  fold classificadas. unfold Py.slice_to.
  apply Z.leb_le in Hpos. rewrite Hpos. apply Z.leb_le in Hpos.
  now rewrite firstn_min, Hlen.
Qed.

Lemma niveis_ana_limitados : niveis_limitados (Perfil.competencias ana).
Proof. repeat constructor; simpl; lia. Defined.

Lemma recomendar_carreiras_ordem_witness :
  niveis_limitados (Perfil.competencias ana)
  /\ 0 <= limite_efetivo (Some 2)
  /\ (let self := com_perfis [ana] in
      let classificadas := Py.sort_reverse (pontuadas self ana) in
      let n := Z.of_nat (List.length (carreiras self)) in
      (forall v : Py.versao,
          pontuadas self ana
          = map (fun carreira =>
                   (Carreira.calcular_pontuacao_v v carreira
                      (Perfil.competencias ana), carreira))
                (carreiras self))
      /\ sem_nan (pontuadas self ana)
      /\ Permutation classificadas (pontuadas self ana)
      /\ StronglySorted nao_menor classificadas
      /\ (forall x : float,
             filter (com_pontuacao x) classificadas
             = filter (com_pontuacao x) (pontuadas self ana))
      /\ recomendar_carreiras self ana (Some 2)
         = map mensagem
               (firstn (Z.to_nat (Z.min (limite_efetivo (Some 2)) n))
                       classificadas)
      /\ limite_efetivo None = 3).
Proof.
  assert (Hl : 0 <= limite_efetivo (Some 2)) by (simpl; lia).
  split; [exact niveis_ana_limitados|].
  split; [exact Hl|].
  exact (recomendar_carreiras_ordem [ana] ana (Some 2)
           niveis_ana_limitados Hl).
Defined.

(** * Further properties of the code *)

(** ** [Perfil.adicionar_competencia] *)

Lemma get_set {V : Type} (d : Py.dict V) (k k' : string) (v : V) :
  Py.get (Py.set d k v) k'
  = if String.eqb k k' then Some v else Py.get d k'.
Proof.
  induction d as [|[k0 v0] d IH]; simpl.
  - reflexivity.
  - destruct (String.eqb_spec k0 k) as [->|Hk]; simpl.
    + destruct (String.eqb k k'); reflexivity.
    + destruct (String.eqb_spec k0 k') as [->|Hk'].
      * destruct (String.eqb_spec k k') as [->|_]; [congruence|reflexivity].
      * exact IH.
Qed.

Lemma keys_set {V : Type} (d : Py.dict V) (k : string) (v : V) :
  Py.keys (Py.set d k v)
  = match Py.get d k with
    | Some _ => Py.keys d
    | None => (Py.keys d ++ [k])%list
    end.
Proof.
  induction d as [|[k0 v0] d IH]; simpl.
  - reflexivity.
  - destruct (String.eqb_spec k0 k) as [->|Hk]; simpl.
    + reflexivity.
    + rewrite IH. now destruct (Py.get d k).
Qed.

Lemma set_set {V : Type} (d : Py.dict V) (k : string) (v v' : V) :
  Py.set (Py.set d k v) k v' = Py.set d k v'.
Proof.
  induction d as [|[k0 v0] d IH]; simpl.
  - now rewrite String.eqb_refl.
  - destruct (String.eqb_spec k0 k) as [->|Hk]; simpl.
    + now rewrite String.eqb_refl.
    + destruct (String.eqb_spec k0 k); [contradiction|]. now rewrite IH.
Qed.

(** After [adicionar_competencia perfil comp nivel] the profile records
    [nivel] for [comp] and, for every other skill, what it recorded
    before; its name is unchanged. *)
Theorem adicionar_competencia_consulta (perfil : Perfil.t)
        (comp comp' : string) (nivel : Z) :
  Py.get (Perfil.competencias (Perfil.adicionar_competencia perfil comp nivel))
         comp'
  = (if String.eqb comp comp' then Some nivel
     else Py.get (Perfil.competencias perfil) comp')
  /\ Perfil.nome (Perfil.adicionar_competencia perfil comp nivel)
     = Perfil.nome perfil.
Proof. split; [apply get_set|reflexivity]. Qed.

(** [adicionar_competencia] keeps one entry per skill: a skill already
    rated keeps its place in the mapping and a new one goes last; rating
    the same skill twice leaves only the second level. *)
Theorem adicionar_competencia_chaves (perfil : Perfil.t) (comp : string)
        (nivel nivel' : Z) :
  Py.keys (Perfil.competencias (Perfil.adicionar_competencia perfil comp nivel))
  = match Py.get (Perfil.competencias perfil) comp with
    | Some _ => Py.keys (Perfil.competencias perfil)
    | None => (Py.keys (Perfil.competencias perfil) ++ [comp])%list
    end
  /\ Perfil.adicionar_competencia
       (Perfil.adicionar_competencia perfil comp nivel) comp nivel'
     = Perfil.adicionar_competencia perfil comp nivel'.
Proof.
  split; [apply keys_set|].
  unfold Perfil.adicionar_competencia. cbn [Perfil.nome Perfil.competencias].
  now rewrite set_set.
Qed.

(** ** [Carreira.calcular_pontuacao] *)

Lemma fold_acumula_ext (p p' : Py.dict Z) (itens : list (string * float))
      (total : float) :
  (forall comp, In comp (map fst itens) ->
                Py.get_or p comp 0 = Py.get_or p' comp 0) ->
  fold_left (Carreira.acumula p) itens total
  = fold_left (Carreira.acumula p') itens total.
Proof.
  revert total.
  induction itens as [|[comp peso] itens IH]; intros total H; simpl.
  - reflexivity.
  - rewrite (H comp) by now left.
    apply IH. intros c Hc. apply H. now right.
Qed.

(** The score depends only on the levels of the career's required skills,
    a missing rating counting as level 0: two profiles that agree on them
    get the same score, whatever else they record. *)
Theorem calcular_pontuacao_so_requeridas (carreira : Carreira.t)
        (p p' : Py.dict Z) :
  (forall comp,
      In comp (Py.keys (Carreira.competencias_requeridas carreira)) ->
      Py.get_or p comp 0 = Py.get_or p' comp 0) ->
  Carreira.calcular_pontuacao carreira p
  = Carreira.calcular_pontuacao carreira p'.
Proof.
  intros H. unfold Carreira.calcular_pontuacao.
  now rewrite (fold_acumula_ext p p') by exact H.
Qed.

Lemma calcular_pontuacao_so_requeridas_witness :
  (forall comp,
      In comp (Py.keys (Carreira.competencias_requeridas carreira_exemplo)) ->
      Py.get_or [("Curiosidade", 3)] comp 0
      = Py.get_or [("Comunicação", 5); ("Curiosidade", 3); ("Liderança", 0)]
                  comp 0)
  /\ Carreira.calcular_pontuacao carreira_exemplo [("Curiosidade", 3)]
     = Carreira.calcular_pontuacao carreira_exemplo
         [("Comunicação", 5); ("Curiosidade", 3); ("Liderança", 0)].
Proof.
  assert (H : forall comp,
             In comp (Py.keys (Carreira.competencias_requeridas carreira_exemplo)) ->
             Py.get_or [("Curiosidade", 3)] comp 0
             = Py.get_or [("Comunicação", 5); ("Curiosidade", 3); ("Liderança", 0)]
                         comp 0).
  { intros comp Hc. simpl in Hc. destruct Hc as [<-|[<-|[]]]; reflexivity. }
  split; [exact H|].
  exact (calcular_pontuacao_so_requeridas carreira_exemplo _ _ H).
Defined.

(** *** A profile that rates no required skill *)

Lemma is_finite_spec (w : float) :
  is_finite w = true -> finite_or_zero (Prim2SF w).
Proof.
  unfold is_finite, is_nan, is_infinity.
  rewrite !eqb_spec, abs_spec.
  change (Prim2SF infinity) with (S754_infinity false).
  destruct (Prim2SF w) as [s|s| |s m e]; intros H; try exact Logic.I;
    try (destruct s); cbn in H; discriminate H.
Qed.

Lemma SFadd_nan_free (x w : spec_float) :
  valid_binary x = true -> valid_binary w = true ->
  x <> S754_nan -> finite_or_zero w -> SFadd prec emax x w <> S754_nan.
Proof.
  intros Vx Vw Hx Fw.
  destruct (classify x) as [->|[->|[->|Fx]]]; try congruence.
  - destruct w as [s|s| |s m e]; simpl in Fw; try contradiction; discriminate.
  - destruct w as [s|s| |s m e]; simpl in Fw; try contradiction; discriminate.
  - apply (fl_signed_valid _ _ (SFadd_signed x w Vx Vw Fx Fw)).
Qed.

(** A sum of finite weights is a number, possibly infinite. *)
Lemma sum_nan_free (ws : list float) (acc : float) :
  F.nan_free acc -> Forall (fun w => is_finite w = true) ws ->
  F.nan_free (fold_left PrimFloat.add ws acc).
Proof.
  revert acc. induction ws as [|w ws IH]; intros acc Ha Hws; simpl.
  - exact Ha.
  - inversion Hws as [|? ? Hw Hws']; subst.
    apply IH; [|assumption].
    unfold F.nan_free in *. rewrite add_spec.
    apply SFadd_nan_free; auto using Prim2SF_valid, is_finite_spec.
Qed.

(** Level 0 times a finite weight, added to [0.0], leaves [0.0]. *)
Lemma acumula_zero (w : float) :
  is_finite w = true -> (0 + Py.truediv 0 5 * w)%float = 0%float.
Proof.
  intros Hw. apply is_finite_spec in Hw.
  apply Prim2SF_inj. rewrite add_spec, mul_spec.
  change (Prim2SF (Py.truediv 0 5)) with (S754_zero false).
  change (Prim2SF 0) with (S754_zero false).
  destruct (Prim2SF w) as [s|s| |s m e]; simpl in Hw; try contradiction;
    destruct s; reflexivity.
Qed.

Lemma fold_acumula_zero (p : Py.dict Z) (itens : list (string * float)) :
  (forall comp, In comp (map fst itens) -> Py.get_or p comp 0 = 0) ->
  Forall (fun w => is_finite w = true) (map snd itens) ->
  fold_left (Carreira.acumula p) itens 0%float = 0%float.
Proof.
  induction itens as [|[comp peso] itens IH]; intros Hp Hw; simpl.
  - reflexivity.
  - inversion Hw as [|? ? Hpeso Hw']; subst.
    rewrite (Hp comp) by now left.
    rewrite acumula_zero by assumption.
    apply IH; [|assumption]. intros c Hc. apply Hp. now right.
Qed.

Definition pesos_finitos (carreira : Carreira.t) : Prop :=
  Forall (fun w => is_finite w = true)
         (Py.values (Carreira.competencias_requeridas carreira)).

(** When every weight of the career is finite (of either sign) and the
    profile rates none of the career's required skills, or rates them 0,
    the score compares equal to [0.0]. *)
Theorem calcular_pontuacao_sem_niveis (carreira : Carreira.t) (p : Py.dict Z) :
  pesos_finitos carreira ->
  (forall comp,
      In comp (Py.keys (Carreira.competencias_requeridas carreira)) ->
      Py.get_or p comp 0 = 0) ->
  (Carreira.calcular_pontuacao carreira p =? 0)%float = true.
Proof.
  intros Hw Hp. unfold Carreira.calcular_pontuacao.
  rewrite (fold_acumula_zero p) by assumption.
  assert (Hs := sum_nan_free _ 0%float ltac:(discriminate) Hw).
  fold (Py.sum (Py.values (Carreira.competencias_requeridas carreira))) in Hs.
  set (soma := Py.sum _) in *.
  destruct (soma =? 0)%float eqn:Hz; [reflexivity|].
  rewrite eqb_spec in Hz. rewrite eqb_spec, mul_spec, div_spec.
  unfold F.nan_free in Hs.
  change (Prim2SF 0) with (S754_zero false) in *.
  change (Prim2SF 100) with (S754_finite false 7036874417766400 (-46)).
  destruct (Prim2SF soma) as [s|s| |s m e]; try congruence;
    try discriminate Hz; destruct s; reflexivity.
Qed.

Definition perfil_sem_requeridas : Py.dict Z := [("Comunicação", 5)].

Lemma calcular_pontuacao_sem_niveis_witness :
  pesos_finitos carreira_exemplo
  /\ (forall comp,
         In comp (Py.keys (Carreira.competencias_requeridas carreira_exemplo)) ->
         Py.get_or perfil_sem_requeridas comp 0 = 0)
  /\ (Carreira.calcular_pontuacao carreira_exemplo perfil_sem_requeridas =? 0)%float
     = true.
Proof.
  assert (Hw : pesos_finitos carreira_exemplo) by (repeat constructor).
  assert (Hp : forall comp,
             In comp (Py.keys (Carreira.competencias_requeridas carreira_exemplo)) ->
             Py.get_or perfil_sem_requeridas comp 0 = 0).
  { intros comp Hc. simpl in Hc. destruct Hc as [<-|[<-|[]]]; reflexivity. }
  split; [exact Hw|]. split; [exact Hp|].
  exact (calcular_pontuacao_sem_niveis carreira_exemplo _ Hw Hp).
Defined.

(** *** Bounds of the score *)

Lemma SFmul_nonneg_pos (x : spec_float) (m : positive) (e : Z) :
  valid_binary x = true -> valid_binary (S754_finite false m e) = true ->
  nonneg x -> nonneg (SFmul prec emax x (S754_finite false m e)).
Proof.
  intros Vx Vw Nx.
  destruct x as [s|[|]| |[|] mx ex]; simpl in Nx; try contradiction;
    try exact Logic.I.
  assert (H : SFleb (SFmul prec emax (S754_zero false) (S754_finite false m e))
                    (SFmul prec emax (S754_finite false mx ex)
                           (S754_finite false m e)) = true)
    by (apply SFmul_mono_finite; auto; exact Logic.I).
  change (SFmul prec emax (S754_zero false) (S754_finite false m e))
    with (S754_zero false) in H.
  destruct (SFmul prec emax (S754_finite false mx ex) (S754_finite false m e))
    as [s'|[|]| |[|] m' e']; try discriminate H; exact Logic.I.
Qed.

Lemma SFdiv_nonneg_pos (x : spec_float) (m : positive) (e : Z) :
  valid_binary x = true -> valid_binary (S754_finite false m e) = true ->
  nonneg x -> nonneg (SFdiv prec emax x (S754_finite false m e)).
Proof.
  intros Vx Vw Nx.
  destruct x as [s|[|]| |[|] mx ex]; simpl in Nx; try contradiction;
    try exact Logic.I.
  assert (H : SFleb (SFdiv prec emax (S754_zero false) (S754_finite false m e))
                    (SFdiv prec emax (S754_finite false mx ex)
                           (S754_finite false m e)) = true)
    by (apply SFdiv_mono_finite; auto; exact Logic.I).
  change (SFdiv prec emax (S754_zero false) (S754_finite false m e))
    with (S754_zero false) in H.
  destruct (SFdiv prec emax (S754_finite false mx ex) (S754_finite false m e))
    as [s'|[|]| |[|] m' e']; try discriminate H; exact Logic.I.
Qed.

Lemma positive_finite_inv (x : float) :
  nao_negativo x -> finito x -> (x =? 0)%float = false ->
  exists m e, Prim2SF x = S754_finite false m e.
Proof.
  intros Hn Hf Hz. apply leb_0_nonneg in Hn.
  unfold finito in Hf. rewrite ltb_spec in Hf. rewrite eqb_spec in Hz.
  change (Prim2SF infinity) with (S754_infinity false) in Hf.
  change (Prim2SF 0) with (S754_zero false) in Hz.
  destruct (Prim2SF x) as [s|[|]| |[|] m e]; simpl in Hn; try contradiction;
    try discriminate; eauto.
Qed.

(** The score of nonnegative operands is nonnegative. *)
Lemma pontuacao_nao_negativa (total soma : float) :
  nao_negativo total -> nao_negativo soma -> finito soma ->
  (soma =? 0)%float = false ->
  nao_negativo (total / soma * 100).
Proof.
  intros Ht Hs Hf Hz.
  destruct (positive_finite_inv soma Hs Hf Hz) as (m & e & Es).
  apply leb_0_nonneg in Ht. apply nonneg_leb_0.
  assert (Vs := Prim2SF_valid soma). rewrite Es in Vs.
  assert (Vq := Prim2SF_valid (total / soma)).
  rewrite mul_spec. rewrite div_spec, Es in *.
  change (Prim2SF 100) with (S754_finite false 7036874417766400 (-46)).
  apply SFmul_nonneg_pos; auto.
  apply SFdiv_nonneg_pos; auto using Prim2SF_valid.
Qed.

(** With levels up to 5 the weighted total stays below the total weight. *)
Lemma fold_acumula_soma (p : Py.dict Z) (itens : list (string * float))
      (total acc : float) :
  (forall comp, Py.get_or p comp 0 <= 5) ->
  Forall nao_negativo (map snd itens) ->
  ple total acc ->
  ple (fold_left (Carreira.acumula p) itens total)
      (fold_left PrimFloat.add (map snd itens) acc).
Proof.
  intros Hp. revert total acc.
  induction itens as [|[comp peso] itens IH]; intros total acc Hw Ht.
  - exact Ht.
  - inversion Hw as [|? ? Hpeso Hw']; subst. cbn [fold_left map snd].
    apply IH; [assumption|]. unfold Carreira.acumula.
    apply add_mono; [assumption|].
    rewrite <- (F.mul_1_l peso) at 2.
    apply mul_mono; [assumption|].
    change 1%float with (Py.truediv 5 5). apply truediv_mono, Hp.
Qed.

Lemma nao_negativo_nan_free (x : float) : nao_negativo x -> F.nan_free x.
Proof.
  intros H. apply leb_0_nonneg in H. unfold F.nan_free.
  destruct (Prim2SF x); simpl in H; try contradiction; discriminate.
Qed.

(** With the total weight added from left to right, weights at least
    zero and levels from 0 to 5, the score lies in [[0, 100]]. *)
Lemma pontuacao_faixa (carreira : Carreira.t) (p : Py.dict Z) :
  pesos_nao_negativos carreira -> finito (soma_pesos carreira) ->
  niveis_0_a_5 p ->
  (0 <=? Carreira.calcular_pontuacao carreira p)%float = true
  /\ (Carreira.calcular_pontuacao carreira p <=? 100)%float = true.
Proof.
  intros Hw Hfin Hp. unfold Carreira.calcular_pontuacao.
  fold (soma_pesos carreira).
  assert (Hs : nao_negativo (soma_pesos carreira)).
  { apply sum_nonneg; [reflexivity|exact Hw]. }
  destruct (sum_finite_inv _ _ (eq_refl : nao_negativo 0) Hw Hfin) as [_ Hfs].
  destruct (soma_pesos carreira =? 0)%float eqn:Hz.
  - split; reflexivity.
  - assert (Ht := fold_acumula_nonneg p
                    (Py.items (Carreira.competencias_requeridas carreira))
                    0%float Hp Hw Hfs eq_refl).
    assert (Hle := fold_acumula_soma p
                     (Py.items (Carreira.competencias_requeridas carreira))
                     0%float 0%float (fun comp => proj2 (Hp comp)) Hw
                     (or_intror (or_intror eq_refl))).
    change (fold_left PrimFloat.add
              (map snd (Py.items (Carreira.competencias_requeridas carreira)))
              0%float) with (soma_pesos carreira) in Hle.
    set (total := fold_left _ _ _) in *.
    assert (Hn := pontuacao_nao_negativa total _ Ht Hs Hfin Hz).
    split; [exact Hn|].
    destruct (positive_finite_inv _ Hs Hfin Hz) as (m & e & Es).
    assert (Hfz : is_finite (soma_pesos carreira) = true
                  /\ (soma_pesos carreira =? 0)%float = false).
    { apply F.positive_finite; [|exact Hfin].
      rewrite ltb_spec, Es. reflexivity. }
    assert (Hpos : positive_float (Prim2SF (soma_pesos carreira)))
      by (rewrite Es; exact Logic.I).
    assert (H1 := div_mono _ _ _ Hpos Hle).
    rewrite (F.div_same (soma_pesos carreira)) in H1 by tauto.
    assert (H2 := mul_mono _ _ 100%float eq_refl H1).
    change (1 * 100)%float with 100%float in H2.
    apply ple_leb; [now apply nao_negativo_nan_free|discriminate|exact H2].
Qed.

(** On every interpreter, for every career whose weights are at least
    zero and add up, from left to right, to a finite number that [sum]
    returns as their total, and every profile whose levels are from 0 to
    5 (a missing rating counting as 0), the score lies in [[0, 100]].  Up
    to CPython 3.11 [sum] always returns that running total, and it does
    on every interpreter for the careers of the built-in catalog; where
    the compensated [sum] of CPython 3.12 returns less, a score can
    exceed 100. *)
Theorem calcular_pontuacao_em_0_100 (v : Py.versao) (carreira : Carreira.t)
        (p : Py.dict Z) :
  pesos_nao_negativos carreira -> finito (soma_pesos carreira) ->
  soma_pesos_v v carreira = soma_pesos carreira ->
  niveis_0_a_5 p ->
  (0 <=? Carreira.calcular_pontuacao_v v carreira p)%float = true
  /\ (Carreira.calcular_pontuacao_v v carreira p <=? 100)%float = true.
Proof.
  intros Hw Hfin Hsoma Hp.
  rewrite (calcular_pontuacao_v_soma v carreira p Hsoma).
  now apply pontuacao_faixa.
Qed.

Definition perfil_parcial : Py.dict Z := [("Curiosidade", 3); ("Liderança", 5)].

Lemma calcular_pontuacao_em_0_100_witness :
  pesos_nao_negativos carreira_exemplo
  /\ finito (soma_pesos carreira_exemplo)
  /\ soma_pesos_v Py.desde_3_12 carreira_exemplo = soma_pesos carreira_exemplo
  /\ niveis_0_a_5 perfil_parcial
  /\ (0 <=? Carreira.calcular_pontuacao_v Py.desde_3_12 carreira_exemplo
               perfil_parcial)%float = true
  /\ (Carreira.calcular_pontuacao_v Py.desde_3_12 carreira_exemplo
        perfil_parcial <=? 100)%float = true.
Proof.
  assert (Hw : pesos_nao_negativos carreira_exemplo) by (repeat constructor).
  assert (Hf : finito (soma_pesos carreira_exemplo)) by reflexivity.
  assert (Hs : soma_pesos_v Py.desde_3_12 carreira_exemplo
               = soma_pesos carreira_exemplo) by reflexivity.
  assert (Hp : niveis_0_a_5 perfil_parcial).
  { intros comp. unfold Py.get_or, perfil_parcial. cbn [Py.get].
    destruct (String.eqb _ comp); [lia|].
    destruct (String.eqb _ comp); lia. }
  split; [exact Hw|]. split; [exact Hf|]. split; [exact Hs|].
  split; [exact Hp|].
  exact (calcular_pontuacao_em_0_100 Py.desde_3_12 carreira_exemplo _
           Hw Hf Hs Hp).
Defined.

(** *** Profiles that rate every required skill *)

Lemma fold_acumula_mono_requeridas (p p' : Py.dict Z)
      (itens : list (string * float)) (total total' : float) :
  (forall comp, In comp (map fst itens) ->
                Py.get_or p comp 0 <= Py.get_or p' comp 0) ->
  Forall nao_negativo (map snd itens) ->
  ple total total' ->
  ple (fold_left (Carreira.acumula p) itens total)
      (fold_left (Carreira.acumula p') itens total').
Proof.
  revert total total'.
  induction itens as [|[comp peso] itens IH]; intros total total' Hp Hw Ht.
  - exact Ht.
  - inversion Hw as [|? ? Hpeso Hw']; subst. cbn [fold_left].
    apply IH; [intros c Hc; apply Hp; now right|assumption|].
    unfold Carreira.acumula.
    apply add_mono; [assumption|].
    apply mul_mono; [assumption|]. apply truediv_mono, Hp. now left.
Qed.

Lemma calcular_pontuacao_mono_requeridas (carreira : Carreira.t)
      (p p' : Py.dict Z) :
  pesos_nao_negativos carreira ->
  (forall comp,
      In comp (Py.keys (Carreira.competencias_requeridas carreira)) ->
      Py.get_or p comp 0 <= Py.get_or p' comp 0) ->
  ple (Carreira.calcular_pontuacao carreira p)
      (Carreira.calcular_pontuacao carreira p').
Proof.
  intros Hw Hp. unfold Carreira.calcular_pontuacao.
  set (soma := Py.sum _).
  assert (Hs : nao_negativo soma).
  { apply sum_nonneg; [reflexivity|exact Hw]. }
  destruct (soma =? 0)%float eqn:Hz.
  - right. right. reflexivity.
  - apply mul_mono; [reflexivity|].
    apply div_mono; [now apply nonzero_positive|].
    apply fold_acumula_mono_requeridas; [exact Hp|exact Hw|].
    right. right. reflexivity.
Qed.

(** The profile that rates each required skill of the career [nivel]. *)
Definition uniforme (carreira : Carreira.t) (nivel : Z) : Py.dict Z :=
  map (fun comp => (comp, nivel))
      (Py.keys (Carreira.competencias_requeridas carreira)).

Lemma get_or_uniforme (nomes : list string) (nivel : Z) (comp : string) :
  In comp nomes ->
  Py.get_or (map (fun c => (c, nivel)) nomes) comp 0 = nivel.
Proof.
  unfold Py.get_or.
  induction nomes as [|c nomes IH]; simpl; [tauto|].
  destruct (String.eqb_spec c comp) as [->|Hne]; [reflexivity|].
  intros [H|H]; [contradiction|now apply IH].
Qed.

(** The careers of the catalog at level 1 throughout. *)
Lemma catalogo_nivel_1 :
  Forall (fun carreira =>
            pesos_nao_negativos carreira
            /\ finito (soma_pesos carreira)
            /\ (20 <=? Carreira.calcular_pontuacao carreira
                         (uniforme carreira 1))%float = true)
         carreiras_padrao.
Proof.
  repeat (apply Forall_cons;
          [split; [repeat constructor|split; vm_compute; reflexivity]|]).
  constructor.
Qed.

Lemma niveis_validos_0_a_5 (p : Py.dict Z) : niveis_validos p -> niveis_0_a_5 p.
Proof. intros Hp comp. exact (nivel_registrado_faixa p comp Hp). Qed.

Lemma niveis_validos_get (p : Py.dict Z) (comp : string) :
  niveis_validos p -> Py.get p comp <> None -> 1 <= Py.get_or p comp 0 <= 5.
Proof.
  intros Hp Hg. unfold Py.get_or.
  destruct (Py.get p comp) as [v|] eqn:E; [|congruence].
  apply get_in in E. unfold niveis_validos in Hp.
  rewrite Forall_forall in Hp. exact (Hp _ E).
Qed.

(** A profile with levels from 1 to 5 that rates every skill a career of
    the built-in catalog requires scores at least [20.0] on that career. *)
Theorem pontuacao_catalogo_minima (carreira : Carreira.t) (p : Py.dict Z) :
  In carreira carreiras_padrao ->
  niveis_validos p ->
  (forall comp,
      In comp (Py.keys (Carreira.competencias_requeridas carreira)) ->
      Py.get p comp <> None) ->
  (20 <=? Carreira.calcular_pontuacao carreira p)%float = true.
Proof.
  intros Hc Hv Hr.
  assert (H1 := catalogo_nivel_1). rewrite Forall_forall in H1.
  destruct (H1 carreira Hc) as (Hw & Hf & H20).
  apply (F.leb_trans _ _ _ H20).
  apply ple_leb.
  - apply F.leb_true in H20. tauto.
  - apply calcular_pontuacao_numero; auto using niveis_validos_0_a_5.
  - apply calcular_pontuacao_mono_requeridas; [assumption|].
    intros comp Hk. unfold uniforme. rewrite get_or_uniforme by assumption.
    apply niveis_validos_get; auto.
Qed.

Lemma pontuacao_catalogo_minima_witness :
  In cientista_de_dados carreiras_padrao
  /\ niveis_validos niveis_ana
  /\ (forall comp,
         In comp (Py.keys (Carreira.competencias_requeridas cientista_de_dados)) ->
         Py.get niveis_ana comp <> None)
  /\ (20 <=? Carreira.calcular_pontuacao cientista_de_dados niveis_ana)%float
     = true.
Proof.
  assert (Hc : In cientista_de_dados carreiras_padrao) by (left; reflexivity).
  assert (Hv : niveis_validos niveis_ana) by (repeat constructor; simpl; lia).
  assert (Hr : forall comp,
             In comp (Py.keys (Carreira.competencias_requeridas cientista_de_dados)) ->
             Py.get niveis_ana comp <> None).
  { intros comp Hk. simpl in Hk.
    repeat match goal with
           | Hk : _ \/ _ |- _ => destruct Hk as [<-|Hk]
           | Hk : False |- _ => destruct Hk
           end; discriminate. }
  split; [exact Hc|]. split; [exact Hv|]. split; [exact Hr|].
  exact (pontuacao_catalogo_minima cientista_de_dados niveis_ana Hc Hv Hr).
Defined.

(** ** [recomendar_carreiras] *)

Lemma NoDup_firstn {A : Type} (n : nat) (l : list A) :
  NoDup l -> NoDup (firstn n l).
Proof.
  revert l. induction n as [|n IH]; intros [|x l] H; simpl; try constructor.
  - inversion H as [|? ? Hx Hl]; subst.
    intros Hin. apply Hx. now apply in_firstn in Hin.
  - inversion H; subst. now apply IH.
Qed.

Lemma slice_to_length {A : Type} (l : list A) (n : Z) :
  List.length (Py.slice_to l n)
  = Z.to_nat (if 0 <=? n then Z.min n (Z.of_nat (List.length l))
              else Z.of_nat (List.length l) + n).
Proof.
  unfold Py.slice_to. destruct (Z.leb_spec 0 n); rewrite length_firstn; lia.
Qed.

Lemma StronglySorted_firstn {A : Type} (R : A -> A -> Prop) (n : nat)
      (l : list A) :
  StronglySorted R l -> StronglySorted R (firstn n l).
Proof.
  intros H. revert n. induction H as [|x l Hl IH Hx]; intros [|n]; simpl;
    try constructor.
  - apply IH.
  - apply Forall_forall. intros y Hy. apply in_firstn in Hy.
    rewrite Forall_forall in Hx. now apply Hx.
Qed.

Lemma carreiras_padrao_distintas : NoDup carreiras_padrao.
Proof.
  apply (NoDup_map_inv Carreira.nome). simpl.
  repeat (constructor; [simpl; intuition discriminate|]). constructor.
Qed.

(** On the built-in catalog, for every profile with levels within [2^53]
    and every limit, negative ones included, [recomendar_carreiras]
    returns one message per picked career; it picks [min(limite, n)] of
    the [n] careers for a limit that is not negative and
    [max(n + limite, 0)] for a negative one (the slice [[:limite]] leaves
    out the last [-limite] entries); each pick is a career of the catalog
    with its score, the same on every interpreter; no career is picked
    twice, and the picks are in descending order of score. *)
Theorem recomendar_carreiras_escolhidas (ps : list Perfil.t)
        (perfil : Perfil.t) (limite : option Z) :
  niveis_limitados (Perfil.competencias perfil) ->
  let self := com_perfis ps in
  let n := Z.of_nat (List.length (carreiras self)) in
  exists escolhidas : list (float * Carreira.t),
    recomendar_carreiras self perfil limite = map mensagem escolhidas
    /\ List.length escolhidas
       = Z.to_nat (if 0 <=? limite_efetivo limite
                   then Z.min (limite_efetivo limite) n
                   else n + limite_efetivo limite)
    /\ (forall item, In item escolhidas ->
                     In (snd item) (carreiras self)
                     /\ forall v : Py.versao,
                          fst item = Carreira.calcular_pontuacao_v v
                                       (snd item) (Perfil.competencias perfil))
    /\ NoDup (map snd escolhidas)
    /\ StronglySorted nao_menor escolhidas.
Proof.
  intros Hp self n.
  exists (Py.slice_to (Py.sort_reverse (pontuadas self perfil))
                      (limite_efetivo limite)).
  split; [destruct limite; reflexivity|]. split; [|split; [|split]].
  - rewrite slice_to_length.
    rewrite (Permutation_length (sort_reverse_perm _)).
    unfold pontuadas. now rewrite length_map.
  - intros item Hi. apply in_slice_to in Hi.
    apply (Permutation_in _ (sort_reverse_perm _)) in Hi.
    unfold pontuadas in Hi. apply in_map_iff in Hi.
    destruct Hi as (carreira & <- & Hc). split; [exact Hc|].
    intros v. cbn [fst snd]. now rewrite calcular_pontuacao_v_catalogo.
  - unfold Py.slice_to.
    assert (Hm : NoDup (map snd (Py.sort_reverse (pontuadas self perfil)))).
    { apply (Permutation_NoDup
               (Permutation_sym
                  (Permutation_map snd (sort_reverse_perm _)))).
      unfold pontuadas. rewrite map_map. cbn [snd]. rewrite map_id.
      exact carreiras_padrao_distintas. }
    destruct (0 <=? limite_efetivo limite);
      rewrite <- firstn_map; now apply NoDup_firstn.
  - unfold Py.slice_to.
    assert (Hs := sort_reverse_sorted _ (pontuadas_sem_nan ps perfil Hp)).
    destruct (0 <=? limite_efetivo limite); now apply StronglySorted_firstn.
Qed.

Lemma recomendar_carreiras_escolhidas_witness :
  niveis_limitados (Perfil.competencias ana)
  /\ (let self := com_perfis [ana] in
      let n := Z.of_nat (List.length (carreiras self)) in
      exists escolhidas : list (float * Carreira.t),
        recomendar_carreiras self ana (Some (-1)) = map mensagem escolhidas
        /\ List.length escolhidas
           = Z.to_nat (if 0 <=? limite_efetivo (Some (-1))
                       then Z.min (limite_efetivo (Some (-1))) n
                       else n + limite_efetivo (Some (-1)))
        /\ (forall item, In item escolhidas ->
                         In (snd item) (carreiras self)
                         /\ forall v : Py.versao,
                              fst item = Carreira.calcular_pontuacao_v v
                                           (snd item) (Perfil.competencias ana))
        /\ NoDup (map snd escolhidas)
        /\ StronglySorted nao_menor escolhidas).
Proof.
  split; [exact niveis_ana_limitados|].
  exact (recomendar_carreiras_escolhidas [ana] ana (Some (-1))
           niveis_ana_limitados).
Defined.

(** ** [recomendar_trilhas_aprimoramento] *)

(** The skill is rated below 3 and the index has resources for it. *)
Definition com_sugestao (self : SistemaOrientacao.t) (item : string * Z) : bool :=
  (snd item <? 3)
  && match Py.get_or (trilhas_competencias self) (fst item) [] with
     | [] => false
     | _ => true
     end.

Lemma recomendar_trilhas_fold_geral (self : SistemaOrientacao.t)
      (itens : list (string * Z)) (acc : list string) :
  fold_left
    (fun recomendacoes (item : string * Z) =>
       let (comp_nome, nivel) := item in
       if nivel <? 3 then
         match Py.get_or (trilhas_competencias self) comp_nome [] with
         | [] => recomendacoes
         | trilhas => (recomendacoes ++ [sugestao comp_nome trilhas])%list
         end
       else recomendacoes)
    itens acc
  = (acc ++ map (sugestao_para self) (filter (com_sugestao self) itens))%list.
Proof.
  revert acc.
  induction itens as [|[comp nivel] itens IH]; intros acc.
  - simpl. now rewrite app_nil_r.
  - cbn [fold_left filter]. rewrite IH.
    unfold com_sugestao at 2. cbn [fst snd].
    destruct (nivel <? 3); cbn [andb]; [|reflexivity].
    unfold sugestao_para at 2. cbn [fst].
    destruct (Py.get_or (trilhas_competencias self) comp []) as [|t ts] eqn:Hg.
    + reflexivity.
    + cbn [map fst]. rewrite Hg, <- app_assoc. reflexivity.
Qed.

(** For every learning-track index, also one with empty entries,
    [recomendar_trilhas_aprimoramento] returns one suggestion for each
    recorded skill rated below 3 whose entry lists at least one resource,
    in the order of the profile, and nothing else: no suggestion has an
    empty resource list, and a profile without a level below 3 gets
    none. *)
Theorem recomendar_trilhas_aprimoramento_geral (self : SistemaOrientacao.t)
        (perfil : Perfil.t) :
  recomendar_trilhas_aprimoramento self perfil
  = map (sugestao_para self)
        (filter (com_sugestao self) (Py.items (Perfil.competencias perfil)))
  /\ (Forall (fun item => 3 <= snd item) (Perfil.competencias perfil) ->
      recomendar_trilhas_aprimoramento self perfil = [])
  /\ (List.length (recomendar_trilhas_aprimoramento self perfil)
      <= List.length (filter (fun item => (snd item <? 3)%Z)
                             (Perfil.competencias perfil)))%nat.
Proof.
  assert (E : recomendar_trilhas_aprimoramento self perfil
              = map (sugestao_para self)
                    (filter (com_sugestao self)
                            (Py.items (Perfil.competencias perfil)))).
  { unfold recomendar_trilhas_aprimoramento.
    now rewrite recomendar_trilhas_fold_geral. }
  split; [exact E|]. split.
  - intros Hall. rewrite E. clear E. unfold Py.items.
    induction Hall as [|item itens Hi _ IH]; [reflexivity|].
    cbn [filter]. unfold com_sugestao at 1.
    destruct (Z.ltb_spec (snd item) 3); [lia|exact IH].
  - rewrite E, length_map. clear E. unfold Py.items.
    induction (Perfil.competencias perfil) as [|item itens IH]; [apply le_n|].
    cbn [filter]. unfold com_sugestao at 1.
    destruct (snd item <? 3); cbn [andb].
    + destruct (Py.get_or _ _ _); cbn [List.length]; lia.
    + exact IH.
Qed.

(** ** [cadastrar_perfil] on any input *)

(** The level a line stands for, when [cadastrar_perfil] accepts it. *)
Definition nivel_aceito (linha : string) : option Z :=
  match Py.int (Py.strip linha) with
  | Some valor => if (1 <=? valor) && (valor <=? 5) then Some valor else None
  | None => None
  end.

(** The levels among the lines, in the order typed. *)
Fixpoint niveis_aceitos (entrada : list string) : list Z :=
  match entrada with
  | [] => []
  | linha :: resto =>
      match nivel_aceito linha with
      | Some valor => valor :: niveis_aceitos resto
      | None => niveis_aceitos resto
      end
  end.

(** The lines that follow the [n]-th accepted one. *)
Fixpoint apos_aceitos (entrada : list string) (n : nat) : list string :=
  match n, entrada with
  | O, _ => entrada
  | _, [] => []
  | S n', linha :: resto =>
      match nivel_aceito linha with
      | Some _ => apos_aceitos resto n'
      | None => apos_aceitos resto n
      end
  end.

Lemma niveis_aceitos_faixa (entrada : list string) :
  Forall (fun valor => 1 <= valor <= 5) (niveis_aceitos entrada).
Proof.
  induction entrada as [|linha resto IH]; simpl; [constructor|].
  unfold nivel_aceito at 1.
  destruct (Py.int (Py.strip linha)) as [v|]; [|exact IH].
  destruct ((1 <=? v) && (v <=? 5)) eqn:E; [|exact IH].
  constructor; [|exact IH]. apply andb_true_iff in E. lia.
Qed.

Lemma niveis_apos_aceitos (entrada : list string) (n : nat) :
  niveis_aceitos (apos_aceitos entrada n) = skipn n (niveis_aceitos entrada).
Proof.
  revert n. induction entrada as [|linha resto IH]; intros [|n]; simpl;
    try reflexivity.
  destruct (nivel_aceito linha) eqn:E; simpl.
  - apply IH.
  - apply (IH (S n)).
Qed.

Lemma apos_aceitos_0 (entrada : list string) : apos_aceitos entrada 0 = entrada.
Proof. now destruct entrada. Qed.

Lemma apos_apos_aceitos (entrada : list string) (n : nat) :
  apos_aceitos (apos_aceitos entrada 1) n = apos_aceitos entrada (S n).
Proof.
  induction entrada as [|linha resto IH]; simpl.
  - now destruct n.
  - destruct (nivel_aceito linha); [now rewrite apos_aceitos_0|exact IH].
Qed.

Lemma apos_aceitos_sufixo (entrada : list string) (n : nat) :
  exists lidas, entrada = (lidas ++ apos_aceitos entrada n)%list.
Proof.
  revert n. induction entrada as [|linha resto IH]; intros n.
  - exists []. now destruct n.
  - destruct n as [|n]; [now exists []|]. simpl.
    destruct (nivel_aceito linha).
    + destruct (IH n) as [l Hl]. exists (linha :: l). simpl. now rewrite <- Hl.
    + destruct (IH (S n)) as [l Hl]. exists (linha :: l). simpl. now rewrite <- Hl.
Qed.

(** One skill: the first accepted line gives the level; without one the
    input runs out. *)
Lemma ler_nivel_entrada (comp_nome : string) (perfil : Perfil.t)
      (entrada : list string) (saida : list event) :
  match niveis_aceitos entrada with
  | [] => exists saida', ler_nivel comp_nome perfil entrada saida
                         = EOFError (mk_console [] saida')
  | valor :: _ =>
      exists saida',
        ler_nivel comp_nome perfil entrada saida
        = Ok (Perfil.adicionar_competencia perfil comp_nome valor)
             (mk_console (apos_aceitos entrada 1) saida')
  end.
Proof.
  revert saida. induction entrada as [|linha resto IH]; intros saida.
  - simpl. eauto.
  - cbn [niveis_aceitos ler_nivel apos_aceitos]. unfold nivel_aceito.
    destruct (Py.int (Py.strip linha)) as [v|].
    + destruct ((1 <=? v) && (v <=? 5)).
      * rewrite apos_aceitos_0. eauto.
      * apply IH.
    + apply IH.
Qed.

Definition registrar (perfil : Perfil.t) (item : string * Z) : Perfil.t :=
  Perfil.adicionar_competencia perfil (fst item) (snd item).

Lemma ler_niveis_entrada (nomes : list string) (perfil : Perfil.t)
      (c : console) :
  if (List.length nomes <=? List.length (niveis_aceitos (stdin c)))%nat
  then exists saida',
      ler_niveis nomes perfil c
      = Ok (fold_left registrar (combine nomes (niveis_aceitos (stdin c)))
                      perfil)
           (mk_console (apos_aceitos (stdin c) (List.length nomes)) saida')
  else exists saida',
      ler_niveis nomes perfil c = EOFError (mk_console [] saida').
Proof.
  revert perfil c.
  induction nomes as [|nome nomes IH]; intros perfil c.
  - simpl. rewrite apos_aceitos_0. exists (stdout c). unfold ret.
    now destruct c.
  - cbn [ler_niveis List.length]. unfold bind.
    assert (H1 := ler_nivel_entrada nome perfil (stdin c) (stdout c)).
    destruct (niveis_aceitos (stdin c)) as [|v vs] eqn:Ev.
    + destruct H1 as [s' ->]. simpl. eauto.
    + destruct H1 as [s' ->].
      specialize (IH (Perfil.adicionar_competencia perfil nome v)
                     (mk_console (apos_aceitos (stdin c) 1) s')).
      cbn [stdin] in IH.
      rewrite niveis_apos_aceitos, Ev, apos_apos_aceitos in IH.
      cbn [skipn] in IH. cbn [List.length combine fold_left].
      change (S (List.length nomes) <=? S (List.length vs))%nat
        with (List.length nomes <=? List.length vs)%nat.
      exact IH.
Qed.

Lemma fold_registrar (nome : string) (itens : list (string * Z))
      (d : Py.dict Z) :
  NoDup (Py.keys d ++ map fst itens)%list ->
  fold_left registrar itens (Perfil.make nome d)
  = Perfil.make nome (d ++ itens)%list.
Proof.
  revert d. induction itens as [|[k v] itens IH]; intros d Hnd; simpl.
  - now rewrite app_nil_r.
  - unfold registrar at 2, Perfil.adicionar_competencia.
    cbn [fst snd Perfil.nome Perfil.competencias].
    rewrite set_novo.
    + rewrite IH.
      * now rewrite <- app_assoc.
      * unfold Py.keys in *. rewrite map_app. simpl in *.
        now rewrite <- app_assoc.
    + simpl in Hnd. apply NoDup_remove_2 in Hnd. intros Hin. apply Hnd.
      apply in_or_app. now left.
Qed.

Lemma combine_fst {A B : Type} (l : list A) (l' : list B) :
  (List.length l <= List.length l')%nat -> map fst (combine l l') = l.
Proof.
  revert l'. induction l as [|x l IH]; intros [|y l'] H; simpl in *;
    try reflexivity; try lia.
  f_equal. apply IH. lia.
Qed.

Lemma combine_snd_Forall {A B : Type} (P : B -> Prop) (l : list A)
      (l' : list B) :
  Forall P l' -> Forall (fun item => P (snd item)) (combine l l').
Proof.
  intros H. revert l. induction H as [|y l' Hy _ IH]; intros [|x l]; simpl;
    constructor; auto.
Qed.

(** What [cadastrar_perfil] does on a console, output left aside. *)
Lemma cadastrar_perfil_entrada (self : SistemaOrientacao.t) (nome : string)
      (c : console) :
  let nomes := Py.keys (competencias self) in
  if (List.length nomes <=? List.length (niveis_aceitos (stdin c)))%nat
  then exists saida',
      cadastrar_perfil self nome c
      = (let perfil :=
           fold_left registrar (combine nomes (niveis_aceitos (stdin c)))
                     (Perfil.novo nome) in
         Ok (SistemaOrientacao.make (competencias self) (carreiras self)
               (perfis self ++ [perfil])%list (trilhas_competencias self),
             perfil)
            (mk_console (apos_aceitos (stdin c) (List.length nomes)) saida'))
  else exists saida',
      cadastrar_perfil self nome c = EOFError (mk_console [] saida').
Proof.
  intros nomes.
  assert (H := ler_niveis_entrada nomes (Perfil.novo nome)
                 (emit (Printed (nl ++ "Cadastro de competências para "
                                 ++ nome ++ ":")) c)).
  cbn [emit stdin] in H.
  destruct (List.length nomes <=? List.length (niveis_aceitos (stdin c)))%nat;
    destruct H as [s' H]; cbv zeta; eexists;
    unfold cadastrar_perfil; unfold bind at 1; unfold print at 1;
    unfold bind at 1; cbn [emit]; fold nomes; rewrite H.
  - unfold bind, print, ret, emit. cbn [stdin stdout]. reflexivity.
  - reflexivity.
Qed.

(** On an input of ASCII lines of at most 640 characters,
    [cadastrar_perfil] ends in [EOFError] exactly when the input holds
    fewer accepted lines (integers from 1 to 5) than the catalog has
    skills, and then it has read the input to its end. *)
Theorem cadastrar_perfil_eof (self : SistemaOrientacao.t) (nome : string)
        (c : console) :
  Forall Py.linha_simples (stdin c) ->
  ((exists c', cadastrar_perfil self nome c = EOFError c')
   <-> (List.length (niveis_aceitos (stdin c))
        < List.length (Py.keys (competencias self)))%nat)
  /\ (forall c', cadastrar_perfil self nome c = EOFError c' -> stdin c' = []).
Proof.
  intros _.
  assert (H := cadastrar_perfil_entrada self nome c). cbv zeta in H.
  destruct (Nat.leb_spec (List.length (Py.keys (competencias self)))
                         (List.length (niveis_aceitos (stdin c))))
    as [Hle|Hlt].
  - destruct H as [s' H]. split; [split|].
    + intros [c' Hc']. rewrite H in Hc'. discriminate Hc'.
    + lia.
    + intros c' Hc'. rewrite H in Hc'. discriminate Hc'.
  - destruct H as [s' H]. split; [split|].
    + intros _. exact Hlt.
    + intros _. eauto.
    + intros c' Hc'. rewrite H in Hc'. now injection Hc' as <-.
Qed.

Lemma cadastrar_perfil_eof_witness :
  Forall Py.linha_simples (stdin (mk_console ["3"; "seis"; " 4"] []))
  /\ ((exists c', cadastrar_perfil __init__ "Ana"
                    (mk_console ["3"; "seis"; " 4"] []) = EOFError c')
      <-> (List.length (niveis_aceitos (stdin (mk_console ["3"; "seis"; " 4"] [])))
           < List.length (Py.keys (competencias __init__)))%nat)
  /\ (forall c', cadastrar_perfil __init__ "Ana"
                   (mk_console ["3"; "seis"; " 4"] []) = EOFError c' ->
                 stdin c' = []).
Proof.
  assert (H : Forall Py.linha_simples (stdin (mk_console ["3"; "seis"; " 4"] [])))
    by (cbn [stdin]; linhas_simples).
  split; [exact H|].
  exact (cadastrar_perfil_eof __init__ "Ana"
           (mk_console ["3"; "seis"; " 4"] []) H).
Defined.

(** Whatever is typed in ASCII lines of at most 640 characters, when
    [cadastrar_perfil] returns, the new profile has the given name and
    rates exactly the skills of the catalog, in catalog order, with the
    first accepted levels of the input, each from 1 to 5; it is appended
    to the profiles, the catalogs are untouched, and the lines after the
    last accepted one are still to be read. *)
Theorem cadastrar_perfil_retorno (self self' : SistemaOrientacao.t)
        (nome : string) (perfil : Perfil.t) (c c' : console) :
  Py.wf (competencias self) ->
  Forall Py.linha_simples (stdin c) ->
  cadastrar_perfil self nome c = Ok (self', perfil) c' ->
  perfil = Perfil.make nome
             (combine (Py.keys (competencias self))
                      (niveis_aceitos (stdin c)))
  /\ Py.keys (Perfil.competencias perfil) = Py.keys (competencias self)
  /\ niveis_validos (Perfil.competencias perfil)
  /\ self' = SistemaOrientacao.make (competencias self) (carreiras self)
               (perfis self ++ [perfil])%list (trilhas_competencias self)
  /\ stdin c'
     = apos_aceitos (stdin c) (List.length (Py.keys (competencias self))).
Proof.
  intros Hwf _ Hok.
  assert (H := cadastrar_perfil_entrada self nome c). cbv zeta in H.
  destruct (Nat.leb_spec (List.length (Py.keys (competencias self)))
                         (List.length (niveis_aceitos (stdin c))))
    as [Hle|Hlt]; destruct H as [s' H]; rewrite H in Hok;
    [|discriminate Hok].
  unfold Perfil.novo in Hok. rewrite fold_registrar in Hok.
  - cbn [app] in Hok. injection Hok as <- <- <-.
    cbn [Perfil.competencias stdin].
    split; [reflexivity|]. split; [now apply combine_fst|].
    split; [|split; reflexivity].
    apply (combine_snd_Forall (fun v => 1 <= v <= 5)).
    apply niveis_aceitos_faixa.
  - cbn [Py.keys map app]. rewrite combine_fst by assumption. exact Hwf.
Qed.

Definition entrada_exemplo : list string :=
  ["3"; "abc"; "5"; " 4 "; "0"; "1"; "2"; "2"; "3"; "9"; "4"; "5"; "1"; "5"].

Lemma cadastrar_perfil_retorno_witness :
  Py.wf (competencias __init__)
  /\ Forall Py.linha_simples (stdin (mk_console entrada_exemplo []))
  /\ exists self' perfil c',
      cadastrar_perfil __init__ "Ana" (mk_console entrada_exemplo [])
      = Ok (self', perfil) c'
      /\ perfil = Perfil.make "Ana"
                    (combine (Py.keys (competencias __init__))
                             (niveis_aceitos entrada_exemplo))
      /\ Py.keys (Perfil.competencias perfil) = Py.keys (competencias __init__)
      /\ niveis_validos (Perfil.competencias perfil)
      /\ self' = SistemaOrientacao.make
                   (competencias __init__) (carreiras __init__)
                   (perfis __init__ ++ [perfil])%list
                   (trilhas_competencias __init__)
      /\ stdin c'
         = apos_aceitos entrada_exemplo
                        (List.length (Py.keys (competencias __init__))).
Proof.
  assert (H : Forall Py.linha_simples (stdin (mk_console entrada_exemplo [])))
    by (cbn [stdin]; unfold entrada_exemplo; linhas_simples).
  split; [exact competencias_padrao_wf|]. split; [exact H|].
  destruct (cadastrar_perfil __init__ "Ana" (mk_console entrada_exemplo []))
    as [[self' perfil] c'|c'] eqn:E; [|vm_compute in E; discriminate E].
  exists self', perfil, c'. split; [reflexivity|].
  exact (cadastrar_perfil_retorno __init__ self' "Ana" perfil
           (mk_console entrada_exemplo []) c' competencias_padrao_wf H E).
Defined.

(** ** [listar_perfis] *)

Lemma enumerate_seq {A : Type} (l : list A) (start : nat) :
  Py.enumerate (Z.of_nat start) l
  = combine (map Z.of_nat (seq start (List.length l))) l.
Proof.
  revert start. induction l as [|x l IH]; intros start; simpl.
  - reflexivity.
  - f_equal. rewrite <- IH. f_equal. lia.
Qed.

(** [listar_perfis] reads nothing.  Without profiles it prints one notice;
    otherwise a heading, one line [i. nome] for each profile, numbered
    from 1 in the order of registration, and an empty line. *)
Theorem listar_perfis_saida (self : SistemaOrientacao.t) (c : console) :
  listar_perfis self c
  = Ok tt
       (mk_console (stdin c)
          (stdout c
           ++ match perfis self with
              | [] => [Printed ("Nenhum perfil cadastrado até o momento." ++ nl)]
              | ps =>
                  Printed (nl ++ "Perfis cadastrados:")
                  :: map (fun item =>
                            Printed (Py.str_int (Z.of_nat (fst item)) ++ ". "
                                     ++ Perfil.nome (snd item)))
                         (combine (seq 1 (List.length ps)) ps)
                  ++ [Printed ""]
              end)%list).
Proof.
  unfold listar_perfis.
  destruct (perfis self) as [|p ps] eqn:E; [reflexivity|].
  unfold bind. unfold print at 1.
  rewrite (for_each_print
             (fun item : Z * Perfil.t =>
                Py.str_int (fst item) ++ ". " ++ Perfil.nome (snd item))).
  unfold print, emit. cbn [stdin stdout].
  change (Py.enumerate 1 (p :: ps))
    with (Py.enumerate (Z.of_nat 1) (p :: ps)).
  rewrite (enumerate_seq (p :: ps) 1).
  rewrite <- !app_assoc. do 3 f_equal. cbn [app]. f_equal.
  generalize (seq 1 (List.length (p :: ps))). generalize (p :: ps).
  induction l as [|x l IH]; intros [|i s]; simpl; try reflexivity.
  now rewrite IH.
Qed.

(** ** [menu_principal], one option at a time *)

Lemma listar_perfis_geral (self : SistemaOrientacao.t) (c : console) :
  listar_perfis self c
  = Ok tt (mk_console (stdin c) (stdout c ++ listagem (perfis self))).
Proof.
  unfold listar_perfis, listagem.
  destruct (perfis self) as [|p ps]; [reflexivity|].
  unfold bind. unfold print at 1.
  rewrite (for_each_print
             (fun item : Z * Perfil.t =>
                Py.str_int (fst item) ++ ". " ++ Perfil.nome (snd item))).
  unfold print, emit. cbn [stdin stdout].
  now rewrite <- !app_assoc.
Qed.

(** What every pass prints and reads first. *)
Definition cabecalho : list event :=
  [Printed menu; Prompted "Escolha uma opção: "].

Ltac menu_inicio :=
  unfold menu_passo; unfold bind at 1; unfold print at 1;
  unfold bind at 1; unfold input at 1; cbn [stdin emit stdout]; cbv zeta.

Lemma menu_passo_sair (self : SistemaOrientacao.t) (linha : string)
      (resto : list string) (saida : list event) :
  Py.strip linha = "5" ->
  menu_passo self (mk_console (linha :: resto) saida)
  = Ok None
       (mk_console resto
          (saida ++ cabecalho
           ++ [Printed "Saindo... obrigado por utilizar o Future Skills Lab!"])).
Proof.
  intros H. menu_inicio. rewrite H. cbn [String.eqb Ascii.eqb Bool.eqb].
  unfold bind, print, ret, emit, cabecalho. cbn [stdin stdout].
  now rewrite <- !app_assoc.
Qed.

(** Option 5 ends the loop at once, whatever the state and whatever input
    follows: the menu, the prompt and the farewell are printed, the
    profiles are as they were and the rest of the input is not read. *)
Theorem menu_principal_sair (fuel : nat) (self : SistemaOrientacao.t)
        (linha : string) (resto : list string) (saida : list event) :
  Py.strip linha = "5" ->
  menu_principal (S fuel) self (mk_console (linha :: resto) saida)
  = Some (Ok self
            (mk_console resto
               (saida
                ++ [Printed menu; Prompted "Escolha uma opção: ";
                    Printed "Saindo... obrigado por utilizar o Future Skills Lab!"]))).
Proof.
  intros H. cbn [menu_principal]. now rewrite menu_passo_sair.
Qed.

Lemma menu_principal_sair_witness :
  Py.strip "  5 " = "5"
  /\ menu_principal 1 __init__ (mk_console ["  5 "; "1"] [])
     = Some (Ok __init__
               (mk_console ["1"]
                  ([]
                   ++ [Printed menu; Prompted "Escolha uma opção: ";
                       Printed "Saindo... obrigado por utilizar o Future Skills Lab!"]))).
Proof.
  split; [reflexivity|].
  exact (menu_principal_sair 0 __init__ "  5 " ["1"] [] eq_refl).
Defined.

Lemma menu_passo_invalida (self : SistemaOrientacao.t) (linha : string)
      (resto : list string) (saida : list event) :
  ~ In (Py.strip linha) ["1"; "2"; "3"; "4"; "5"] ->
  menu_passo self (mk_console (linha :: resto) saida)
  = Ok (Some self)
       (mk_console resto
          (saida ++ cabecalho
           ++ [Printed ("Opção inválida. Tente novamente." ++ nl)])).
Proof.
  intros H. menu_inicio.
  repeat match goal with
         | |- context [(Py.strip linha =? ?s)%string] =>
             destruct (String.eqb_spec (Py.strip linha) s) as [E|_];
             [exfalso; apply H; rewrite E; simpl; tauto|]
         end.
  unfold bind, print, ret, emit, cabecalho. cbn [stdin stdout].
  now rewrite <- !app_assoc.
Qed.

(** An ASCII line that, blanks at its ends removed, is none of [1] to
    [5] gets the notice of an invalid option and the loop goes round
    again with the same state; lines such as [6], [abc], the empty line
    or [1 2] are of that kind. *)
Theorem menu_principal_opcao_invalida (fuel : nat) (self : SistemaOrientacao.t)
        (linha : string) (resto : list string) (saida : list event) :
  Py.linha_ascii linha ->
  ~ In (Py.strip linha) ["1"; "2"; "3"; "4"; "5"] ->
  menu_principal (S fuel) self (mk_console (linha :: resto) saida)
  = menu_principal fuel self
      (mk_console resto
         (saida
          ++ [Printed menu; Prompted "Escolha uma opção: ";
              Printed ("Opção inválida. Tente novamente." ++ nl)])).
Proof.
  intros _ H. cbn [menu_principal]. now rewrite menu_passo_invalida.
Qed.

Lemma menu_principal_opcao_invalida_witness :
  Py.linha_ascii "1 2"
  /\ ~ In (Py.strip "1 2") ["1"; "2"; "3"; "4"; "5"]
  /\ menu_principal 2 __init__ (mk_console ["1 2"; "5"] [])
     = menu_principal 1 __init__
         (mk_console ["5"]
            ([]
             ++ [Printed menu; Prompted "Escolha uma opção: ";
                 Printed ("Opção inválida. Tente novamente." ++ nl)])).
Proof.
  assert (H : ~ In (Py.strip "1 2") ["1"; "2"; "3"; "4"; "5"]).
  { vm_compute. intuition discriminate. }
  split; [reflexivity|]. split; [exact H|].
  exact (menu_principal_opcao_invalida 1 __init__ "1 2" ["5"] [] eq_refl H).
Defined.

Lemma menu_passo_nome_vazio (self : SistemaOrientacao.t) (l1 l2 : string)
      (resto : list string) (saida : list event) :
  Py.strip l1 = "1" -> Py.strip l2 = "" ->
  menu_passo self (mk_console (l1 :: l2 :: resto) saida)
  = Ok (Some self)
       (mk_console resto
          (saida ++ cabecalho ++ [Prompted "Digite seu nome: "])).
Proof.
  intros H1 H2. menu_inicio. rewrite H1. cbn [String.eqb Ascii.eqb Bool.eqb].
  unfold bind at 1. unfold input at 1. cbn [stdin stdout]. rewrite H2.
  cbn [String.eqb]. unfold ret, cabecalho. now rewrite <- !app_assoc.
Qed.

(** Option 1 with a name that is empty or all blanks registers nothing:
    no level is asked for, the profiles are unchanged and the loop goes
    round again. *)
Theorem menu_principal_nome_vazio (fuel : nat) (self : SistemaOrientacao.t)
        (l1 l2 : string) (resto : list string) (saida : list event) :
  Py.strip l1 = "1" -> Py.strip l2 = "" ->
  menu_principal (S fuel) self (mk_console (l1 :: l2 :: resto) saida)
  = menu_principal fuel self
      (mk_console resto
         (saida
          ++ [Printed menu; Prompted "Escolha uma opção: ";
              Prompted "Digite seu nome: "])).
Proof.
  intros H1 H2. cbn [menu_principal]. now rewrite menu_passo_nome_vazio.
Qed.

Lemma menu_principal_nome_vazio_witness :
  Py.strip "1" = "1" /\ Py.strip "   " = ""
  /\ menu_principal 2 __init__ (mk_console ["1"; "   "; "5"] [])
     = menu_principal 1 __init__
         (mk_console ["5"]
            ([]
             ++ [Printed menu; Prompted "Escolha uma opção: ";
                 Prompted "Digite seu nome: "])).
Proof.
  split; [reflexivity|]. split; [reflexivity|].
  exact (menu_principal_nome_vazio 1 __init__ "1" "   " ["5"] [] eq_refl eq_refl).
Defined.

(** The notice of options 2, 3 and 4 when no profile is stored. *)
Definition aviso_sem_perfis (escolha : string) : string :=
  if (escolha =? "2")%string
  then "Nenhum perfil cadastrado até o momento." ++ nl
  else if (escolha =? "3")%string
       then "Cadastre um perfil antes de gerar recomendações." ++ nl
       else "Cadastre um perfil antes de gerar trilhas de aprimoramento." ++ nl.

Lemma menu_passo_sem_perfis (self : SistemaOrientacao.t) (linha : string)
      (resto : list string) (saida : list event) :
  perfis self = [] ->
  In (Py.strip linha) ["2"; "3"; "4"] ->
  menu_passo self (mk_console (linha :: resto) saida)
  = Ok (Some self)
       (mk_console resto
          (saida ++ cabecalho ++ [Printed (aviso_sem_perfis (Py.strip linha))])).
Proof.
  intros Hp H. menu_inicio.
  destruct H as [<-|[<-|[<-|[]]]]; cbn [String.eqb Ascii.eqb Bool.eqb].
  - unfold bind. rewrite listar_perfis_geral, Hp.
    unfold ret, listagem, cabecalho, aviso_sem_perfis. cbn [stdin stdout].
    cbn [String.eqb Ascii.eqb Bool.eqb]. now rewrite <- !app_assoc.
  - rewrite Hp. unfold bind, print, ret, emit, cabecalho, aviso_sem_perfis.
    cbn [stdin stdout String.eqb Ascii.eqb Bool.eqb].
    now rewrite <- !app_assoc.
  - rewrite Hp. unfold bind, print, ret, emit, cabecalho, aviso_sem_perfis.
    cbn [stdin stdout String.eqb Ascii.eqb Bool.eqb].
    now rewrite <- !app_assoc.
Qed.

(** While no profile is stored, options 2, 3 and 4 print their notice and
    go back to the menu; options 3 and 4 do not ask for a profile number,
    so the next line is read as a menu option. *)
Theorem menu_principal_sem_perfis (fuel : nat) (self : SistemaOrientacao.t)
        (linha : string) (resto : list string) (saida : list event) :
  perfis self = [] ->
  In (Py.strip linha) ["2"; "3"; "4"] ->
  menu_principal (S fuel) self (mk_console (linha :: resto) saida)
  = menu_principal fuel self
      (mk_console resto
         (saida
          ++ [Printed menu; Prompted "Escolha uma opção: ";
              Printed (aviso_sem_perfis (Py.strip linha))])).
Proof.
  intros Hp H. cbn [menu_principal]. now rewrite menu_passo_sem_perfis.
Qed.

Lemma menu_principal_sem_perfis_witness :
  perfis __init__ = []
  /\ In (Py.strip "3") ["2"; "3"; "4"]
  /\ menu_principal 2 __init__ (mk_console ["3"; "5"] [])
     = menu_principal 1 __init__
         (mk_console ["5"]
            ([]
             ++ [Printed menu; Prompted "Escolha uma opção: ";
                 Printed (aviso_sem_perfis (Py.strip "3"))])).
Proof.
  assert (H : In (Py.strip "3") ["2"; "3"; "4"]) by (right; left; reflexivity).
  split; [reflexivity|]. split; [exact H|].
  exact (menu_principal_sem_perfis 1 __init__ "3" ["5"] [] eq_refl H).
Defined.

Lemma selecionar_perfis (ps : list Perfil.t) (linha : string) (p : Perfil.t) :
  selecionar ps linha = Some p -> ps <> [].
Proof.
  unfold selecionar. destruct (Py.int (Py.strip linha)) as [idx|]; [|discriminate].
  intros H ->. unfold Py.index in H. simpl in H.
  destruct (0 <=? idx - 1); [|destruct (0 <=? 0 + (idx - 1))];
    try discriminate; now destruct (Z.to_nat _).
Qed.

Lemma menu_passo_recomendacoes (self : SistemaOrientacao.t) (l1 l2 : string)
      (resto : list string) (saida : list event) (perfil : Perfil.t) :
  Py.strip l1 = "3" ->
  selecionar (perfis self) l2 = Some perfil ->
  menu_passo self (mk_console (l1 :: l2 :: resto) saida)
  = Ok (Some self)
       (mk_console resto
          (saida ++ cabecalho ++ listagem (perfis self)
           ++ [Prompted "Informe o número do perfil para ver as recomendações: ";
               Printed (nl ++ "Recomendações de carreira para "
                        ++ Perfil.nome perfil ++ ":")]
           ++ map (fun msg => Printed ("- " ++ msg))
                  (recomendar_carreiras self perfil None)
           ++ [Printed ""])).
Proof.
  intros H1 Hs. assert (Hp := selecionar_perfis _ _ _ Hs).
  unfold selecionar in Hs.
  menu_inicio. rewrite H1. cbn [String.eqb Ascii.eqb Bool.eqb].
  destruct (perfis self) as [|p ps] eqn:Ep; [congruence|].
  unfold bind at 1. rewrite listar_perfis_geral, Ep. cbn [stdin stdout].
  unfold bind at 1. unfold input at 1. cbn [stdin stdout].
  rewrite Hs.
  unfold bind at 1. unfold print at 1. unfold bind at 1.
  rewrite (for_each_print (fun msg => "- " ++ msg)).
  unfold bind, print, ret, emit, cabecalho. cbn [stdin stdout].
  now rewrite <- !app_assoc.
Qed.

(** With the built-in catalog, option 3 followed by an ASCII line of at
    most 640 characters that selects a stored profile, its levels within
    [2^53], lists the profiles, asks for the number, prints the heading
    with the name of that profile, one line [- message] for each of its
    career recommendations with the default limit, and an empty line; the
    state is unchanged. *)
Theorem menu_principal_recomendacoes (fuel : nat) (ps : list Perfil.t)
        (l1 l2 : string) (resto : list string) (saida : list event)
        (perfil : Perfil.t) :
  let self := com_perfis ps in
  Py.strip l1 = "3" ->
  Py.linha_simples l2 ->
  selecionar (perfis self) l2 = Some perfil ->
  niveis_limitados (Perfil.competencias perfil) ->
  menu_principal (S fuel) self (mk_console (l1 :: l2 :: resto) saida)
  = menu_principal fuel self
      (mk_console resto
         (saida
          ++ [Printed menu; Prompted "Escolha uma opção: "]
          ++ listagem (perfis self)
          ++ [Prompted "Informe o número do perfil para ver as recomendações: ";
              Printed (nl ++ "Recomendações de carreira para "
                       ++ Perfil.nome perfil ++ ":")]
          ++ map (fun msg => Printed ("- " ++ msg))
                 (recomendar_carreiras self perfil None)
          ++ [Printed ""])).
Proof.
  intros self H1 _ Hs _. cbn [menu_principal].
  now rewrite (menu_passo_recomendacoes _ _ _ _ _ perfil).
Qed.

Lemma menu_principal_recomendacoes_witness :
  Py.strip " 3" = "3"
  /\ Py.linha_simples "1"
  /\ selecionar (perfis (com_perfis [ana])) "1" = Some ana
  /\ niveis_limitados (Perfil.competencias ana)
  /\ menu_principal 2 (com_perfis [ana]) (mk_console [" 3"; "1"; "5"] [])
     = menu_principal 1 (com_perfis [ana])
         (mk_console ["5"]
            ([]
             ++ [Printed menu; Prompted "Escolha uma opção: "]
             ++ listagem (perfis (com_perfis [ana]))
             ++ [Prompted "Informe o número do perfil para ver as recomendações: ";
                 Printed (nl ++ "Recomendações de carreira para "
                          ++ Perfil.nome ana ++ ":")]
             ++ map (fun msg => Printed ("- " ++ msg))
                    (recomendar_carreiras (com_perfis [ana]) ana None)
             ++ [Printed ""])).
Proof.
  assert (H2 : Py.linha_simples "1")
    by (split; [reflexivity|vm_compute; discriminate]).
  split; [reflexivity|]. split; [exact H2|]. split; [reflexivity|].
  split; [exact niveis_ana_limitados|].
  exact (menu_principal_recomendacoes 1 [ana] " 3" "1" ["5"] []
           ana eq_refl H2 eq_refl niveis_ana_limitados).
Defined.

(** What option 4 prints for the suggestions of a profile. *)
Definition saida_trilhas (perfil : Perfil.t) (recomendacoes : list string)
  : list event :=
  match recomendacoes with
  | [] =>
      [Printed (Perfil.nome perfil
                ++ " não possui competências com nota baixa. Parabéns!" ++ nl)]
  | _ =>
      Printed (nl ++ "Trilhas de aprimoramento para "
               ++ Perfil.nome perfil ++ ":")
      :: map (fun rec => Printed ("- " ++ rec)) recomendacoes
      ++ [Printed ""]
  end.

Lemma menu_passo_trilhas (self : SistemaOrientacao.t) (l1 l2 : string)
      (resto : list string) (saida : list event) (perfil : Perfil.t) :
  Py.strip l1 = "4" ->
  selecionar (perfis self) l2 = Some perfil ->
  menu_passo self (mk_console (l1 :: l2 :: resto) saida)
  = Ok (Some self)
       (mk_console resto
          (saida ++ cabecalho ++ listagem (perfis self)
           ++ [Prompted "Informe o número do perfil para ver as trilhas de aprimoramento: "]
           ++ saida_trilhas perfil
                (recomendar_trilhas_aprimoramento self perfil))).
Proof.
  intros H1 Hs. assert (Hp := selecionar_perfis _ _ _ Hs).
  unfold selecionar in Hs.
  menu_inicio. rewrite H1. cbn [String.eqb Ascii.eqb Bool.eqb].
  destruct (perfis self) as [|p ps] eqn:Ep; [congruence|].
  unfold bind at 1. rewrite listar_perfis_geral, Ep. cbn [stdin stdout].
  unfold bind at 1. unfold input at 1. cbn [stdin stdout].
  rewrite Hs. unfold saida_trilhas.
  destruct (recomendar_trilhas_aprimoramento self perfil) as [|r rs].
  - unfold bind, print, ret, emit, cabecalho. cbn [stdin stdout].
    now rewrite <- !app_assoc.
  - unfold bind at 1. unfold print at 1. unfold bind at 1.
    rewrite (for_each_print (fun rec => "- " ++ rec)).
    unfold bind, print, ret, emit, cabecalho. cbn [stdin stdout].
    now rewrite <- !app_assoc.
Qed.

(** Option 4 followed by an ASCII line of at most 640 characters that
    selects a stored profile prints,
    after the list of profiles and the question, either the
    congratulation, when [recomendar_trilhas_aprimoramento] has nothing
    for that profile, or the heading with the profile's name, one line
    [- suggestion] for each suggestion and an empty line; the state is
    unchanged. *)
Theorem menu_principal_trilhas (fuel : nat) (self : SistemaOrientacao.t)
        (l1 l2 : string) (resto : list string) (saida : list event)
        (perfil : Perfil.t) :
  Py.strip l1 = "4" ->
  Py.linha_simples l2 ->
  selecionar (perfis self) l2 = Some perfil ->
  menu_principal (S fuel) self (mk_console (l1 :: l2 :: resto) saida)
  = menu_principal fuel self
      (mk_console resto
         (saida
          ++ [Printed menu; Prompted "Escolha uma opção: "]
          ++ listagem (perfis self)
          ++ [Prompted "Informe o número do perfil para ver as trilhas de aprimoramento: "]
          ++ match recomendar_trilhas_aprimoramento self perfil with
             | [] =>
                 [Printed (Perfil.nome perfil
                           ++ " não possui competências com nota baixa. Parabéns!"
                           ++ nl)]
             | recomendacoes =>
                 Printed (nl ++ "Trilhas de aprimoramento para "
                          ++ Perfil.nome perfil ++ ":")
                 :: map (fun rec => Printed ("- " ++ rec)) recomendacoes
                 ++ [Printed ""]
             end)).
Proof.
  intros H1 _ Hs. cbn [menu_principal].
  rewrite (menu_passo_trilhas _ _ _ _ _ perfil) by assumption.
  unfold saida_trilhas, cabecalho.
  now destruct (recomendar_trilhas_aprimoramento self perfil).
Qed.

Lemma menu_principal_trilhas_witness :
  Py.strip "4" = "4"
  /\ Py.linha_simples "1"
  /\ selecionar (perfis (com_perfis [ana])) "1" = Some ana
  /\ menu_principal 2 (com_perfis [ana]) (mk_console ["4"; "1"; "5"] [])
     = menu_principal 1 (com_perfis [ana])
         (mk_console ["5"]
            ([]
             ++ [Printed menu; Prompted "Escolha uma opção: "]
             ++ listagem (perfis (com_perfis [ana]))
             ++ [Prompted "Informe o número do perfil para ver as trilhas de aprimoramento: "]
             ++ match recomendar_trilhas_aprimoramento (com_perfis [ana]) ana with
                | [] =>
                    [Printed (Perfil.nome ana
                              ++ " não possui competências com nota baixa. Parabéns!"
                              ++ nl)]
                | recomendacoes =>
                    Printed (nl ++ "Trilhas de aprimoramento para "
                             ++ Perfil.nome ana ++ ":")
                    :: map (fun rec => Printed ("- " ++ rec)) recomendacoes
                    ++ [Printed ""]
                end)).
Proof.
  assert (H2 : Py.linha_simples "1")
    by (split; [reflexivity|vm_compute; discriminate]).
  split; [reflexivity|]. split; [exact H2|]. split; [reflexivity|].
  exact (menu_principal_trilhas 1 (com_perfis [ana]) "4" "1" ["5"] []
           ana eq_refl H2 eq_refl).
Defined.

Lemma menu_passo_listar (self : SistemaOrientacao.t) (linha : string)
      (resto : list string) (saida : list event) :
  Py.strip linha = "2" ->
  menu_passo self (mk_console (linha :: resto) saida)
  = Ok (Some self)
       (mk_console resto (saida ++ cabecalho ++ listagem (perfis self))).
Proof.
  intros H. menu_inicio. rewrite H. cbn [String.eqb Ascii.eqb Bool.eqb].
  unfold bind. rewrite listar_perfis_geral.
  unfold ret, cabecalho. cbn [stdin stdout]. now rewrite <- !app_assoc.
Qed.

(** Option 2 prints what [listar_perfis] prints, reads no further line
    and leaves the state as it was. *)
Theorem menu_principal_listar (fuel : nat) (self : SistemaOrientacao.t)
        (linha : string) (resto : list string) (saida : list event) :
  Py.strip linha = "2" ->
  menu_principal (S fuel) self (mk_console (linha :: resto) saida)
  = menu_principal fuel self
      (mk_console resto
         (saida
          ++ [Printed menu; Prompted "Escolha uma opção: "]
          ++ match perfis self with
             | [] => [Printed ("Nenhum perfil cadastrado até o momento." ++ nl)]
             | ps =>
                 Printed (nl ++ "Perfis cadastrados:")
                 :: map (fun item =>
                           Printed (Py.str_int (fst item) ++ ". "
                                    ++ Perfil.nome (snd item)))
                        (Py.enumerate 1 ps)
                 ++ [Printed ""]
             end)).
Proof.
  intros H. cbn [menu_principal]. rewrite menu_passo_listar by assumption.
  unfold listagem, cabecalho. now destruct (perfis self).
Qed.

Lemma menu_principal_listar_witness :
  Py.strip "2 " = "2"
  /\ menu_principal 2 (com_perfis [ana]) (mk_console ["2 "; "5"] [])
     = menu_principal 1 (com_perfis [ana])
         (mk_console ["5"]
            ([]
             ++ [Printed menu; Prompted "Escolha uma opção: "]
             ++ match perfis (com_perfis [ana]) with
                | [] => [Printed ("Nenhum perfil cadastrado até o momento." ++ nl)]
                | ps =>
                    Printed (nl ++ "Perfis cadastrados:")
                    :: map (fun item =>
                              Printed (Py.str_int (fst item) ++ ". "
                                       ++ Perfil.nome (snd item)))
                           (Py.enumerate 1 ps)
                    ++ [Printed ""]
                end)).
Proof.
  split; [reflexivity|].
  exact (menu_principal_listar 1 (com_perfis [ana]) "2 " ["5"] [] eq_refl).
Defined.

Lemma menu_passo_cadastro (self : SistemaOrientacao.t) (l1 l2 : string)
      (resto : list string) (saida : list event) :
  Py.strip l1 = "1" -> Py.strip l2 <> "" ->
  menu_passo self (mk_console (l1 :: l2 :: resto) saida)
  = match cadastrar_perfil self (Py.strip l2)
            (mk_console resto
               (saida ++ cabecalho ++ [Prompted "Digite seu nome: "])) with
    | Ok r c' => Ok (Some (fst r)) c'
    | EOFError c' => EOFError c'
    end.
Proof.
  intros H1 H2. menu_inicio. rewrite H1. cbn [String.eqb Ascii.eqb Bool.eqb].
  unfold bind at 1. unfold input at 1. cbn [stdin stdout].
  destruct (String.eqb_spec (Py.strip l2) "") as [E|_]; [contradiction|].
  unfold bind, cabecalho. rewrite <- !app_assoc. cbn [app].
  now destruct (cadastrar_perfil self (Py.strip l2) _).
Qed.

(** On ASCII lines, those of the levels of at most 640 characters,
    option 1 followed by a name that is not blank, and by enough accepted
    levels, registers one profile under the name without the blanks at
    its ends: the profile rates the skills of the catalog, in catalog
    order, with the first accepted levels typed after the name, it is
    appended to the profiles, and the loop goes round again on the lines
    after the last accepted one. *)
Theorem menu_principal_cadastro (fuel : nat) (self : SistemaOrientacao.t)
        (l1 l2 : string) (resto : list string) (saida : list event) :
  Py.wf (competencias self) ->
  Py.strip l1 = "1" ->
  Py.linha_ascii l2 -> Py.strip l2 <> "" ->
  Forall Py.linha_simples resto ->
  (List.length (Py.keys (competencias self))
   <= List.length (niveis_aceitos resto))%nat ->
  exists saida',
    menu_principal (S fuel) self (mk_console (l1 :: l2 :: resto) saida)
    = menu_principal fuel
        (SistemaOrientacao.make (competencias self) (carreiras self)
           (perfis self
            ++ [Perfil.make (Py.strip l2)
                  (combine (Py.keys (competencias self))
                           (niveis_aceitos resto))])%list
           (trilhas_competencias self))
        (mk_console
           (apos_aceitos resto (List.length (Py.keys (competencias self))))
           saida').
Proof.
  intros Hwf H1 _ H2 _ Hlen. cbn [menu_principal].
  rewrite menu_passo_cadastro by assumption.
  assert (E := cadastrar_perfil_entrada self (Py.strip l2)
                 (mk_console resto
                    (saida ++ cabecalho ++ [Prompted "Digite seu nome: "]))).
  cbv zeta in E. cbn [stdin] in E.
  apply Nat.leb_le in Hlen. rewrite Hlen in E.
  destruct E as [s' E]. exists s'. rewrite E. cbn [fst].
  unfold Perfil.novo. rewrite fold_registrar; [reflexivity|].
  cbn [Py.keys map app]. apply Nat.leb_le in Hlen.
  rewrite combine_fst by assumption. exact Hwf.
Qed.

Lemma menu_principal_cadastro_witness :
  Py.wf (competencias __init__)
  /\ Py.strip "1" = "1"
  /\ Py.linha_ascii " Ana " /\ Py.strip " Ana " <> ""
  /\ Forall Py.linha_simples entrada_exemplo
  /\ (List.length (Py.keys (competencias __init__))
      <= List.length (niveis_aceitos entrada_exemplo))%nat
  /\ exists saida',
      menu_principal 2 __init__ (mk_console ("1" :: " Ana " :: entrada_exemplo) [])
      = menu_principal 1
          (SistemaOrientacao.make (competencias __init__) (carreiras __init__)
             (perfis __init__
              ++ [Perfil.make (Py.strip " Ana ")
                    (combine (Py.keys (competencias __init__))
                             (niveis_aceitos entrada_exemplo))])%list
             (trilhas_competencias __init__))
          (mk_console
             (apos_aceitos entrada_exemplo
                (List.length (Py.keys (competencias __init__))))
             saida').
Proof.
  assert (H2 : Py.strip " Ana " <> "") by (vm_compute; discriminate).
  assert (H3 : (List.length (Py.keys (competencias __init__))
                <= List.length (niveis_aceitos entrada_exemplo))%nat)
    by (vm_compute; lia).
  assert (H4 : Forall Py.linha_simples entrada_exemplo)
    by (unfold entrada_exemplo; linhas_simples).
  split; [exact competencias_padrao_wf|]. split; [reflexivity|].
  split; [reflexivity|]. split; [exact H2|]. split; [exact H4|].
  split; [exact H3|].
  exact (menu_principal_cadastro 1 __init__ "1" " Ana " entrada_exemplo []
           competencias_padrao_wf eq_refl eq_refl H2 H4 H3).
Defined.

(** ** From the number listed to the profile selected *)

(** The number a sequence of decimal digits stands for, [acc] being the
    number read so far. *)
Fixpoint valor_uint (d : Decimal.uint) (acc : Z) : Z :=
  match d with
  | Decimal.Nil => acc
  | Decimal.D0 d' => valor_uint d' (10 * acc)
  | Decimal.D1 d' => valor_uint d' (10 * acc + 1)
  | Decimal.D2 d' => valor_uint d' (10 * acc + 2)
  | Decimal.D3 d' => valor_uint d' (10 * acc + 3)
  | Decimal.D4 d' => valor_uint d' (10 * acc + 4)
  | Decimal.D5 d' => valor_uint d' (10 * acc + 5)
  | Decimal.D6 d' => valor_uint d' (10 * acc + 6)
  | Decimal.D7 d' => valor_uint d' (10 * acc + 7)
  | Decimal.D8 d' => valor_uint d' (10 * acc + 8)
  | Decimal.D9 d' => valor_uint d' (10 * acc + 9)
  end.

Lemma parse_digits_uint (d : Decimal.uint) (acc : Z) :
  Py.parse_digits (NilEmpty.string_of_uint d) acc true
  = Some (valor_uint d acc).
Proof.
  revert acc. induction d; intros acc; simpl; try reflexivity;
    rewrite IHd; do 2 f_equal; lia.
Qed.

Lemma parse_digits_uint_inicio (d : Decimal.uint) :
  d <> Decimal.Nil ->
  Py.parse_digits (NilEmpty.string_of_uint d) 0 false
  = Some (valor_uint d 0).
Proof.
  destruct d; intros H; try congruence; simpl; now rewrite parse_digits_uint.
Qed.

Lemma valor_uint_acc (d : Decimal.uint) (acc : positive) :
  valor_uint d (Zpos acc) = Zpos (Pos.of_uint_acc d acc).
Proof.
  revert acc. induction d; intros acc; cbn [valor_uint Pos.of_uint_acc];
    try reflexivity; rewrite <- IHd; f_equal; lia.
Qed.

Lemma valor_uint_0 (d : Decimal.uint) :
  valor_uint d 0 = Z.of_N (Pos.of_uint d).
Proof.
  induction d; cbn [valor_uint Pos.of_uint Z.of_N]; try reflexivity;
    try exact IHd; apply valor_uint_acc.
Qed.

Lemma is_digit_not_space (c : ascii) :
  is_digit c = true -> Py.is_space c = false.
Proof.
  destruct c as [[|] [|] [|] [|] [|] [|] [|] [|]]; vm_compute;
    intros H; try reflexivity; discriminate H.
Qed.

Lemma rstrip_digits (s : string) : all_digits s = true -> Py.rstrip s = s.
Proof.
  induction s as [|c s IH]; simpl; [reflexivity|].
  intros H. apply andb_true_iff in H. destruct H as [Hc Hs].
  rewrite IH by assumption. apply is_digit_not_space in Hc.
  destruct s; [now rewrite Hc|reflexivity].
Qed.

Lemma strip_digits (s : string) : all_digits s = true -> Py.strip s = s.
Proof.
  intros H. unfold Py.strip.
  replace (Py.lstrip s) with s; [now apply rstrip_digits|].
  destruct s as [|c s]; [reflexivity|]. simpl in *.
  apply andb_true_iff in H. destruct H as [Hc _].
  now rewrite (is_digit_not_space c Hc).
Qed.

Lemma int_digits (s : string) :
  all_digits s = true -> Py.int s = Py.parse_digits s 0 false.
Proof.
  intros H. unfold Py.int. rewrite strip_digits by assumption.
  destruct s as [|c s]; [reflexivity|]. simpl in H.
  apply andb_true_iff in H. destruct H as [Hc _].
  destruct c as [[|] [|] [|] [|] [|] [|] [|] [|]]; try reflexivity;
    vm_compute in Hc; discriminate Hc.
Qed.

(** [int(str(n))] gives [n] back, also once more through [strip]. *)
Lemma int_str_int (n : Z) :
  0 <= n -> Py.int (Py.strip (Py.str_int n)) = Some n.
Proof.
  intros Hn. unfold Py.str_int.
  destruct (Z.ltb_spec n 0); [lia|].
  destruct (decimal_digits n) as [Hd _].
  rewrite strip_digits, int_digits by assumption.
  unfold Py.decimal, NilZero.string_of_uint.
  assert (Hv : valor_uint (N.to_uint (Z.to_N n)) 0 = n).
  { rewrite valor_uint_0.
    change (Pos.of_uint (N.to_uint (Z.to_N n)))
      with (N.of_uint (N.to_uint (Z.to_N n))).
    rewrite Unsigned.of_to. lia. }
  destruct (N.to_uint (Z.to_N n)) eqn:E;
    try (rewrite parse_digits_uint_inicio by discriminate; now rewrite Hv).
  simpl in Hv. now subst.
Qed.

Lemma enumerate_nth {A : Type} (l : list A) (start num : Z) (x : A) :
  In (num, x) (Py.enumerate start l) ->
  start <= num < start + Z.of_nat (List.length l)
  /\ nth_error l (Z.to_nat (num - start)) = Some x.
Proof.
  revert start. induction l as [|y l IH]; intros start; simpl; [tauto|].
  intros [[= <- <-]|H].
  - rewrite Z.sub_diag. split; [lia|reflexivity].
  - apply IH in H. destruct H as [Hr Hn]. split; [lia|].
    replace (Z.to_nat (num - start)) with (S (Z.to_nat (num - (start + 1))))
      by lia.
    exact Hn.
Qed.

(** The number [listar_perfis] prints in front of a profile, typed back at
    options 3 and 4, selects that profile. *)
Theorem selecionar_numero_listado (ps : list Perfil.t) (num : Z)
        (perfil : Perfil.t) :
  In (num, perfil) (Py.enumerate 1 ps) ->
  selecionar ps (Py.str_int num) = Some perfil.
Proof.
  intros H. apply enumerate_nth in H. destruct H as [Hr Hn].
  unfold selecionar. rewrite int_str_int by lia.
  unfold Py.index. destruct (Z.leb_spec 0 (num - 1)); [exact Hn|lia].
Qed.

Lemma selecionar_numero_listado_witness :
  In (2, ana) (Py.enumerate 1 [Perfil.novo "Bia"; ana])
  /\ selecionar [Perfil.novo "Bia"; ana] (Py.str_int 2) = Some ana.
Proof.
  assert (H : In (2, ana) (Py.enumerate 1 [Perfil.novo "Bia"; ana]))
    by (right; left; reflexivity).
  split; [exact H|].
  exact (selecionar_numero_listado [Perfil.novo "Bia"; ana] 2 ana H).
Defined.

(** ** What the menu loop keeps *)

(** When [m] returns, its result satisfies [Q] and at least [k] lines of
    the input have been read; when it ends in [EOFError], the whole input
    has been read. *)
Definition avanca {A : Type} (k : nat) (m : io A) (Q : A -> Prop) : Prop :=
  forall c,
    match m c with
    | Ok a c' => Q a /\ (List.length (stdin c') + k <= List.length (stdin c))%nat
    | EOFError c' => stdin c' = []
    end.

Lemma avanca_ret {A : Type} (a : A) (Q : A -> Prop) :
  Q a -> avanca 0 (ret a) Q.
Proof. intros H c. simpl. split; [assumption|lia]. Qed.

Lemma avanca_bind {A B : Type} (k1 k2 : nat) (m : io A) (f : A -> io B)
      (P : A -> Prop) (Q : B -> Prop) :
  avanca k1 m P -> (forall a, P a -> avanca k2 (f a) Q) ->
  avanca (k1 + k2) (bind m f) Q.
Proof.
  intros Hm Hf c. unfold bind. specialize (Hm c).
  destruct (m c) as [a c1|c1]; [|exact Hm].
  destruct Hm as [Ha H1]. specialize (Hf a Ha c1).
  destruct (f a c1) as [b c2|c2]; [|exact Hf].
  destruct Hf as [Hb H2]. split; [assumption|lia].
Qed.

Lemma avanca_menos {A : Type} (k : nat) (m : io A) (Q : A -> Prop) :
  avanca k m Q -> avanca 0 m Q.
Proof.
  intros H c. specialize (H c). destruct (m c); [|exact H].
  destruct H. split; [assumption|lia].
Qed.

Lemma avanca_print (text : string) : avanca 0 (print text) (fun _ => True).
Proof. intros c. simpl. split; [exact Logic.I|lia]. Qed.

Lemma avanca_input (prompt : string) : avanca 1 (input prompt) (fun _ => True).
Proof.
  intros c. unfold input.
  destruct (stdin c) as [|l r] eqn:E; simpl; [exact E|].
  split; [exact Logic.I|lia].
Qed.

Lemma avanca_for_each_print {A : Type} (f : A -> string) (xs : list A) :
  avanca 0 (for_each xs (fun x => print (f x))) (fun _ => True).
Proof.
  intros c. rewrite for_each_print. simpl. split; [exact Logic.I|lia].
Qed.

Lemma avanca_listar_perfis (self : SistemaOrientacao.t) :
  avanca 0 (listar_perfis self) (fun _ => True).
Proof.
  intros c. rewrite listar_perfis_geral. simpl. split; [exact Logic.I|lia].
Qed.

(** The profile rates exactly the skills of the catalog, from 1 to 5. *)
Definition perfil_completo (self : SistemaOrientacao.t) (perfil : Perfil.t)
  : Prop :=
  Py.keys (Perfil.competencias perfil) = Py.keys (competencias self)
  /\ niveis_validos (Perfil.competencias perfil).

(** [self'] has the catalogs of [self] and its profiles, followed by new
    ones that are complete if the skill names of the catalog are
    distinct. *)
Definition sucede (self self' : SistemaOrientacao.t) : Prop :=
  competencias self' = competencias self
  /\ carreiras self' = carreiras self
  /\ trilhas_competencias self' = trilhas_competencias self
  /\ exists novos,
      perfis self' = (perfis self ++ novos)%list
      /\ (Py.wf (competencias self) -> Forall (perfil_completo self) novos).

Lemma sucede_refl (self : SistemaOrientacao.t) : sucede self self.
Proof.
  repeat split. exists []. split; [now rewrite app_nil_r|constructor].
Qed.

Lemma sucede_trans (s1 s2 s3 : SistemaOrientacao.t) :
  sucede s1 s2 -> sucede s2 s3 -> sucede s1 s3.
Proof.
  intros (Hc & Hk & Ht & n1 & Hp & Hv) (Hc' & Hk' & Ht' & n2 & Hp' & Hv').
  repeat split; try congruence.
  exists (n1 ++ n2)%list. split.
  - now rewrite Hp', Hp, app_assoc.
  - intros Hwf. apply Forall_app. split; [now apply Hv|].
    rewrite Hc in Hv'. specialize (Hv' Hwf).
    revert Hv'. apply Forall_impl. unfold perfil_completo. now rewrite Hc.
Qed.

Lemma avanca_cadastrar_perfil (self : SistemaOrientacao.t) (nome : string) :
  avanca 0 (cadastrar_perfil self nome) (fun r => sucede self (fst r)).
Proof.
  intros c.
  assert (E := cadastrar_perfil_entrada self nome c). cbv zeta in E.
  destruct (Nat.leb_spec (List.length (Py.keys (competencias self)))
                         (List.length (niveis_aceitos (stdin c))))
    as [Hle|Hlt]; destruct E as [s' ->]; [|reflexivity].
  cbn [fst stdin]. split.
  - repeat split. eexists. split; [reflexivity|].
    intros Hwf. constructor; [|constructor].
    unfold Perfil.novo. rewrite fold_registrar.
    + cbn [app Perfil.competencias]. split; [now apply combine_fst|].
      apply (combine_snd_Forall (fun v => 1 <= v <= 5)).
      apply niveis_aceitos_faixa.
    + cbn [Py.keys map app]. rewrite combine_fst by assumption. exact Hwf.
  - destruct (apos_aceitos_sufixo (stdin c)
                (List.length (Py.keys (competencias self)))) as [l Hl].
    rewrite Hl at 2. rewrite length_app. lia.
Qed.

Definition passo_ok (self : SistemaOrientacao.t) (r : option SistemaOrientacao.t)
  : Prop :=
  match r with
  | Some self' => sucede self self'
  | None => True
  end.

Ltac avanca_passos :=
  repeat lazymatch goal with
         | |- avanca _ (ret _) _ => apply avanca_ret
         | |- avanca _ (print _) _ => apply avanca_print
         | |- avanca _ (listar_perfis _) _ => apply avanca_listar_perfis
         | |- avanca _ (for_each _ _) _ => apply avanca_for_each_print
         | |- avanca _ (bind _ _) _ =>
             apply (avanca_bind 0 0) with (P := fun _ => True); [|intros ? _]
         | |- avanca _ (if ?b then _ else _) _ => destruct b
         | |- avanca _ (match ?x with _ => _ end) _ => destruct x
         end.

(** One pass of the loop reads at least one line and leaves a state that
    succeeds the one it started from. *)
Lemma avanca_menu_passo (self : SistemaOrientacao.t) :
  avanca 1 (menu_passo self) (passo_ok self).
Proof.
  unfold menu_passo.
  apply (avanca_bind 0 1) with (P := fun _ => True); [apply avanca_print|].
  intros _ _.
  apply (avanca_bind 1 0) with (P := fun _ => True); [apply avanca_input|].
  intros linha _. cbv zeta.
  destruct (Py.strip linha =? "1")%string.
  { apply (avanca_bind 0 0) with (P := fun _ => True).
    - apply (avanca_menos 1), avanca_input.
    - intros nome _. destruct (Py.strip nome =? "")%string.
      + apply avanca_ret. apply sucede_refl.
      + apply (avanca_bind 0 0) with (P := fun r => sucede self (fst r)).
        * apply avanca_cadastrar_perfil.
        * intros r Hr. now apply avanca_ret. }
  destruct (Py.strip linha =? "2")%string.
  { avanca_passos. apply sucede_refl. }
  destruct (Py.strip linha =? "3")%string.
  { destruct (perfis self) as [|p ps].
    - avanca_passos. apply sucede_refl.
    - apply (avanca_bind 0 0) with (P := fun _ => True);
        [apply avanca_listar_perfis|intros _ _].
      apply (avanca_bind 0 0) with (P := fun _ => True).
      + apply (avanca_menos 1), avanca_input.
      + intros l2 _. avanca_passos; apply sucede_refl. }
  destruct (Py.strip linha =? "4")%string.
  { destruct (perfis self) as [|p ps].
    - avanca_passos. apply sucede_refl.
    - apply (avanca_bind 0 0) with (P := fun _ => True);
        [apply avanca_listar_perfis|intros _ _].
      apply (avanca_bind 0 0) with (P := fun _ => True).
      + apply (avanca_menos 1), avanca_input.
      + intros l2 _. avanca_passos; apply sucede_refl. }
  destruct (Py.strip linha =? "5")%string.
  { avanca_passos. exact Logic.I. }
  avanca_passos. apply sucede_refl.
Qed.

Lemma menu_principal_sucede (fuel : nat) (self self' : SistemaOrientacao.t)
      (c c' : console) :
  menu_principal fuel self c = Some (Ok self' c') -> sucede self self'.
Proof.
  revert self c. induction fuel as [|fuel IH]; intros self c H; [discriminate H|].
  cbn [menu_principal] in H.
  assert (E := avanca_menu_passo self c).
  destruct (menu_passo self c) as [[s1|] c1|c1].
  - destruct E as [Hs _].
    apply (sucede_trans _ s1); [exact Hs|]. now apply (IH s1 c1).
  - injection H as <- <-. apply sucede_refl.
  - discriminate H.
Qed.

(** Whatever is typed, when [menu_principal] ends through option 5 the
    skills, the careers and the learning tracks are those it started
    with, and the profiles are the earlier ones, in their order, followed
    by the newly registered ones; if the skill names of the catalog are
    distinct, every new profile rates exactly the skills of the catalog
    with levels from 1 to 5. *)
Theorem menu_principal_estado (fuel : nat) (self self' : SistemaOrientacao.t)
        (c c' : console) :
  menu_principal fuel self c = Some (Ok self' c') ->
  competencias self' = competencias self
  /\ carreiras self' = carreiras self
  /\ trilhas_competencias self' = trilhas_competencias self
  /\ exists novos,
      perfis self' = (perfis self ++ novos)%list
      /\ (Py.wf (competencias self) ->
          Forall (fun perfil =>
                    Py.keys (Perfil.competencias perfil)
                    = Py.keys (competencias self)
                    /\ niveis_validos (Perfil.competencias perfil))
                 novos).
Proof. intros H. exact (menu_principal_sucede fuel self self' c c' H). Qed.

Definition sessao_exemplo : list string :=
  ["2"; "1"; "Ana"; "5"; "x"; "1"; "5"; "1"; "5"; "1"; "1"; "5"; "5"; "1";
   "3"; "1"; "5"].

Lemma menu_principal_estado_witness :
  exists self' c',
    menu_principal 4 __init__ (mk_console sessao_exemplo []) = Some (Ok self' c')
    /\ competencias self' = competencias __init__
    /\ carreiras self' = carreiras __init__
    /\ trilhas_competencias self' = trilhas_competencias __init__
    /\ exists novos,
        perfis self' = (perfis __init__ ++ novos)%list
        /\ (Py.wf (competencias __init__) ->
            Forall (fun perfil =>
                      Py.keys (Perfil.competencias perfil)
                      = Py.keys (competencias __init__)
                      /\ niveis_validos (Perfil.competencias perfil))
                   novos).
Proof.
  destruct (menu_principal 4 __init__ (mk_console sessao_exemplo []))
    as [[self' c'|c']|] eqn:E;
    [|vm_compute in E; discriminate E|vm_compute in E; discriminate E].
  exists self', c'. split; [reflexivity|].
  exact (menu_principal_estado 4 __init__ self' _ c' E).
Defined.

(** ** The loop stops *)

(** Every pass of the loop reads at least one line, so on an input of [n]
    lines [menu_principal] has stopped within [n + 1] passes: through
    option 5, or with [EOFError] at the first [input] after the last
    line. *)
Theorem menu_principal_termina (fuel : nat) (self : SistemaOrientacao.t)
        (c : console) :
  (List.length (stdin c) < fuel)%nat ->
  (exists self' c', menu_principal fuel self c = Some (Ok self' c'))
  \/ (exists c', menu_principal fuel self c = Some (EOFError c')
                 /\ stdin c' = []).
Proof.
  revert self c. induction fuel as [|fuel IH]; intros self c H; [lia|].
  cbn [menu_principal].
  assert (E := avanca_menu_passo self c).
  destruct (menu_passo self c) as [[s1|] c1|c1].
  - destruct E as [_ E]. apply IH. lia.
  - left. eauto.
  - right. eauto.
Qed.

Lemma menu_principal_termina_witness :
  (List.length (stdin (mk_console ["2"; "7"; "1"] [])) < 4)%nat
  /\ ((exists self' c',
          menu_principal 4 __init__ (mk_console ["2"; "7"; "1"] [])
          = Some (Ok self' c'))
      \/ (exists c',
             menu_principal 4 __init__ (mk_console ["2"; "7"; "1"] [])
             = Some (EOFError c')
             /\ stdin c' = [])).
Proof.
  assert (H : (List.length (stdin (mk_console ["2"; "7"; "1"] [])) < 4)%nat)
    by (simpl; lia).
  split; [exact H|].
  exact (menu_principal_termina 4 __init__ (mk_console ["2"; "7"; "1"] []) H).
Defined.

(** ** The program *)

Module Main.

(** [main()]: a new system runs the menu loop, here for at most [fuel]
    passes. *)
Definition main (fuel : nat) (c : console)
  : option (result SistemaOrientacao.t) :=
  menu_principal fuel __init__ c.

End Main.

Lemma get_keys {V : Type} (d : Py.dict V) (k : string) :
  In k (Py.keys d) -> Py.get d k <> None.
Proof.
  induction d as [|[k' v] d IH]; simpl; [tauto|].
  destruct (String.eqb_spec k' k) as [->|Hne]; [discriminate|].
  intros [H|H]; [contradiction|now apply IH].
Qed.

(** Whatever is typed, when the program ends through option 5 the
    catalogs are the built-in ones and every stored profile rates exactly
    the ten skills of the catalog, in catalog order, with levels from 1
    to 5; hence each of the six careers scores it from [20.0] to
    [100.0]. *)
Theorem main_perfis (fuel : nat) (c c' : console)
        (self' : SistemaOrientacao.t) :
  Main.main fuel c = Some (Ok self' c') ->
  competencias self' = competencias __init__
  /\ carreiras self' = carreiras_padrao
  /\ trilhas_competencias self' = trilhas_padrao
  /\ Forall (fun perfil =>
               Py.keys (Perfil.competencias perfil)
               = map Competencia.nome competencias_definidas
               /\ niveis_validos (Perfil.competencias perfil)
               /\ forall carreira,
                   In carreira (carreiras self') ->
                   (20 <=? Carreira.calcular_pontuacao
                             carreira (Perfil.competencias perfil))%float = true
                   /\ (Carreira.calcular_pontuacao
                         carreira (Perfil.competencias perfil) <=? 100)%float
                      = true)
            (perfis self').
Proof.
  unfold Main.main. intros H. apply menu_principal_sucede in H.
  destruct H as (Hc & Hk & Ht & novos & Hp & Hv).
  split; [exact Hc|]. split; [exact Hk|]. split; [exact Ht|].
  rewrite Hp. cbn [perfis __init__ _carregar_dados_padrao app].
  specialize (Hv competencias_padrao_wf).
  revert Hv. apply Forall_impl. intros perfil [Hkeys Hniv].
  split; [exact Hkeys|]. split; [exact Hniv|].
  rewrite Hk. intros carreira Hin. split.
  - assert (H1 := catalogo_nivel_1). rewrite Forall_forall in H1.
    destruct (H1 carreira Hin) as (Hw & Hf & H20).
    apply (F.leb_trans _ _ _ H20). apply ple_leb.
    + apply F.leb_true in H20. tauto.
    + apply calcular_pontuacao_numero; auto using niveis_validos_0_a_5.
    + apply calcular_pontuacao_mono_requeridas; [assumption|].
      intros comp Hreq. unfold uniforme.
      rewrite get_or_uniforme by assumption.
      apply niveis_validos_get; [assumption|].
      apply get_keys. rewrite Hkeys.
      exact (carreiras_padrao_chaves carreira comp Hin Hreq).
  - assert (H := catalogo_satisfaz_correto em_0_100 catalogo_em_0_100
                   carreira _ Hin Hniv).
    unfold em_0_100 in H. apply andb_true_iff in H. tauto.
Qed.

Lemma main_perfis_witness :
  exists self' c',
    Main.main 4 (mk_console sessao_exemplo []) = Some (Ok self' c')
    /\ competencias self' = competencias __init__
    /\ carreiras self' = carreiras_padrao
    /\ trilhas_competencias self' = trilhas_padrao
    /\ Forall (fun perfil =>
                 Py.keys (Perfil.competencias perfil)
                 = map Competencia.nome competencias_definidas
                 /\ niveis_validos (Perfil.competencias perfil)
                 /\ forall carreira,
                     In carreira (carreiras self') ->
                     (20 <=? Carreira.calcular_pontuacao
                               carreira (Perfil.competencias perfil))%float = true
                     /\ (Carreira.calcular_pontuacao
                           carreira (Perfil.competencias perfil) <=? 100)%float
                        = true)
              (perfis self').
Proof.
  destruct (Main.main 4 (mk_console sessao_exemplo []))
    as [[self' c'|c']|] eqn:E;
    [|vm_compute in E; discriminate E|vm_compute in E; discriminate E].
  exists self', c'. split; [reflexivity|].
  exact (main_perfis 4 (mk_console sessao_exemplo []) c' self' E).
Defined.
